(** * TechNest Node.js back ends: authentication, ownership, chat relay

    A shallow embedding of the request-scoped logic of three sub-projects:

    - [ExpressBlog]: task2/express-blog-api (middleware/auth.js,
      routes/auth.js, models/User.js);
    - [SecureBlog]: task3/secure-blog-api (server.js, middleware/auth.js,
      routes/posts.js, models/Post.js);
    - [Chat]: task5/chat-app/server.js.

    Handlers are functions from the request and the state they read
    (environment, collections, clock) to an outcome: either the next
    handler runs on the updated request, or a response is sent.  The npm
    packages the code calls (jsonwebtoken, mongoose's id casting, bcryptjs,
    String.prototype.trim / toLowerCase) are an interface, [NodeLibs]; what
    the proofs need from them is stated in [NodeLibsLaws], [BcryptLaws] and
    [StringLaws]. *)

From Stdlib Require Import ZArith String Ascii List Bool.
From stdpp Require Import base gmap strings list fin_maps countable pretty.

Open Scope string_scope.
Open Scope Z_scope.

(** ** JavaScript values and string primitives *)

(** The JSON scalars that occur in token payloads and documents. *)
Inductive JVal :=
  | JStr (s : string)
  | JNum (n : Z)
  | JBool (b : bool)
  | JList (l : list string).

#[global] Instance JVal_eq_dec : EqDecision JVal.
Proof. solve_decision. Defined.

Definition JVal_to_sum (v : JVal) : string + (Z + (bool + list string)) :=
  match v with
  | JStr s => inl s
  | JNum n => inr (inl n)
  | JBool b => inr (inr (inl b))
  | JList l => inr (inr (inr l))
  end.

Definition JVal_of_sum (x : string + (Z + (bool + list string))) : JVal :=
  match x with
  | inl s => JStr s
  | inr (inl n) => JNum n
  | inr (inr (inl b)) => JBool b
  | inr (inr (inr l)) => JList l
  end.

#[global] Instance JVal_countable : Countable JVal.
Proof.
  apply (inj_countable' JVal_to_sum JVal_of_sum).
  intros []; reflexivity.
Defined.

(** A plain object with scalar fields. *)
Abbreviation Obj := (gmap string JVal).

Module Js.

(** [s.slice(n)] for [0 <= n]. *)
Fixpoint slice (n : nat) (s : string) : string :=
  match n, s with
  | O, _ => s
  | S _, EmptyString => EmptyString
  | S n', String _ s' => slice n' s'
  end.

(** [s.startsWith(p)]. *)
Definition startsWith (p s : string) : bool := String.prefix p s.

(** [s.replace(pat, rep)] with a string pattern: the first occurrence only. *)
Fixpoint replace (pat rep s : string) : string :=
  if String.prefix pat s then rep +:+ slice (String.length pat) s
  else match s with
       | EmptyString => EmptyString
       | String c s' => String c (replace pat rep s')
       end.

(** Truthiness of a string-or-undefined value. *)
Definition truthy (o : option string) : bool :=
  match o with
  | Some s => negb (String.eqb s "")
  | None => false
  end.

(** [o || d] for a string-or-undefined [o]. *)
Definition or_else (o : option string) (d : string) : string :=
  match o with
  | Some s => if String.eqb s "" then d else s
  | None => d
  end.

(** A string here is the UTF-8 text of a JavaScript string, whose [length]
    and [substring] count UTF-16 code units.  On ASCII text a byte is a
    unit, and the two agree. *)
Definition is_ascii (s : string) : bool :=
  forallb (fun c => (nat_of_ascii c <? 128)%nat) (list_ascii_of_string s).

(** [s.length]: one unit for every character of one to three bytes, two
    (a surrogate pair) for every character of four; continuation bytes
    count nothing. *)
Fixpoint length (s : string) : Z :=
  match s with
  | EmptyString => 0
  | String c s' =>
      let n := nat_of_ascii c in
      (if (n <? 128)%nat then 1
       else if (n <? 192)%nat then 0
       else if (n <? 240)%nat then 1
       else 2) + length s'
  end.

(** The double nearest to an integer, ties to the even significand: every
    integer up to 2^53 in magnitude is a double; beyond, the doubles between
    2^b and 2^(b+1) are the multiples of 2^(b-52).  (Integers below 2^1024
    in magnitude.) *)
Definition to_double (x : Z) : Z :=
  let a := Z.abs x in
  if a <=? 2 ^ 53 then x
  else
    let e := Z.log2 a - 52 in
    let q := a / 2 ^ e in
    let r := a mod 2 ^ e in
    let half := 2 ^ (e - 1) in
    let q' :=
      if r <? half then q
      else if half <? r then q + 1
      else if Z.even q then q else q + 1 in
    Z.sgn x * (q' * 2 ^ e).

End Js.

(** ** The npm packages, as an interface *)

Class NodeLibs := {
  (** jsonwebtoken, JWS layer: the compact serialisation of a payload signed
      with a key, and its inverse, defined when the string is a well-formed
      token whose signature checks under the key.  The key [""] stands for no
      key at all (an undefined or empty secret): what opens without a key is
      the library's business. *)
  jws_sign : Obj -> string -> string;
  jws_open : string -> string -> option Obj;
  (** jsonwebtoken decodes a token before it checks anything else, and the
      decoding (jws) parses the payload with an unguarded [JSON.parse] when
      the header says [typ: "JWT"]: on a token of three parts whose header
      is such JSON and whose payload is not JSON it throws a SyntaxError,
      which [jwt.verify] passes on.  No such token opens under any key. *)
  jws_decode_throws : string -> bool;
  (** jsonwebtoken's [timespan] of a string [expiresIn], in whole seconds
      (the [ms] package's milliseconds, divided by 1000 and floored);
      [None] when [ms] does not parse the string. *)
  span_seconds : string -> option Z;
  (** mongoose's cast of a query value to an ObjectId, as its hex string;
      [None] is a CastError. *)
  cast_object_id : JVal -> option string;
  (** bcryptjs. *)
  bcrypt_hash : string -> string -> string;
  bcrypt_compare : string -> string -> bool;
  (** String.prototype.trim and String.prototype.toLowerCase. *)
  str_trim : string -> string;
  str_lower : string -> string
}.

Class NodeLibsLaws `{NodeLibs} : Prop := {
  jws_open_sign : forall p k, k <> "" -> jws_open (jws_sign p k) k = Some p;
  jws_sign_nonempty : forall p k, jws_sign p k <> "";
  span_7d : span_seconds "7d" = Some 604800;
  span_24h : span_seconds "24h" = Some 86400;
  span_1h : span_seconds "1h" = Some 3600
}.

(** ** jsonwebtoken: sign and verify *)

Module Jwt.

Inductive ErrorName :=
  | JsonWebTokenError
  | TokenExpiredError
  | NotBeforeError
  | SyntaxError.

Inductive Verified :=
  | Decoded (payload : Obj)
  | Throws (name : ErrorName).

Record SignOptions := {
  expiresIn : option string;
  issuer : option string;
  audience : option string
}.

Section Jwt.
Context `{NodeLibs}.

(** [Math.floor(Date.now() / 1000)], [now] in milliseconds. *)
Definition clock (now : Z) : Z := now / 1000.

Definition set_opt (k : string) (o : option string) (p : Obj) : Obj :=
  match o with
  | Some s => <[k := JStr s]> p
  | None => p
  end.

(** The payload [jwt.sign({ userId }, secret, options)] signs at time [now]:
    [userId], then [iat], then [exp = iat + span] when [expiresIn] is given,
    then [aud] and [iss] when given.  [None] when [expiresIn] is not a
    timespan, which makes [jwt.sign] throw. *)
Definition claims (userId : string) (o : SignOptions) (now : Z) : option Obj :=
  let iat := clock now in
  let p0 : Obj := <["iat" := JNum iat]> {["userId" := JStr userId]} in
  (fun p => set_opt "iss" (issuer o) (set_opt "aud" (audience o) p))
  <$> match expiresIn o with
      | None => Some p0
      | Some s => (fun d => <["exp" := JNum (iat + d)]> p0) <$> span_seconds s
      end.

(** [jwt.sign({ userId }, secret, options)] at time [now]; [None] when the
    call throws (no key, or no payload). *)
Definition sign (userId : string) (secret : option string)
    (o : SignOptions) (now : Z) : option string :=
  if Js.truthy secret
  then (fun p => jws_sign p (Js.or_else secret "")) <$> claims userId o now
  else None.

(** The expiry check of [jwt.verify]: [exp] must be a number, and the token
    is expired from [exp] on. *)
Definition check_exp (p : Obj) (now : Z) : Verified :=
  match p !! "exp" with
  | Some (JNum e) => if e <=? clock now then Throws TokenExpiredError else Decoded p
  | Some _ => Throws JsonWebTokenError
  | None => Decoded p
  end.

(** [jwt.verify(token, secret)] at time [now], no options: the token must
    be given and must open under the key, then [nbf], then [exp].  A token
    that does not open is a JsonWebTokenError, unless it is one on which the
    decoding throws: then the SyntaxError of the decoding is what
    [jwt.verify] throws. *)
Definition verify (token : string) (secret : option string) (now : Z) : Verified :=
  if String.eqb token "" then Throws JsonWebTokenError
  else
    match jws_open token (Js.or_else secret "") with
    | None =>
        if jws_decode_throws token then Throws SyntaxError
        else Throws JsonWebTokenError
    | Some p =>
        match p !! "nbf" with
        | Some (JNum n) =>
            if clock now <? n then Throws NotBeforeError else check_exp p now
        | Some _ => Throws JsonWebTokenError
        | None => check_exp p now
        end
    end.

End Jwt.
End Jwt.

(** ** mongoose: collections and lookups *)

Module Db.

Inductive Result (A : Type) :=
  | Found (a : A)
  | Null
  | Rejects (name : string).
#[global] Arguments Found {A} a.
#[global] Arguments Null {A}.
#[global] Arguments Rejects {A} name.

Section Db.
Context `{NodeLibs}.

(** [Model.findById(id)] on a collection keyed by [_id].  An undefined id
    is looked up as [null]; a value that does not cast is a CastError. *)
Definition findById {A} (coll : gmap string A) (id : option JVal) : Result A :=
  match id with
  | None => Null
  | Some v =>
      match cast_object_id v with
      | None => Rejects "CastError"
      | Some k =>
          match coll !! k with
          | Some a => Found a
          | None => Null
          end
      end
  end.

(** [Model.findOne(cond)]: some document that satisfies the condition. *)
Definition findOne {A} (P : A -> bool) (coll : gmap string A) : option A :=
  snd <$> head (filter (fun kv => P (snd kv) = true) (map_to_list coll)).

End Db.
End Db.

(** ** HTTP responses *)

Inductive Body :=
  | BError (error : string)                      (* { error } *)
  | BErrors (errors : list string)               (* { errors } *)
  | BMessage (success : bool) (message : string) (* { success, message } *)
  | BCreated (message : string) (user : Obj) (token : string)
  | BSession (access refresh : string) (user : Obj)
  | BAccess (access : string)
  | BUser (user : option Obj)
  | BPost (success : bool) (message : string) (post : Obj) (author : option Obj)
  | BInvalid (message : string) (errors : list (string * string))
  | BFailure (message : string) (stack : option string)
  | BUncaught (name : string)                    (* Express's default error page *).

Inductive Outcome (Req : Type) :=
  | Next (req : Req)
  | Respond (status : Z) (body : Body).
#[global] Arguments Next {Req} req.
#[global] Arguments Respond {Req} status body.

Inductive Role := RoleUser | RoleAdmin.

#[global] Instance Role_eq_dec : EqDecision Role.
Proof. solve_decision. Defined.

Definition role_name (r : Role) : string :=
  match r with
  | RoleUser => "user"
  | RoleAdmin => "admin"
  end.

(** [process.env], the variables the code reads. *)
Record Env := {
  JWT_SECRET : option string;
  JWT_REFRESH_SECRET : option string;
  JWT_EXPIRES_IN : option string;
  NODE_ENV : option string
}.

(** Truthiness and [toString()] of a scalar. *)
Definition js_truthy (v : JVal) : bool :=
  match v with
  | JStr s => negb (String.eqb s "")
  | JNum n => negb (n =? 0)
  | JBool b => b
  | JList _ => true
  end.

Definition js_toString (v : JVal) : string :=
  match v with
  | JStr s => s
  | JNum n => pretty n
  | JBool b => if b then "true" else "false"
  | JList l => String.concat "," l
  end.

Definition put (k : string) (o : option JVal) (m : Obj) : Obj :=
  match o with
  | Some v => <[k := v]> m
  | None => m
  end.

Definition opt_all {A} (P : A -> bool) (o : option A) : bool :=
  match o with
  | Some a => P a
  | None => true
  end.

(** ** task2/express-blog-api *)

Module ExpressBlog.

(** models/User.js: the schema's paths, with the timestamps and the version
    key mongoose adds. *)
Record User := {
  _id : string;
  username : string;
  email : string;
  password : string;
  firstName : option string;
  lastName : option string;
  bio : option string;
  location : option string;
  birthDate : option Z;
  avatar : option string;
  isVerified : bool;
  role : Role;
  createdAt : Z;
  updatedAt : Z
}.

(** [this.toObject()]: the paths that are set. *)
Definition toObject (u : User) : Obj :=
  put "firstName" (JStr <$> firstName u)
  (put "lastName" (JStr <$> lastName u)
  (put "bio" (JStr <$> bio u)
  (put "location" (JStr <$> location u)
  (put "birthDate" (JNum <$> birthDate u)
  (put "avatar" (JStr <$> avatar u)
  (<["_id" := JStr (_id u)]>
  (<["username" := JStr (username u)]>
  (<["email" := JStr (email u)]>
  (<["password" := JStr (password u)]>
  (<["isVerified" := JBool (isVerified u)]>
  (<["role" := JStr (role_name (role u))]>
  (<["createdAt" := JNum (createdAt u)]>
  (<["updatedAt" := JNum (updatedAt u)]>
  (<["__v" := JNum 0]> ∅)))))))))))))).

(** [userSchema.methods.toJSON]: [toObject()] with [password] deleted. *)
Definition toJSON (u : User) : Obj := delete "password" (toObject u).

Record Request := {
  authorization : option string;   (* req.header('Authorization') *)
  params : gmap string string;     (* req.params *)
  userId : option JVal;            (* req.userId *)
  user : option User               (* req.user *)
}.

Definition attach (req : Request) (uid : option JVal) (u : User) : Request :=
  {| authorization := authorization req; params := params req;
     userId := uid; user := Some u |}.

(** The token [auth] and [optionalAuth] take from a header:
    [header.replace('Bearer ', '')]. *)
Definition token_of (authHeader : string) : string :=
  Js.replace "Bearer " "" authHeader.

Section Handlers.
Context `{NodeLibs}.

(** middleware/auth.js, [auth]. *)
Definition auth (env : Env) (users : gmap string User) (now : Z)
    (req : Request) : Outcome Request :=
  let token := token_of <$> authorization req in
  if negb (Js.truthy token) then
    Respond 401 (BError "Access denied. No token provided.")
  else
    match Jwt.verify (Js.or_else token "")
            (Some (Js.or_else (JWT_SECRET env) "your-secret-key")) now with
    | Jwt.Decoded decoded =>
        match Db.findById users (decoded !! "userId") with
        | Db.Found u => Next (attach req (decoded !! "userId") u)
        | Db.Null => Respond 401 (BError "Invalid token.")
        | Db.Rejects _ => Respond 401 (BError "Invalid token.")
        end
    | Jwt.Throws _ => Respond 401 (BError "Invalid token.")
    end.

(** middleware/auth.js, [optionalAuth]. *)
Definition optionalAuth (env : Env) (users : gmap string User) (now : Z)
    (req : Request) : Outcome Request :=
  let token := token_of <$> authorization req in
  if Js.truthy token then
    match Jwt.verify (Js.or_else token "")
            (Some (Js.or_else (JWT_SECRET env) "your-secret-key")) now with
    | Jwt.Decoded decoded =>
        match Db.findById users (decoded !! "userId") with
        | Db.Found u => Next (attach req (decoded !! "userId") u)
        | Db.Null => Next req
        | Db.Rejects _ => Next req
        end
    | Jwt.Throws _ => Next req
    end
  else Next req.

(** middleware/auth.js, [isOwner].  Reading [req.user.role] of an undefined
    [req.user] is an uncaught TypeError. *)
Definition isOwner (req : Request) : Outcome Request :=
  let denied := Respond 403 (BError "Access denied. Not authorized.") in
  match userId req with
  | Some v =>
      if js_truthy v then
        if bool_decide (Some (js_toString v) = params req !! "id") then Next req
        else
          match user req with
          | Some u => if bool_decide (role u = RoleAdmin) then Next req else denied
          | None => Respond 500 (BUncaught "TypeError")
          end
      else denied
  | None => denied
  end.

(** routes/auth.js: request bodies after express-validator has run; the
    result of [validationResult(req)] comes with the request. *)
Record RegisterReq := {
  r_errors : list string;
  r_username : string;
  r_email : string;
  r_password : string;
  r_firstName : option string;
  r_lastName : option string
}.

Record LoginReq := {
  l_errors : list string;
  l_email : string;
  l_password : string
}.

(** The schema's setters: [username] is trimmed, [email] is trimmed and
    lower-cased.  mongoose runs them on the values of a new document and on
    the values of a query filter. *)
Definition set_username (n : string) : string := str_trim n.
Definition set_email (e : string) : string := str_lower (str_trim e).

(** The condition [{ $or: [{ email }, { username }] }], the values cast. *)
Definition email_or_username (e n : string) (u : User) : bool :=
  String.eqb (email u) e || String.eqb (username u) n.

(** [new User({ username, email, password, firstName, lastName })]: the
    schema's setters and defaults. *)
Definition newUser (newid : string) (now : Z) (r : RegisterReq) : User :=
  {| _id := newid;
     username := set_username (r_username r);
     email := set_email (r_email r);
     password := r_password r;
     firstName := str_trim <$> r_firstName r;
     lastName := str_trim <$> r_lastName r;
     bio := None; location := None; birthDate := None; avatar := None;
     isVerified := false; role := RoleUser;
     createdAt := now; updatedAt := now |}.

Definition len (s : string) : Z := Z.of_nat (String.length s).

(** The schema's validators. *)
Definition schema_valid (u : User) : bool :=
  (3 <=? len (username u)) && (len (username u) <=? 150)
  && negb (String.eqb (email u) "")
  && (8 <=? len (password u))
  && opt_all (fun s => len s <=? 150) (firstName u)
  && opt_all (fun s => len s <=? 150) (lastName u)
  && opt_all (fun s => len s <=? 500) (bio u)
  && opt_all (fun s => len s <=? 30) (location u).

(** [user.save()] of a new document: validation, the pre-save hook that
    hashes the password, then the insert, which the unique indexes on
    [_id], [username] and [email] can refuse.  [None] when it rejects. *)
Definition save (salt : string) (u : User) (users : gmap string User)
    : option (User * gmap string User) :=
  if schema_valid u then
    let u' :=
      {| _id := _id u; username := username u; email := email u;
         password := bcrypt_hash (password u) salt;
         firstName := firstName u; lastName := lastName u; bio := bio u;
         location := location u; birthDate := birthDate u; avatar := avatar u;
         isVerified := isVerified u; role := role u;
         createdAt := createdAt u; updatedAt := updatedAt u |} in
    match users !! _id u', Db.findOne (email_or_username (email u') (username u')) users with
    | None, None => Some (u', <[_id u' := u']> users)
    | _, _ => None
    end
  else None.

Definition sign_opts (span : string) : Jwt.SignOptions :=
  {| Jwt.expiresIn := Some span; Jwt.issuer := None; Jwt.audience := None |}.

(** POST /register.  [newid] is the id the new document gets, [salt] the
    salt [bcrypt.genSalt] draws. *)
Definition register (env : Env) (users : gmap string User) (now : Z)
    (newid salt : string) (r : RegisterReq) : (Z * Body) * gmap string User :=
  match r_errors r with
  | _ :: _ => ((400, BErrors (r_errors r)), users)
  | [] =>
      match Db.findOne (email_or_username (set_email (r_email r))
                          (set_username (r_username r))) users with
      | Some _ =>
          ((400, BError "User with this email or username already exists"), users)
      | None =>
          match save salt (newUser newid now r) users with
          | None => ((500, BError "Internal server error"), users)
          | Some (u, users') =>
              match Jwt.sign (_id u)
                      (Some (Js.or_else (JWT_SECRET env) "your-secret-key"))
                      (sign_opts "24h") now with
              | Some token =>
                  ((201, BCreated "User created successfully" (toJSON u) token),
                   users')
              | None => ((500, BError "Internal server error"), users')
              end
          end
      end
  end.

(** [userSchema.methods.comparePassword]. *)
Definition comparePassword (u : User) (candidatePassword : string) : bool :=
  bcrypt_compare candidatePassword (password u).

(** POST /login. *)
Definition login (env : Env) (users : gmap string User) (now : Z)
    (r : LoginReq) : Z * Body :=
  match l_errors r with
  | _ :: _ => (400, BErrors (l_errors r))
  | [] =>
      match Db.findOne (fun u => String.eqb (email u) (set_email (l_email r))) users with
      | None => (401, BError "Invalid credentials")
      | Some u =>
          if comparePassword u (l_password r) then
            match Jwt.sign (_id u)
                    (Some (Js.or_else (JWT_SECRET env) "your-secret-key"))
                    (sign_opts "1h") now,
                  Jwt.sign (_id u)
                    (Some (Js.or_else (JWT_REFRESH_SECRET env) "your-refresh-secret"))
                    (sign_opts "7d") now with
            | Some accessToken, Some refreshToken =>
                (200, BSession accessToken refreshToken (toJSON u))
            | _, _ => (500, BError "Internal server error")
            end
          else (401, BError "Invalid credentials")
      end
  end.

(** POST /refresh, [refresh] being [req.body.refresh]. *)
Definition refreshAccess (env : Env) (users : gmap string User) (now : Z)
    (refresh : option string) : Z * Body :=
  if negb (Js.truthy refresh) then (400, BError "Refresh token required")
  else
    match Jwt.verify (Js.or_else refresh "")
            (Some (Js.or_else (JWT_REFRESH_SECRET env) "your-refresh-secret")) now with
    | Jwt.Decoded decoded =>
        match Db.findById users (decoded !! "userId") with
        | Db.Found u =>
            match Jwt.sign (_id u)
                    (Some (Js.or_else (JWT_SECRET env) "your-secret-key"))
                    (sign_opts "1h") now with
            | Some accessToken => (200, BAccess accessToken)
            | None => (401, BError "Invalid refresh token")
            end
        | Db.Null => (401, BError "Invalid refresh token")
        | Db.Rejects _ => (401, BError "Invalid refresh token")
        end
    | Jwt.Throws _ => (401, BError "Invalid refresh token")
    end.

(** GET /me, after [auth]: [res.json(user)] serialises with [toJSON]. *)
Definition me (env : Env) (users : gmap string User) (now : Z)
    (req : Request) : Z * Body :=
  match auth env users now req with
  | Respond status body => (status, body)
  | Next req' =>
      match Db.findById users (userId req') with
      | Db.Found u => (200, BUser (Some (toJSON u)))
      | Db.Null => (200, BUser None)
      | Db.Rejects _ => (500, BError "Internal server error")
      end
  end.

End Handlers.
End ExpressBlog.

(** ** task3/secure-blog-api *)

Module SecureBlog.

(** Modelled from the spec: models/User.js of this sub-project is not among
    the sources.  An account has an identifier, a unique email, a hashed
    password, a role ([user] or [admin]) and an active flag; these are the
    paths the middleware and the routes read.  [password] is [None] in a
    document loaded with [select('-password')]. *)
Record User := {
  _id : string;
  email : string;
  password : option string;
  role : Role;
  isActive : bool;
  createdAt : Z
}.

(** [.select('-password')]. *)
Definition select_without_password (u : User) : User :=
  {| _id := _id u; email := email u; password := None; role := role u;
     isActive := isActive u; createdAt := createdAt u |}.

(** The document as JSON. *)
Definition userObject (u : User) : Obj :=
  put "password" (JStr <$> password u)
  (<["_id" := JStr (_id u)]>
  (<["email" := JStr (email u)]>
  (<["role" := JStr (role_name (role u))]>
  (<["isActive" := JBool (isActive u)]>
  (<["createdAt" := JNum (createdAt u)]> ∅))))).

Inductive Status := draft | published | archived.

#[global] Instance Status_eq_dec : EqDecision Status.
Proof. solve_decision. Defined.

Definition status_name (s : Status) : string :=
  match s with
  | draft => "draft"
  | published => "published"
  | archived => "archived"
  end.

(** models/Post.js. *)
Record Post := {
  p_id : string;
  title : string;
  body : string;
  user : string;           (* the owner's ObjectId *)
  status : Status;
  tags : list string;
  readTime : Z;
  p_createdAt : Z;
  p_updatedAt : Z
}.

(** The [excerpt] virtual.  [length] and [substring] are taken on the
    bytes, which is what the code does on ASCII text ([Js.is_ascii]). *)
Definition excerpt (p : Post) : string :=
  if (String.length (body p) <=? 150)%nat then body p
  else String.substring 0 150 (body p) +:+ "...".

(** [postSchema.methods.canEdit]. *)
Definition canEdit (p : Post) (userId : string) (userRole : Role) : bool :=
  bool_decide (userRole = RoleAdmin) || String.eqb (user p) userId.

(** The post as JSON: the schema's paths and the [excerpt] virtual.  The
    [id] virtual and the version key [__v] are left out, and the populated
    [user] path is kept apart. *)
Definition postObject (p : Post) : Obj :=
  <["_id" := JStr (p_id p)]>
  (<["title" := JStr (title p)]>
  (<["body" := JStr (body p)]>
  (<["status" := JStr (status_name (status p))]>
  (<["tags" := JList (tags p)]>
  (<["readTime" := JNum (readTime p)]>
  (<["createdAt" := JNum (p_createdAt p)]>
  (<["updatedAt" := JNum (p_updatedAt p)]>
  (<["excerpt" := JStr (excerpt p)]> ∅)))))))).

(** [.populate('user', 'email role createdAt')]: the selected paths and the
    id of the owner's document, [None] when there is none. *)
Definition populate (users : gmap string User) (p : Post) : option Obj :=
  (fun u : User =>
     <["_id" := JStr (_id u)]>
     (<["email" := JStr (email u)]>
     (<["role" := JStr (role_name (role u))]>
     (<["createdAt" := JNum (createdAt u)]> (∅ : Obj))))) <$> users !! user p.

Record Request := {
  authorization : option string;   (* req.header('Authorization') *)
  params : gmap string string;     (* req.params *)
  req_user : option User;          (* req.user *)
  resource : option Post           (* req.resource *)
}.

Definition with_user (req : Request) (u : User) : Request :=
  {| authorization := authorization req; params := params req;
     req_user := Some u; resource := resource req |}.

Definition with_resource (req : Request) (r : Post) : Request :=
  {| authorization := authorization req; params := params req;
     req_user := req_user req; resource := Some r |}.

(** The token [authenticate] and [optionalAuth] take from a header: what
    follows ["Bearer "], or the whole header when it does not start so. *)
Definition token_of (authHeader : string) : string :=
  if Js.startsWith "Bearer " authHeader then Js.slice 7 authHeader
  else authHeader.

(** server.js: what the global error handler reads of an error. *)
Record AppError := {
  name : string;
  code : option Z;
  keyValue : list string;            (* Object.keys(err.keyValue) *)
  errors : list (string * string);   (* path and message of each error *)
  statusCode : option Z;
  message : string;
  stack : string
}.

Section Handlers.
Context `{NodeLibs}.

(** server.js, the global error handler. *)
Definition errorHandler (env : Env) (err : AppError) : Z * Body :=
  if String.eqb (name err) "ValidationError" then
    (400, BInvalid "Validation Error" (errors err))
  else if bool_decide (code err = Some 11000) then
    (409, BMessage false (default "undefined" (head (keyValue err)) +:+ " already exists"))
  else if String.eqb (name err) "JsonWebTokenError" then
    (401, BMessage false "Invalid token")
  else if String.eqb (name err) "TokenExpiredError" then
    (401, BMessage false "Token expired")
  else if String.eqb (name err) "CastError" then
    (400, BMessage false "Invalid ID format")
  else
    (match statusCode err with
     | Some c => if c =? 0 then 500 else c
     | None => 500
     end,
     BFailure (if String.eqb (message err) "" then "Internal Server Error" else message err)
              (if bool_decide (NODE_ENV env = Some "development") then Some (stack err)
               else None)).

(** middleware/auth.js, [authenticate]. *)
Definition authenticate (env : Env) (users : gmap string User) (now : Z)
    (req : Request) : Outcome Request :=
  if negb (Js.truthy (authorization req)) then
    Respond 401 (BMessage false "Access denied. No token provided.")
  else
    let authHeader := Js.or_else (authorization req) "" in
    let token := token_of authHeader in
    if String.eqb token "" then
      Respond 401 (BMessage false "Access denied. Invalid token format.")
    else
      match Jwt.verify token (JWT_SECRET env) now with
      | Jwt.Decoded decoded =>
          match Db.findById users (decoded !! "userId") with
          | Db.Found u =>
              let user := select_without_password u in
              if isActive user then Next (with_user req user)
              else Respond 401 (BMessage false "User account is deactivated.")
          | Db.Null =>
              Respond 401 (BMessage false "Token is valid but user no longer exists.")
          | Db.Rejects _ =>
              Respond 500 (BMessage false "Internal server error during authentication.")
          end
      | Jwt.Throws Jwt.JsonWebTokenError => Respond 401 (BMessage false "Invalid token.")
      | Jwt.Throws Jwt.TokenExpiredError => Respond 401 (BMessage false "Token expired.")
      | Jwt.Throws Jwt.NotBeforeError =>
          Respond 500 (BMessage false "Internal server error during authentication.")
      | Jwt.Throws Jwt.SyntaxError =>
          Respond 500 (BMessage false "Internal server error during authentication.")
      end.

(** middleware/auth.js, [optionalAuth]. *)
Definition optionalAuth (env : Env) (users : gmap string User) (now : Z)
    (req : Request) : Outcome Request :=
  if negb (Js.truthy (authorization req)) then Next req
  else
    let authHeader := Js.or_else (authorization req) "" in
    let token := token_of authHeader in
    if String.eqb token "" then Next req
    else
      match Jwt.verify token (JWT_SECRET env) now with
      | Jwt.Decoded decoded =>
          match Db.findById users (decoded !! "userId") with
          | Db.Found u =>
              let user := select_without_password u in
              if isActive user then Next (with_user req user) else Next req
          | Db.Null => Next req
          | Db.Rejects _ => Next req
          end
      | Jwt.Throws _ => Next req
      end.

(** middleware/auth.js, [authorize(...roles)]. *)
Definition authorize (roles : list string) (req : Request) : Outcome Request :=
  match req_user req with
  | None => Respond 401 (BMessage false "Authentication required.")
  | Some u =>
      if bool_decide (role_name (role u) ∈ roles) then Next req
      else Respond 403 (BMessage false
             ("Access denied. Required role: " +:+ String.concat " or " roles))
  end.

Definition adminOnly : Request -> Outcome Request := authorize ["admin"].

(** middleware/auth.js, [generateToken]; [None] when [jwt.sign] throws. *)
Definition generateToken (env : Env) (now : Z) (userId : string) : option string :=
  Jwt.sign userId (JWT_SECRET env)
    {| Jwt.expiresIn := Some (Js.or_else (JWT_EXPIRES_IN env) "7d");
       Jwt.issuer := Some "secure-blog-api";
       Jwt.audience := Some "blog-users" |} now.

(** middleware/auth.js, [checkOwnership(Post, resourceParam)].  It runs after
    [authenticate]; without [req.user] the read of its role throws inside
    the try block. *)
Definition checkOwnership (resourceParam : string) (posts : gmap string Post)
    (req : Request) : Outcome Request :=
  let failed := Respond 500 (BMessage false "Internal server error.") in
  match Db.findById posts (JStr <$> params req !! resourceParam) with
  | Db.Rejects _ => failed
  | Db.Null => Respond 404 (BMessage false "Resource not found.")
  | Db.Found resource =>
      match req_user req with
      | None => failed
      | Some u =>
          if bool_decide (role u = RoleAdmin) then Next (with_resource req resource)
          else if negb (String.eqb (user resource) (_id u)) then
            Respond 403 (BMessage false
              "Access denied. You can only access your own resources.")
          else Next (with_resource req resource)
      end
  end.

(** routes/posts.js, GET /posts/:id, after [optionalAuth].  With a requester
    attached and no owner document to populate, the read of
    [post.user._id] throws a TypeError, which is not a CastError. *)
Definition getPost (users : gmap string User) (posts : gmap string Post)
    (req : Request) : Z * Body :=
  let notFound := (404, BMessage false "Post not found") in
  match Db.findById posts (JStr <$> params req !! "id") with
  | Db.Rejects name =>
      if String.eqb name "CastError" then (400, BMessage false "Invalid post ID format")
      else (500, BMessage false "Internal server error")
  | Db.Null => notFound
  | Db.Found post =>
      let ok := (200, BPost true "Post retrieved successfully"
                        (postObject post) (populate users post)) in
      if negb (bool_decide (status post = published)) then
        match req_user req with
        | None => notFound
        | Some u =>
            match users !! user post with
            | None => (500, BMessage false "Internal server error")
            | Some owner =>
                if negb (String.eqb (_id u) (_id owner))
                   && negb (bool_decide (role u = RoleAdmin))
                then notFound else ok
            end
        end
      else ok
  end.

(** The route: [optionalAuth], then the handler. *)
Definition getPostRoute (env : Env) (users : gmap string User)
    (posts : gmap string Post) (now : Z) (req : Request) : Z * Body :=
  match optionalAuth env users now req with
  | Next req' => getPost users posts req'
  | Respond status b => (status, b)
  end.

End Handlers.
End SecureBlog.

(** ** task5/chat-app *)

Module Chat.

Record Msg := {
  user : string;
  text : string;
  timestamp : Z
}.

(** What a property read [chatHistory[room]] can give: [chatHistory] is an
    object literal, so besides its own properties (the arrays the message
    handler stores) it has the properties of [Object.prototype]. *)
Inductive Value :=
  | Undefined
  | Array (l : list Msg)
  | Inherited (key : string).

Definition object_prototype : list string :=
  ["constructor"; "__proto__"; "hasOwnProperty"; "isPrototypeOf";
   "propertyIsEnumerable"; "toLocaleString"; "toString"; "valueOf";
   "__defineGetter__"; "__defineSetter__"; "__lookupGetter__";
   "__lookupSetter__"].

Definition get (chatHistory : gmap string (list Msg)) (room : string) : Value :=
  match chatHistory !! room with
  | Some l => Array l
  | None =>
      if bool_decide (room ∈ object_prototype) then Inherited room else Undefined
  end.

(** Arrays, functions and objects are truthy. *)
Definition truthy (v : Value) : bool :=
  match v with
  | Undefined => false
  | Array _ => true
  | Inherited _ => true
  end.

Record State := {
  chatHistory : gmap string (list Msg);   (* own properties *)
  rooms : gmap string (gset string)       (* socket.io: room to sockets *)
}.

Definition init : State := {| chatHistory := ∅; rooms := ∅ |}.

Inductive Event :=
  | joinRoom (socket room : string)
  | message (room user text : string) (now : Z)
  | disconnect (socket : string).

Inductive Emit :=
  | history (socket : string) (v : Value)    (* socket.emit("history", v) *)
  | broadcast (room : string) (msg : Msg).   (* io.to(room).emit("message", msg) *)

(** One event; [None] when the handler throws (calling [push] on an
    inherited property, which has none). *)
Definition handle (s : State) (e : Event) : option (State * list Emit) :=
  match e with
  | joinRoom socket room =>
      let s' :=
        {| chatHistory := chatHistory s;
           rooms := <[room := {[socket]} ∪ default ∅ (rooms s !! room)]> (rooms s) |} in
      if truthy (get (chatHistory s) room)
      then Some (s', [history socket (get (chatHistory s) room)])
      else Some (s', [])
  | message room user text now =>
      let msg := {| user := user; text := text; timestamp := now |} in
      let created :=
        if negb (truthy (get (chatHistory s) room))
        then <[room := []]> (chatHistory s) else chatHistory s in
      match get created room with
      | Array l =>
          Some ({| chatHistory := <[room := (l ++ [msg])%list]> created; rooms := rooms s |},
                [broadcast room msg])
      | Inherited _ => None
      | Undefined => None
      end
  | disconnect socket =>
      Some ({| chatHistory := chatHistory s;
               rooms := (fun members => members ∖ {[socket]}) <$> rooms s |}, [])
  end.

(** A sequence of events, with what each emits. *)
Fixpoint run (s : State) (es : list Event) : option (State * list (list Emit)) :=
  match es with
  | [] => Some (s, [])
  | e :: es' =>
      match handle s e with
      | None => None
      | Some (s', out) =>
          match run s' es' with
          | None => None
          | Some (s'', outs) => Some (s'', out :: outs)
          end
      end
  end.

(** The messages of a trace that target a room, in arrival order. *)
Fixpoint sent (room : string) (es : list Event) : list Msg :=
  match es with
  | [] => []
  | message r u t now :: es' =>
      if String.eqb r room
      then {| user := u; text := t; timestamp := now |} :: sent room es'
      else sent room es'
  | _ :: es' => sent room es'
  end.

(** The room an event names, if any. *)
Definition room_of (e : Event) : option string :=
  match e with
  | joinRoom _ room => Some room
  | message room _ _ _ => Some room
  | disconnect _ => None
  end.

(** The history a room has: no entry reads as no message. *)
Definition history_of (s : State) (room : string) : list Msg :=
  default [] (chatHistory s !! room).

(** An event that names no property of [Object.prototype] as its room. *)
Definition plain (e : Event) : Prop :=
  forall room, room_of e = Some room -> room ∉ object_prototype.

End Chat.

(** ** An implementation of the interface, for closed examples *)

Module Ref.

Fixpoint bits (p : positive) : string :=
  match p with
  | xH => ""
  | xO q => String "0" (bits q)
  | xI q => String "1" (bits q)
  end.

Fixpoint unbits (s : string) : option positive :=
  match s with
  | EmptyString => Some xH
  | String c s' =>
      if Ascii.eqb c "0" then xO <$> unbits s'
      else if Ascii.eqb c "1" then xI <$> unbits s'
      else None
  end.

Definition seal (p : Obj) (k : string) : string :=
  String "J" (bits (encode (p, k))).

Definition unseal (token k : string) : option Obj :=
  match token with
  | String c rest =>
      if Ascii.eqb c "J" && negb (String.eqb k "") then
        match unbits rest ≫= decode with
        | Some (p, k') => if String.eqb k k' then Some p else None
        | None => None
        end
      else None
  | EmptyString => None
  end.

(** A token with the header of a token and a payload that does not parse. *)
Definition garbled (token : string) : bool :=
  match token with
  | String c rest =>
      Ascii.eqb c "J" && match unbits rest with Some _ => false | None => true end
  | EmptyString => false
  end.

Definition span (s : string) : option Z :=
  if String.eqb s "7d" then Some 604800
  else if String.eqb s "24h" then Some 86400
  else if String.eqb s "1h" then Some 3600
  else None.

Definition lower_ascii (c : ascii) : ascii :=
  let n := nat_of_ascii c in
  if ((65 <=? n) && (n <=? 90))%nat then ascii_of_nat (n + 32) else c.

Fixpoint lower (s : string) : string :=
  match s with
  | EmptyString => EmptyString
  | String c s' => String (lower_ascii c) (lower s')
  end.

Definition is_hex (c : ascii) : bool :=
  let n := nat_of_ascii c in
  ((48 <=? n) && (n <=? 57) || (97 <=? n) && (n <=? 102)
   || (65 <=? n) && (n <=? 70))%nat.

(** A string of 24 hex digits is an ObjectId, printed in lower case. *)
Definition cast (v : JVal) : option string :=
  match v with
  | JStr s =>
      if ((String.length s =? 24)%nat && forallb is_hex (list_ascii_of_string s))
      then Some (lower s) else None
  | _ => None
  end.

Definition hash (pw salt : string) : string := salt +:+ "$" +:+ pw.

Definition compare (candidate hashed : string) : bool :=
  String.eqb
    (Js.slice (String.length hashed - S (String.length candidate)) hashed)
    ("$" +:+ candidate).

(** The ASCII white space: tab, line feed, vertical tab, form feed,
    carriage return, space. *)
Definition is_space (c : ascii) : bool :=
  let n := nat_of_ascii c in
  ((9 <=? n) && (n <=? 13) || (n =? 32))%nat.

Fixpoint trim_left (s : string) : string :=
  match s with
  | String c s' => if is_space c then trim_left s' else s
  | EmptyString => EmptyString
  end.

Fixpoint trim_right (s : string) : string :=
  match s with
  | EmptyString => EmptyString
  | String c s' =>
      match trim_right s' with
      | EmptyString => if is_space c then EmptyString else String c EmptyString
      | String d t => String c (String d t)
      end
  end.

Definition trim (s : string) : string := trim_right (trim_left s).

(** No white space in front. *)
Definition starts_clean (s : string) : bool :=
  match s with
  | EmptyString => true
  | String c _ => negb (is_space c)
  end.

#[global] Instance libs : NodeLibs := {|
  jws_sign := seal;
  jws_open := unseal;
  jws_decode_throws := garbled;
  span_seconds := span;
  cast_object_id := cast;
  bcrypt_hash := hash;
  bcrypt_compare := compare;
  str_trim := trim;
  str_lower := lower
|}.

End Ref.

(** ** Notions the statements use *)

(** The account documents a response body carries. *)
Definition body_users (b : Body) : list Obj :=
  match b with
  | BCreated _ user _ => [user]
  | BSession _ _ user => [user]
  | BUser (Some user) => [user]
  | BPost _ _ _ (Some author) => [author]
  | _ => []
  end.

Definition no_password (d : Obj) : Prop := d !! "password" = None.

(** The account a middleware hands to the next handler, as JSON. *)
Definition attached_doc (o : Outcome SecureBlog.Request) : option Obj :=
  match o with
  | Next req => SecureBlog.userObject <$> SecureBlog.req_user req
  | Respond _ _ => None
  end.

(** The [password] field of a document that may be there. *)
Definition password_field (d : option Obj) : option JVal :=
  match d with
  | Some o => o !! "password"
  | None => None
  end.

(** A request as it reaches the first middleware: nothing attached yet. *)
Definition incoming (header : option string) (params : gmap string string)
    : SecureBlog.Request :=
  {| SecureBlog.authorization := header; SecureBlog.params := params;
     SecureBlog.req_user := None; SecureBlog.resource := None |}.


(** A token part that is empty, or that no key opens: not a well-formed
    signed token. *)
Definition not_a_token `{NodeLibs} (token : string) : Prop :=
  token = "" \/ forall k, jws_open token k = None.


(** The claims a payload carries. *)
Definition claim_names (p : Obj) : gset string := dom p.

(** ** Sample data for the closed examples *)

Module Sample.

Definition env : Env :=
  {| JWT_SECRET := Some "s3cret"; JWT_REFRESH_SECRET := None;
     JWT_EXPIRES_IN := None; NODE_ENV := None |}.

(** No variable set: the express-blog-api fallbacks apply. *)
Definition bare_env : Env :=
  {| JWT_SECRET := None; JWT_REFRESH_SECRET := None;
     JWT_EXPIRES_IN := None; NODE_ENV := None |}.

Definition alice_id : string := "0000000000000000000000a1".
Definition bob_id : string := "0000000000000000000000b2".
Definition carol_id : string := "0000000000000000000000c3".

Definition account (id mail : string) (r : Role) (active : bool) : SecureBlog.User :=
  {| SecureBlog._id := id; SecureBlog.email := mail;
     SecureBlog.password := Some "$2a$10$hash"; SecureBlog.role := r;
     SecureBlog.isActive := active; SecureBlog.createdAt := 0 |}.

Definition alice : SecureBlog.User := account alice_id "alice@example.com" RoleUser true.
(** Bob has been deactivated. *)
Definition bob : SecureBlog.User := account bob_id "bob@example.com" RoleUser false.
Definition carol : SecureBlog.User := account carol_id "carol@example.com" RoleAdmin true.

Definition users : gmap string SecureBlog.User :=
  <[alice_id := alice]> (<[bob_id := bob]> (<[carol_id := carol]> ∅)).

Definition request (header : option string) : SecureBlog.Request :=
  {| SecureBlog.authorization := header; SecureBlog.params := ∅;
     SecureBlog.req_user := None; SecureBlog.resource := None |}.

(** The token [generateToken] issues at time 0. *)
Definition token_for (id : string) : string :=
  default "" (SecureBlog.generateToken env 0 id).

Definition xrequest (header : option string) : ExpressBlog.Request :=
  {| ExpressBlog.authorization := header; ExpressBlog.params := ∅;
     ExpressBlog.userId := None; ExpressBlog.user := None |}.

Definition post (id owner : string) (st : SecureBlog.Status) : SecureBlog.Post :=
  {| SecureBlog.p_id := id; SecureBlog.title := "Notes";
     SecureBlog.body := "Ten or more characters."; SecureBlog.user := owner;
     SecureBlog.status := st; SecureBlog.tags := ["notes"];
     SecureBlog.readTime := 1; SecureBlog.p_createdAt := 0;
     SecureBlog.p_updatedAt := 0 |}.

Definition draft_id : string := "0000000000000000000000d4".

(** Alice's draft. *)
Definition alice_draft : SecureBlog.Post := post draft_id alice_id SecureBlog.draft.

Definition posts : gmap string SecureBlog.Post := {[ draft_id := alice_draft ]}.

(** A request for [/posts/:id] by a requester [optionalAuth] has attached,
    or by nobody. *)
Definition request_post (id : string) (by_user : option SecureBlog.User)
    : SecureBlog.Request :=
  {| SecureBlog.authorization := None; SecureBlog.params := {[ "id" := id ]};
     SecureBlog.req_user := by_user; SecureBlog.resource := None |}.

(** express-blog-api: one registered account, and registrations. *)
Definition dave_id : string := "0000000000000000000000f6".
Definition erin_id : string := "000000000000000000000a07".

Definition dave : ExpressBlog.User :=
  {| ExpressBlog._id := dave_id; ExpressBlog.username := "dave";
     ExpressBlog.email := "dave@example.com";
     ExpressBlog.password := "salt$correct horse";
     ExpressBlog.firstName := None; ExpressBlog.lastName := None;
     ExpressBlog.bio := None; ExpressBlog.location := None;
     ExpressBlog.birthDate := None; ExpressBlog.avatar := None;
     ExpressBlog.isVerified := false; ExpressBlog.role := RoleUser;
     ExpressBlog.createdAt := 0; ExpressBlog.updatedAt := 0 |}.

Definition xusers : gmap string ExpressBlog.User := {[ dave_id := dave ]}.

Definition registration (name mail : string) : ExpressBlog.RegisterReq :=
  {| ExpressBlog.r_errors := []; ExpressBlog.r_username := name;
     ExpressBlog.r_email := mail; ExpressBlog.r_password := "battery staple";
     ExpressBlog.r_firstName := None; ExpressBlog.r_lastName := None |}.

(** Erin registers on an empty collection at time 0. *)
Definition erin_registers : (Z * Body) * gmap string ExpressBlog.User :=
  ExpressBlog.register bare_env ∅ 0 erin_id "salt" (registration "erin" "erin@example.com").

Definition erin_token : string :=
  match snd (fst erin_registers) with
  | BCreated _ _ token => token
  | _ => ""
  end.

End Sample.

(** ** The in-memory posts router (unnamed/part_006) *)

Module Memory.

(** A post as the router builds it; [title] and [content] are the strings of
    the JSON body, [None] when the body has none. *)
Record Post := {
  id : string;
  title : option string;
  content : option string;
  createdAt : Z
}.

Inductive Sent :=
  | Json (status : Z) (post : Post)
  | JsonList (posts : list Post)
  | JsonError (status : Z) (error : string)
  | JsonMessage (message : string)
  | Uncaught (name : string).   (* an exception the handler does not catch *)

(** [hay.includes(needle)]. *)
Fixpoint includes (needle hay : string) : bool :=
  String.prefix needle hay
  || match hay with
     | EmptyString => false
     | String _ hay' => includes needle hay'
     end.

(** [posts.find(p => p.id === id)]. *)
Fixpoint find (id0 : string) (posts : list Post) : option Post :=
  match posts with
  | [] => None
  | p :: posts' => if String.eqb (id p) id0 then Some p else find id0 posts'
  end.

(** POST /: [uuid] is what [uuidv4()] returns. *)
Definition create (posts : list Post) (uuid : string) (now : Z)
    (title content : option string) : Sent * list Post :=
  let newPost :=
    {| id := uuid; title := title; content := content; createdAt := now |} in
  (Json 201 newPost, (posts ++ [newPost])%list).

(** [filteredPosts.filter(p => p.title.includes(q))]: [None] when the
    callback throws, [p.title] being undefined. *)
Fixpoint filter_title (q : string) (posts : list Post) : option (list Post) :=
  match posts with
  | [] => Some []
  | p :: posts' =>
      match title p with
      | None => None
      | Some t =>
          (fun rest => if includes q t then p :: rest else rest)
          <$> filter_title q posts'
      end
  end.

(** GET /, [q] being [req.query.title]. *)
Definition list_posts (posts : list Post) (q : option string) : Sent :=
  if Js.truthy q then
    match filter_title (Js.or_else q "") posts with
    | Some filteredPosts => JsonList filteredPosts
    | None => Uncaught "TypeError"
    end
  else JsonList posts.

(** GET /:id. *)
Definition get (posts : list Post) (id0 : string) : Sent :=
  match find id0 posts with
  | Some post => Json 200 post
  | None => JsonError 404 "Post not found"
  end.

(** [req.body.title || post.title]. *)
Definition choose (given old : option string) : option string :=
  if Js.truthy given then given else old.

Definition edited (p : Post) (title content : option string) : Post :=
  {| id := id p; title := choose title (Memory.title p);
     content := choose content (Memory.content p); createdAt := createdAt p |}.

(** The array after the found post, the first with the id, was assigned to. *)
Fixpoint assign (id0 : string) (title content : option string)
    (posts : list Post) : list Post :=
  match posts with
  | [] => []
  | p :: posts' =>
      if String.eqb (id p) id0 then edited p title content :: posts'
      else p :: assign id0 title content posts'
  end.

(** PUT /:id. *)
Definition put (posts : list Post) (id0 : string)
    (title content : option string) : Sent * list Post :=
  match find id0 posts with
  | Some post => (Json 200 (edited post title content), assign id0 title content posts)
  | None => (JsonError 404 "Post not found", posts)
  end.

(** DELETE /:id. *)
Definition delete (posts : list Post) (id0 : string) : Sent * list Post :=
  (JsonMessage "Post deleted",
   List.filter (fun p => negb (String.eqb (id p) id0)) posts).

Definition sample : list Post :=
  [ {| id := "p1"; title := Some "Hello world"; content := Some "first";
       createdAt := 1 |};
    {| id := "p2"; title := None; content := Some "untitled"; createdAt := 2 |} ].

End Memory.

(** ** secure-blog-api: the Post model's hooks and the posts routes *)

Module Posts.

(** [Math.ceil(n / d)] for integers, [0 < d]. *)
Definition ceil_div (n d : Z) : Z := - ((- n) / d).

(** [x || 1] for a number. *)
Definition or_one (x : Z) : Z := if x =? 0 then 1 else x.

Fixpoint spaces (s : string) : Z :=
  match s with
  | EmptyString => 0
  | String c s' => (if Ascii.eqb c " " then 1 else 0) + spaces s'
  end.

(** [body.split(' ').length]. *)
Definition wordCount (body : string) : Z := spaces body + 1.

(** models/Post.js, the default of [readTime]. *)
Definition readTime_default (body : string) : Z := ceil_div (wordCount body) 200.

(** models/Post.js, the pre-save hook; [modifiedBody] is
    [this.isModified('body')]. *)
Definition pre_save (modifiedBody : bool) (p : SecureBlog.Post) : SecureBlog.Post :=
  if modifiedBody then
    {| SecureBlog.p_id := SecureBlog.p_id p; SecureBlog.title := SecureBlog.title p;
       SecureBlog.body := SecureBlog.body p; SecureBlog.user := SecureBlog.user p;
       SecureBlog.status := SecureBlog.status p; SecureBlog.tags := SecureBlog.tags p;
       SecureBlog.readTime :=
         or_one (ceil_div (wordCount (SecureBlog.body p)) 200);
       SecureBlog.p_createdAt := SecureBlog.p_createdAt p;
       SecureBlog.p_updatedAt := SecureBlog.p_updatedAt p |}
  else p.

(** [[...new Set(l)]]: the elements in the order of their first occurrence. *)
Definition add_new (seen : list string) (t : string) : list string :=
  if bool_decide (t ∈ seen) then seen else (seen ++ [t])%list.

Definition unique (l : list string) : list string := fold_left add_new l [].

Record CreateReq := {
  c_errors : list (string * string);   (* validationResult(req) *)
  c_title : string;
  c_body : string;
  c_status : option SecureBlog.Status;
  c_tags : option (list string)
}.

Record UpdateReq := {
  u_errors : list (string * string);
  u_title : option string;
  u_body : option string;
  u_status : option SecureBlog.Status;
  u_tags : option (list string)
}.

(** The query of GET /posts: [page] and [limit] absent or integers;
    [q_errors] is what the validators of [search], [tag] and [author]
    report. *)
Record ListReq := {
  q_errors : list (string * string);
  q_page : option Z;
  q_limit : option Z;
  q_search : option string;
  q_tag : option string;
  q_author : option string
}.

Inductive Listing :=
  | Listed (posts : list (SecureBlog.Post * option Obj))
           (currentPage totalPages totalPosts : Z) (hasNextPage hasPrevPage : bool)
  | ListInvalid (errors : list (string * string))
  | ListFailed.

Definition len (s : string) : Z := Z.of_nat (String.length s).

#[global] Instance Post_eq_dec : EqDecision SecureBlog.Post.
Proof. solve_decision. Defined.

Section Routes.
Context `{NodeLibs}.

(** routes/posts.js: tags lower-cased and trimmed, empty ones dropped,
    duplicates removed. *)
Definition processTags (tags : list string) : list string :=
  unique (List.filter (fun tag => negb (String.eqb tag ""))
            (map (fun tag => str_trim (str_lower tag)) tags)).

(** The schema's setters on [title] and on each tag. *)
Definition set_title (t : string) : string := str_trim t.
Definition set_tag (t : string) : string := str_lower (str_trim t).

(** The schema's validators on [title] and [body]. *)
Definition title_valid (t : string) : bool := (3 <=? len t) && (len t <=? 200).
Definition body_valid (b : string) : bool := (10 <=? len b) && (len b <=? 5000).

Definition failed : Z * Body := (500, BMessage false "Internal server error").

(** POST /posts, after [authenticate]; [newid] is the id of the new
    document. *)
Definition createPost (users : gmap string SecureBlog.User)
    (posts : gmap string SecureBlog.Post) (now : Z) (newid : string)
    (req : SecureBlog.Request) (c : CreateReq)
    : (Z * Body) * gmap string SecureBlog.Post :=
  match c_errors c with
  | _ :: _ => ((400, BInvalid "Validation failed" (c_errors c)), posts)
  | [] =>
      match SecureBlog.req_user req with
      | None => (failed, posts)
      | Some u =>
          let post :=
            {| SecureBlog.p_id := newid;
               SecureBlog.title := set_title (c_title c);
               SecureBlog.body := c_body c;
               SecureBlog.user := SecureBlog._id u;
               SecureBlog.status := default SecureBlog.published (c_status c);
               SecureBlog.tags := map set_tag (processTags (default [] (c_tags c)));
               SecureBlog.readTime := readTime_default (c_body c);
               SecureBlog.p_createdAt := now;
               SecureBlog.p_updatedAt := now |} in
          if title_valid (SecureBlog.title post) && body_valid (SecureBlog.body post)
          then
            match posts !! newid with
            | Some _ => (failed, posts)
            | None =>
                let saved := pre_save true post in
                ((201, BPost true "Post created successfully"
                         (SecureBlog.postObject saved) (SecureBlog.populate users saved)),
                 <[newid := saved]> posts)
            end
          else (failed, posts)
      end
  end.

(** The assignments of PUT /posts/:id to the loaded document. *)
Definition assigned (post : SecureBlog.Post) (c : UpdateReq) : SecureBlog.Post :=
  {| SecureBlog.p_id := SecureBlog.p_id post;
     SecureBlog.title := default (SecureBlog.title post) (set_title <$> u_title c);
     SecureBlog.body := default (SecureBlog.body post) (u_body c);
     SecureBlog.user := SecureBlog.user post;
     SecureBlog.status := default (SecureBlog.status post) (u_status c);
     SecureBlog.tags :=
       default (SecureBlog.tags post) ((fun tags => map set_tag (processTags tags)) <$> u_tags c);
     SecureBlog.readTime := SecureBlog.readTime post;
     SecureBlog.p_createdAt := SecureBlog.p_createdAt post;
     SecureBlog.p_updatedAt := SecureBlog.p_updatedAt post |}.

Definition stamped (now : Z) (post : SecureBlog.Post) : SecureBlog.Post :=
  {| SecureBlog.p_id := SecureBlog.p_id post; SecureBlog.title := SecureBlog.title post;
     SecureBlog.body := SecureBlog.body post; SecureBlog.user := SecureBlog.user post;
     SecureBlog.status := SecureBlog.status post; SecureBlog.tags := SecureBlog.tags post;
     SecureBlog.readTime := SecureBlog.readTime post;
     SecureBlog.p_createdAt := SecureBlog.p_createdAt post;
     SecureBlog.p_updatedAt := now |}.

(** PUT /posts/:id, after [authenticate] and [checkOwnership].  [save]
    validates the paths that changed, runs the pre-save hook and writes the
    document with a new [updatedAt]; with nothing changed it writes
    nothing. *)
Definition updatePost (users : gmap string SecureBlog.User)
    (posts : gmap string SecureBlog.Post) (now : Z)
    (req : SecureBlog.Request) (c : UpdateReq)
    : (Z * Body) * gmap string SecureBlog.Post :=
  match u_errors c with
  | _ :: _ => ((400, BInvalid "Validation failed" (u_errors c)), posts)
  | [] =>
      match SecureBlog.resource req with
      | None => (failed, posts)
      | Some post =>
          let post' := assigned post c in
          let ok saved posts' :=
            ((200, BPost true "Post updated successfully"
                     (SecureBlog.postObject saved) (SecureBlog.populate users saved)),
             posts') in
          if bool_decide (post' = post) then ok post posts
          else
            let titleChanged :=
              negb (String.eqb (SecureBlog.title post') (SecureBlog.title post)) in
            let bodyChanged :=
              negb (String.eqb (SecureBlog.body post') (SecureBlog.body post)) in
            if (negb titleChanged || title_valid (SecureBlog.title post'))
               && (negb bodyChanged || body_valid (SecureBlog.body post'))
            then
              match posts !! SecureBlog.p_id post with
              | None => (failed, posts)
              | Some _ =>
                  let saved := stamped now (pre_save bodyChanged post') in
                  ok saved (<[SecureBlog.p_id post := saved]> posts)
              end
            else (failed, posts)
      end
  end.

(** DELETE /posts/:id, after [authenticate] and [checkOwnership]. *)
Definition deletePost (posts : gmap string SecureBlog.Post)
    (req : SecureBlog.Request) : (Z * Body) * gmap string SecureBlog.Post :=
  match SecureBlog.resource req with
  | None => (failed, posts)
  | Some post =>
      ((200, BMessage true "Post deleted successfully"),
       base.delete (SecureBlog.p_id post) posts)
  end.

(** The routes: [authenticate], [checkOwnership(Post)], then the handler. *)
Definition guarded (env : Env) (users : gmap string SecureBlog.User)
    (posts : gmap string SecureBlog.Post) (now : Z) (req : SecureBlog.Request)
    (handler : SecureBlog.Request -> (Z * Body) * gmap string SecureBlog.Post)
    : (Z * Body) * gmap string SecureBlog.Post :=
  match SecureBlog.authenticate env users now req with
  | Respond status b => ((status, b), posts)
  | Next req1 =>
      match SecureBlog.checkOwnership "id" posts req1 with
      | Respond status b => ((status, b), posts)
      | Next req2 => handler req2
      end
  end.

Definition putRoute (env : Env) (users : gmap string SecureBlog.User)
    (posts : gmap string SecureBlog.Post) (now : Z) (req : SecureBlog.Request)
    (c : UpdateReq) : (Z * Body) * gmap string SecureBlog.Post :=
  guarded env users posts now req (fun req' => updatePost users posts now req' c).

Definition deleteRoute (env : Env) (users : gmap string SecureBlog.User)
    (posts : gmap string SecureBlog.Post) (now : Z) (req : SecureBlog.Request)
    : (Z * Body) * gmap string SecureBlog.Post :=
  guarded env users posts now req (fun req' => deletePost posts req').

Definition postRoute (env : Env) (users : gmap string SecureBlog.User)
    (posts : gmap string SecureBlog.Post) (now : Z) (newid : string)
    (req : SecureBlog.Request) (c : CreateReq)
    : (Z * Body) * gmap string SecureBlog.Post :=
  match SecureBlog.authenticate env users now req with
  | Respond status b => ((status, b), posts)
  | Next req' => createPost users posts now newid req' c
  end.

(** GET /posts: the filter the handler builds.  [text_matches] is what the
    text index makes of [$text: { $search }]. *)
Definition listed (text_matches : string -> SecureBlog.Post -> bool) (q : ListReq)
    (p : SecureBlog.Post) : bool :=
  bool_decide (SecureBlog.status p = SecureBlog.published)
  && (if Js.truthy (q_search q) then text_matches (Js.or_else (q_search q) "") p
      else true)
  && (if Js.truthy (q_tag q)
      then bool_decide (str_lower (Js.or_else (q_tag q) "") ∈ SecureBlog.tags p)
      else true)
  && (if Js.truthy (q_author q)
      then bool_decide (cast_object_id (JStr (Js.or_else (q_author q) ""))
                        = Some (SecureBlog.user p))
      else true).

(** [parseInt(x) || d]. *)
Definition int_or (x : option Z) (d : Z) : Z :=
  match x with
  | Some n => if n =? 0 then d else n
  | None => d
  end.

(** The validators of [page] and [limit]. *)
Definition page_errors (q : ListReq) : list (string * string) :=
  match q_page q with
  | Some n => if n <? 1 then [("page", "Page must be a positive integer")] else []
  | None => []
  end.

Definition limit_errors (q : ListReq) : list (string * string) :=
  match q_limit q with
  | Some n =>
      if (n <? 1) || (50 <? n) then [("limit", "Limit must be between 1 and 50")]
      else []
  | None => []
  end.

(** GET /posts.  [sorted] is the order the store returns the matches in
    (by text score with a search, by [createdAt] descending without). *)
Definition getPosts (text_matches : string -> SecureBlog.Post -> bool)
    (sorted : option string -> list SecureBlog.Post -> list SecureBlog.Post)
    (users : gmap string SecureBlog.User) (posts : gmap string SecureBlog.Post)
    (q : ListReq) : Listing :=
  match (page_errors q ++ limit_errors q ++ q_errors q)%list with
  | _ :: _ => ListInvalid (page_errors q ++ limit_errors q ++ q_errors q)%list
  | [] =>
      let page := int_or (q_page q) 1 in
      let limit := int_or (q_limit q) 10 in
      let skip := (page - 1) * limit in
      if bool_decide (Js.truthy (q_author q) = true
                      /\ cast_object_id (JStr (Js.or_else (q_author q) "")) = None)
      then ListFailed
      else
        let matches :=
          List.filter (listed text_matches q) (snd <$> map_to_list posts) in
        let found :=
          take (Z.to_nat limit) (drop (Z.to_nat skip) (sorted (q_search q) matches)) in
        let totalPosts := Z.of_nat (length matches) in
        let totalPages := ceil_div totalPosts limit in
        Listed ((fun p => (p, SecureBlog.populate users p)) <$> found)
               page totalPages totalPosts (page <? totalPages) (1 <? page)
  end.

End Routes.

(** Sample data: Alice creates and edits, Bob tries to. *)
Definition creation : CreateReq :=
  {| c_errors := []; c_title := "A title"; c_body := "Ten or more characters.";
     c_status := None; c_tags := Some ["News"; "news"; ""; "Tech"] |}.

Definition retitle : UpdateReq :=
  {| u_errors := []; u_title := Some "New title"; u_body := None;
     u_status := None; u_tags := None |}.

Definition as_user (id : string) (header : option string) : SecureBlog.Request :=
  {| SecureBlog.authorization := header; SecureBlog.params := {[ "id" := id ]};
     SecureBlog.req_user := None; SecureBlog.resource := None |}.

Definition bearer (id : string) : option string :=
  Some ("Bearer " +:+ Sample.token_for id).

(** Dan, an active account with the role user, beside the sample ones. *)
Definition dan_id : string := "0000000000000000000000d9".
Definition dan : SecureBlog.User := Sample.account dan_id "dan@example.com" RoleUser true.
Definition users : gmap string SecureBlog.User := <[dan_id := dan]> Sample.users.

Definition new_id : string := "0000000000000000000000aa".

(** Everything listed, in the order of the collection. *)
Definition any_text (search : string) (p : SecureBlog.Post) : bool := true.
Definition as_stored (search : option string) (l : list SecureBlog.Post)
    : list SecureBlog.Post := l.

Definition first_page : ListReq :=
  {| q_errors := []; q_page := None; q_limit := Some 5; q_search := None;
     q_tag := None; q_author := None |}.

Definition published_id : string := "0000000000000000000000e8".
Definition library : gmap string SecureBlog.Post :=
  <[published_id := Sample.post published_id Sample.alice_id SecureBlog.published]>
    Sample.posts.

End Posts.

(** ** The blog posts with a view counter (unnamed/part_003, unnamed/part_004) *)

Module Blog.

(** models/post.js: a stored document, with the schema's paths and the
    timestamps.  The paths have the schema's types, the required ones are
    there, and the numbers are integers; what the validators check beyond
    that, a stored document need not satisfy, since PUT /:id writes without
    running them.  [status] is the string stored. *)
Record Post := {
  p_id : string;
  title : string;
  slug : string;
  content : string;
  excerpt : option string;
  author : string;
  category : option string;
  tags : list string;
  status : string;
  featuredImage : option string;
  isFeatured : bool;
  viewsCount : Z;
  likesCount : Z;
  publishedAt : option Z;
  createdAt : Z;
  updatedAt : Z
}.

(** The [readingTime] virtual. *)
Definition readingTime (p : Post) : Z :=
  Z.max 1 (Posts.ceil_div (Posts.wordCount (content p)) 200).

(** The schema's validators, which [save()] runs on the document it was
    called on, loaded paths included: a required string is not empty,
    [maxlength] bounds [length], [status] is one of the enum. *)
Definition valid (p : Post) : bool :=
  negb (String.eqb (title p) "") && (Js.length (title p) <=? 200)
  && negb (String.eqb (slug p) "") && (Js.length (slug p) <=? 200)
  && negb (String.eqb (content p) "")
  && opt_all (fun e => Js.length e <=? 300) (excerpt p)
  && bool_decide (status p ∈ ["draft"; "published"; "archived"]).

(** The pre-save hook: a published post without a publication date gets
    one. *)
Definition pre_save (now : Z) (p : Post) : Post :=
  match String.eqb (status p) "published", publishedAt p with
  | true, None =>
      {| p_id := p_id p; title := title p; slug := slug p; content := content p;
         excerpt := excerpt p; author := author p; category := category p;
         tags := tags p; status := status p; featuredImage := featuredImage p;
         isFeatured := isFeatured p; viewsCount := viewsCount p;
         likesCount := likesCount p; publishedAt := Some now;
         createdAt := createdAt p; updatedAt := updatedAt p |}
  | _, _ => p
  end.

(** [this.viewsCount += 1], an addition of doubles; [modified] tells
    whether that changed the path, and with it the document. *)
Definition viewed (p : Post) : Post :=
  {| p_id := p_id p; title := title p; slug := slug p; content := content p;
     excerpt := excerpt p; author := author p; category := category p;
     tags := tags p; status := status p; featuredImage := featuredImage p;
     isFeatured := isFeatured p; viewsCount := Js.to_double (viewsCount p + 1);
     likesCount := likesCount p; publishedAt := publishedAt p;
     createdAt := createdAt p; updatedAt := updatedAt p |}.

(** [save()] of a loaded document: the validators, then the hook of the
    timestamps, which stamps [updatedAt] of a modified document, then the
    hook above, then the write.  [None] when the validators reject. *)
Definition save (now : Z) (modified : bool) (p : Post) : option Post :=
  if valid p then
    Some (pre_save now
            {| p_id := p_id p; title := title p; slug := slug p; content := content p;
               excerpt := excerpt p; author := author p; category := category p;
               tags := tags p; status := status p; featuredImage := featuredImage p;
               isFeatured := isFeatured p; viewsCount := viewsCount p;
               likesCount := likesCount p; publishedAt := publishedAt p;
               createdAt := createdAt p;
               updatedAt := if modified then now else updatedAt p |})
  else None.

(** [incrementViews]: one view more, then [save()]. *)
Definition incrementViews (now : Z) (p : Post) : option Post :=
  save now (negb (viewsCount (viewed p) =? viewsCount p)) (viewed p).

Inductive Reply :=
  | Sent (status : Z) (post : Post)   (* the post, its references populated *)
  | Message (status : Z) (message : string)
  | Failure (status : Z) (name : string).   (* { message: err.message } *)

Section Routes.
Context `{NodeLibs}.

(** routes/posts.js, GET /:id: one request, from the load to the save, with
    no other request on the post in between. *)
Definition getPost (posts : gmap string Post) (now : Z) (id : string)
    : Reply * gmap string Post :=
  match Db.findById posts (Some (JStr id)) with
  | Db.Rejects name => (Failure 500 name, posts)
  | Db.Null => (Message 404 "Post not found", posts)
  | Db.Found post =>
      match incrementViews now post with
      | Some saved => (Sent 200 saved, <[p_id post := saved]> posts)
      | None => (Failure 500 "ValidationError", posts)
      end
  end.

(** routes/posts.js, DELETE /:id. *)
Definition deletePost (posts : gmap string Post) (id : string)
    : Reply * gmap string Post :=
  match cast_object_id (JStr id) with
  | None => (Failure 500 "CastError", posts)
  | Some k => (Message 200 "Post deleted successfully", base.delete k posts)
  end.

(** GET /:id, once for every time of a list, one request after the
    other: each is answered before the next is taken up. *)
Fixpoint getPost_times (posts : gmap string Post) (id : string) (times : list Z)
    : gmap string Post :=
  match times with
  | [] => posts
  | now :: later => getPost_times (snd (getPost posts now id)) id later
  end.

End Routes.

Definition story_id : string := "0000000000000000000000b1".

Definition story : Post :=
  {| p_id := story_id; title := "Story"; slug := "story"; content := "Once upon a time";
     excerpt := None; author := Sample.alice_id; category := None; tags := [];
     status := "published"; featuredImage := None; isFeatured := false;
     viewsCount := 41; likesCount := 0; publishedAt := None;
     createdAt := 10; updatedAt := 10 |}.

Definition shelf : gmap string Post := {[ story_id := story ]}.

End Blog.

(** ** Further notions *)

(** The stack trace a response body carries. *)
Definition body_stack (b : Body) : option string :=
  match b with
  | BFailure _ stack => stack
  | _ => None
  end.

(** String.prototype.trim and toLowerCase: each does nothing to its own
    result, and they commute (white space has no case, and which letters
    end a word does not depend on the white space around). *)
Class StringLaws `{NodeLibs} : Prop := {
  str_trim_trim : forall s, str_trim (str_trim s) = str_trim s;
  str_lower_lower : forall s, str_lower (str_lower s) = str_lower s;
  str_trim_lower : forall s, str_trim (str_lower s) = str_lower (str_trim s)
}.

(** bcryptjs: a password compares equal to its own hash. *)
Class BcryptLaws `{NodeLibs} : Prop := {
  bcrypt_compare_hash :
    forall password salt, bcrypt_compare password (bcrypt_hash password salt) = true
}.

(** A collection of express-blog-api accounts as the unique indexes keep it:
    every document under its own id, no two with the same email or the same
    username. *)
Definition indexed (users : gmap string ExpressBlog.User) : Prop :=
  (forall k u, users !! k = Some u -> ExpressBlog._id u = k)
  /\ (forall i j u v, users !! i = Some u -> users !! j = Some v ->
        ExpressBlog.email u = ExpressBlog.email v
        \/ ExpressBlog.username u = ExpressBlog.username v -> i = j).

(** Further sample data: Erin logs in after registering. *)
Module Sample2.

Definition erin_credentials : ExpressBlog.LoginReq :=
  {| ExpressBlog.l_errors := []; ExpressBlog.l_email := "erin@example.com";
     ExpressBlog.l_password := "battery staple" |}.

Definition erin_logs_in : Z * Body :=
  ExpressBlog.login Sample.bare_env (snd Sample.erin_registers) 1000 erin_credentials.

Definition erin_access : string :=
  match snd erin_logs_in with
  | BSession access _ _ => access
  | _ => ""
  end.

Definition erin_refresh : string :=
  match snd erin_logs_in with
  | BSession _ refresh _ => refresh
  | _ => ""
  end.

Definition erin_doc : Obj :=
  match snd erin_logs_in with
  | BSession _ _ user => user
  | _ => ∅
  end.

Definition wrong_password : ExpressBlog.LoginReq :=
  {| ExpressBlog.l_errors := []; ExpressBlog.l_email := "erin@example.com";
     ExpressBlog.l_password := "guess" |}.

Definition unknown_email : ExpressBlog.LoginReq :=
  {| ExpressBlog.l_errors := []; ExpressBlog.l_email := "nobody@example.com";
     ExpressBlog.l_password := "battery staple" |}.

(** A post with a body of 160 characters. *)
Definition long_post : SecureBlog.Post :=
  {| SecureBlog.p_id := "0000000000000000000000c7"; SecureBlog.title := "Long";
     SecureBlog.body :=
       "0123456789012345678901234567890123456789"
       +:+ "0123456789012345678901234567890123456789"
       +:+ "0123456789012345678901234567890123456789"
       +:+ "0123456789012345678901234567890123456789";
     SecureBlog.user := Sample.alice_id; SecureBlog.status := SecureBlog.published;
     SecureBlog.tags := []; SecureBlog.readTime := 1;
     SecureBlog.p_createdAt := 0; SecureBlog.p_updatedAt := 0 |}.


(** Dave, authenticated, asks for the route of another id. *)
Definition dave_at_other : ExpressBlog.Request :=
  {| ExpressBlog.authorization := None; ExpressBlog.params := {[ "id" := "u2" ]};
     ExpressBlog.userId := Some (JStr Sample.dave_id);
     ExpressBlog.user := Some Sample.dave |}.

End Sample2.

(** ** The reference implementation satisfies the laws *)

Lemma unbits_bits (p : positive) : Ref.unbits (Ref.bits p) = Some p.
Proof.
  induction p as [q IH | q IH |]; simpl; [| | reflexivity]; rewrite IH; reflexivity.
Qed.

Lemma unseal_seal (p : Obj) (k : string) :
  k <> "" -> Ref.unseal (Ref.seal p k) k = Some p.
Proof.
  intros Hk. apply String.eqb_neq in Hk.
  unfold Ref.unseal, Ref.seal. simpl. rewrite Hk. simpl.
  rewrite unbits_bits. simpl. rewrite decode_encode.
  rewrite String.eqb_refl. reflexivity.
Qed.

#[global] Instance ref_laws : @NodeLibsLaws Ref.libs.
Proof.
  split; try reflexivity.
  - apply unseal_seal.
  - intros p k. discriminate.
Qed.

Lemma lower_ascii_idem (c : ascii) :
  Ref.lower_ascii (Ref.lower_ascii c) = Ref.lower_ascii c.
Proof. destruct c as [[] [] [] [] [] [] [] []]; reflexivity. Qed.

Lemma is_space_lower (c : ascii) : Ref.is_space (Ref.lower_ascii c) = Ref.is_space c.
Proof. destruct c as [[] [] [] [] [] [] [] []]; reflexivity. Qed.

Lemma lower_idem (s : string) : Ref.lower (Ref.lower s) = Ref.lower s.
Proof.
  induction s as [| c s IH]; simpl; [reflexivity |].
  rewrite lower_ascii_idem, IH. reflexivity.
Qed.

Lemma trim_left_lower (s : string) :
  Ref.trim_left (Ref.lower s) = Ref.lower (Ref.trim_left s).
Proof.
  induction s as [| c s IH]; simpl; [reflexivity |].
  rewrite is_space_lower. destruct (Ref.is_space c); [exact IH | reflexivity].
Qed.

Lemma trim_right_lower (s : string) :
  Ref.trim_right (Ref.lower s) = Ref.lower (Ref.trim_right s).
Proof.
  induction s as [| c s IH]; simpl; [reflexivity |].
  rewrite IH, is_space_lower.
  destruct (Ref.trim_right s); simpl; [| reflexivity].
  destruct (Ref.is_space c); reflexivity.
Qed.

Lemma trim_right_idem (s : string) :
  Ref.trim_right (Ref.trim_right s) = Ref.trim_right s.
Proof.
  induction s as [| c s IH]; simpl; [reflexivity |].
  destruct (Ref.trim_right s) as [| d t] eqn:Hr.
  - destruct (Ref.is_space c) eqn:Hc; simpl; [reflexivity |].
    rewrite Hc. reflexivity.
  - change (Ref.trim_right (String c (String d t)))
      with (match Ref.trim_right (String d t) with
            | EmptyString => if Ref.is_space c then EmptyString else String c EmptyString
            | String d' t' => String c (String d' t')
            end).
    rewrite IH. reflexivity.
Qed.

Lemma trim_left_clean (s : string) : Ref.starts_clean (Ref.trim_left s) = true.
Proof.
  induction s as [| c s IH]; simpl; [reflexivity |].
  destruct (Ref.is_space c) eqn:Hc; [exact IH |]. simpl. rewrite Hc. reflexivity.
Qed.

Lemma trim_left_of_clean (s : string) :
  Ref.starts_clean s = true -> Ref.trim_left s = s.
Proof.
  destruct s as [| c s]; simpl; [reflexivity |].
  destruct (Ref.is_space c); [discriminate | reflexivity].
Qed.

Lemma trim_right_clean (s : string) :
  Ref.starts_clean s = true -> Ref.starts_clean (Ref.trim_right s) = true.
Proof.
  destruct s as [| c s]; simpl; [reflexivity |].
  intros Hc. destruct (Ref.trim_right s); simpl.
  - destruct (Ref.is_space c) eqn:Hsp; [discriminate |].
    simpl. rewrite Hsp. reflexivity.
  - exact Hc.
Qed.

#[global] Instance ref_string_laws : @StringLaws Ref.libs.
Proof.
  split; simpl.
  - intros s. unfold Ref.trim.
    rewrite (trim_left_of_clean (Ref.trim_right (Ref.trim_left s)))
      by (apply trim_right_clean, trim_left_clean).
    apply trim_right_idem.
  - apply lower_idem.
  - intros s. unfold Ref.trim. rewrite trim_left_lower. apply trim_right_lower.
Qed.

(** ** jsonwebtoken: derived facts *)

Section JwtFacts.
Context `{NodeLibs}.


Lemma verify_decoded_nonempty token secret now p :
  Jwt.verify token secret now = Jwt.Decoded p -> token <> "".
Proof. intros Hv ->. discriminate Hv. Qed.

End JwtFacts.

(** ** Authentication middleware *)



(** A token part with the header of a token and a payload that does not
    parse: [authenticate] answers 500 where [auth] answers 401. *)
Lemma garbled_token_is_500 :
  not_a_token "Jx"
  /\ SecureBlog.authenticate Sample.env Sample.users 1000
       (Sample.request (Some "Bearer Jx"))
     = Respond 500 (BMessage false "Internal server error during authentication.")
  /\ ExpressBlog.auth Sample.env ∅ 1000 (Sample.xrequest (Some "Bearer Jx"))
     = Respond 401 (BError "Invalid token.").
Proof.
  split.
  { right. intros k. simpl. destruct (negb (String.eqb k "")); reflexivity. }
  split; vm_compute; reflexivity.
Qed.


(** C4: a request with a validly signed, unexpired token whose account
    exists and is deactivated gets 401 from [authenticate]; the outcome is a
    response, so no account is attached and the next handler does not run. *)
Theorem deactivated_account_is_401 `{NodeLibs}
    (env : Env) (users : gmap string SecureBlog.User) (now : Z)
    (req : SecureBlog.Request) (h : string) (decoded : Obj) (u : SecureBlog.User) :
  SecureBlog.authorization req = Some h ->
  Jwt.verify (SecureBlog.token_of h) (JWT_SECRET env) now = Jwt.Decoded decoded ->
  Db.findById users (decoded !! "userId") = Db.Found u ->
  SecureBlog.isActive u = false ->
  SecureBlog.authenticate env users now req
  = Respond 401 (BMessage false "User account is deactivated.").
Proof.
  intros Hh Hv Hu Hact.
  pose proof (verify_decoded_nonempty _ _ _ _ Hv) as Htok.
  unfold SecureBlog.authenticate. rewrite Hh. simpl.
  destruct (String.eqb_spec h "") as [-> | _]; [contradiction Htok; reflexivity |].
  simpl.
  destruct (String.eqb_spec (SecureBlog.token_of h) ""); [contradiction |].
  rewrite Hv, Hu. simpl. rewrite Hact. reflexivity.
Qed.

Lemma deactivated_account_is_401_witness :
  SecureBlog.authenticate Sample.env Sample.users 1000
    (Sample.request (Some ("Bearer " +:+ Sample.token_for Sample.bob_id)))
  = Respond 401 (BMessage false "User account is deactivated.").
Proof.
  apply (deactivated_account_is_401 Sample.env Sample.users 1000 _
           ("Bearer " +:+ Sample.token_for Sample.bob_id)
           (<["iss" := JStr "secure-blog-api"]>
            (<["aud" := JStr "blog-users"]>
             (<["exp" := JNum 604800]>
              (<["iat" := JNum 0]> {["userId" := JStr Sample.bob_id]}))))
           Sample.bob).
  - reflexivity.
  - vm_compute. reflexivity.
  - vm_compute. reflexivity.
  - reflexivity.
Defined.

(** C7: [optionalAuth] goes through the steps of the rejecting variant and
    always hands over to the next handler: with the account attached
    exactly when the rejecting variant would have attached it, and with the
    request as it came whenever the rejecting variant would have responded
    (401 or 500).  It never responds itself.  Both sub-projects. *)
Theorem optionalAuth_continues_where_auth_rejects `{NodeLibs} (env : Env) (now : Z) :
  (forall (users : gmap string SecureBlog.User) (req : SecureBlog.Request),
     SecureBlog.optionalAuth env users now req
     = match SecureBlog.authenticate env users now req with
       | Next req' => Next req'
       | Respond _ _ => Next req
       end)
  /\ (forall (users : gmap string ExpressBlog.User) (req : ExpressBlog.Request),
        ExpressBlog.optionalAuth env users now req
        = match ExpressBlog.auth env users now req with
          | Next req' => Next req'
          | Respond _ _ => Next req
          end).
Proof.
  split; intros users req.
  - unfold SecureBlog.optionalAuth, SecureBlog.authenticate.
    destruct (negb (Js.truthy (SecureBlog.authorization req))); [reflexivity |].
    destruct (String.eqb _ ""); [reflexivity |].
    destruct (Jwt.verify _ _ _) as [decoded | []]; try reflexivity.
    destruct (Db.findById _ _) as [u | |]; try reflexivity.
    destruct (SecureBlog.isActive _); reflexivity.
  - unfold ExpressBlog.optionalAuth, ExpressBlog.auth.
    destruct (Js.truthy _); simpl; [| reflexivity].
    destruct (Jwt.verify _ _ _) as [decoded |]; try reflexivity.
    destruct (Db.findById _ _) as [u | |]; reflexivity.
Qed.

(** ** Ownership *)




(** X17: for an attached account and a stored post, [checkOwnership] lets
    the request on exactly when [canEdit] of the Post model allows the
    account to edit the post. *)
Lemma checkOwnership_canEdit `{NodeLibs}
    (param : string) (posts : gmap string SecureBlog.Post)
    (req : SecureBlog.Request) (u : SecureBlog.User) (r : SecureBlog.Post) :
  SecureBlog.req_user req = Some u ->
  Db.findById posts (JStr <$> SecureBlog.params req !! param) = Db.Found r ->
  SecureBlog.checkOwnership param posts req = Next (SecureBlog.with_resource req r)
  <-> SecureBlog.canEdit r (SecureBlog._id u) (SecureBlog.role u) = true.
Proof.
  intros Hu Hr. unfold SecureBlog.checkOwnership, SecureBlog.canEdit.
  rewrite Hr, Hu.
  destruct (bool_decide (SecureBlog.role u = RoleAdmin)); simpl; [tauto |].
  destruct (String.eqb (SecureBlog.user r) (SecureBlog._id u)); simpl;
    split; (reflexivity || discriminate).
Qed.

(** A lookup that rejects (an id that does not cast) is answered with 500. *)
Lemma checkOwnership_rejected_lookup `{NodeLibs}
    (param : string) (posts : gmap string SecureBlog.Post)
    (req : SecureBlog.Request) (e : string) :
  Db.findById posts (JStr <$> SecureBlog.params req !! param) = Db.Rejects e ->
  SecureBlog.checkOwnership param posts req
  = Respond 500 (BMessage false "Internal server error.").
Proof. intros Hr. unfold SecureBlog.checkOwnership. rewrite Hr. reflexivity. Qed.

(** X15: [isOwner] of express-blog-api loads nothing: with an account
    attached under a non-empty id, it lets the request on, unchanged, when
    that id is the route's [id] or the role is admin, and answers 403
    otherwise. *)
Lemma isOwner_decides (req : ExpressBlog.Request) (id : string) (u : ExpressBlog.User) :
  ExpressBlog.userId req = Some (JStr id) -> id <> "" ->
  ExpressBlog.user req = Some u ->
  ExpressBlog.isOwner req
  = if bool_decide (ExpressBlog.params req !! "id" = Some id
                    \/ ExpressBlog.role u = RoleAdmin)
    then Next req
    else Respond 403 (BError "Access denied. Not authorized.").
Proof.
  intros Hid Hne Hu. unfold ExpressBlog.isOwner. rewrite Hid, Hu. simpl.
  apply String.eqb_neq in Hne. rewrite Hne. simpl.
  destruct (decide (Some id = ExpressBlog.params req !! "id")) as [Hsame | Hdiff];
    destruct (decide (ExpressBlog.role u = RoleAdmin)) as [Hadmin | Huser].
  - rewrite !bool_decide_eq_true_2 by auto. reflexivity.
  - rewrite (bool_decide_eq_true_2 _ Hsame), bool_decide_eq_true_2 by auto.
    reflexivity.
  - rewrite (bool_decide_eq_false_2 _ Hdiff), !bool_decide_eq_true_2 by auto.
    reflexivity.
  - rewrite (bool_decide_eq_false_2 _ Hdiff), !bool_decide_eq_false_2
      by (try assumption; intros [? | ?]; congruence).
    reflexivity.
Qed.

(** ** Visibility of unpublished posts *)




(** The owner and an administrator do get the unpublished post. *)
Lemma unpublished_post_shown_to_owner_and_admin :
  fst (SecureBlog.getPost Sample.users Sample.posts
         (Sample.request_post Sample.draft_id (Some Sample.alice))) = 200
  /\ fst (SecureBlog.getPost Sample.users Sample.posts
            (Sample.request_post Sample.draft_id (Some Sample.carol))) = 200.
Proof. split; vm_compute; reflexivity. Qed.

(** ** Token issuance *)

Section Issuance.
Context `{NodeLibs} `{!NodeLibsLaws}.

(** A token opened under its key, with no [nbf] and an expiry still ahead,
    verifies to its payload. *)
Lemma verify_unexpired token key p e later :
  jws_open token key = Some p -> token <> "" -> key <> "" ->
  p !! "nbf" = None -> p !! "exp" = Some (JNum e) -> Jwt.clock later < e ->
  Jwt.verify token (Some key) later = Jwt.Decoded p.
Proof.
  intros Hopen Htok Hkey Hnbf Hexp Hlt.
  unfold Jwt.verify, Jwt.check_exp. simpl.
  apply String.eqb_neq in Htok, Hkey. rewrite Htok, Hkey.
  rewrite Hopen, Hnbf, Hexp.
  destruct (Z.leb_spec e (Jwt.clock later)); [lia | reflexivity].
Qed.

(** The tokens express-blog-api signs carry the id, [iat] and [exp] only. *)
Lemma express_token_claims userId span life now :
  span_seconds span = Some life ->
  Jwt.claims userId (ExpressBlog.sign_opts span) now
  = Some (<["exp" := JNum (Jwt.clock now + life)]>
          (<["iat" := JNum (Jwt.clock now)]> {["userId" := JStr userId]})).
Proof. intros Hs. unfold Jwt.claims. simpl. rewrite Hs. reflexivity. Qed.

End Issuance.

(** C3 (as amended): with a signing key configured, [generateToken] issues
    for every account id a token that verifies under that key until its
    expiry to exactly five claims: the same account id, the issuance time
    [iat] (which jsonwebtoken adds), the expiry [exp = iat + lifetime], the
    issuer secure-blog-api and the audience blog-users.  The lifetime is
    the configured one, 7 days when none is configured. *)
Theorem generateToken_roundtrip `{NodeLibs} `{!NodeLibsLaws}
    (env : Env) (now later : Z) (userId key : string) (life : Z) :
  JWT_SECRET env = Some key -> key <> "" ->
  span_seconds (Js.or_else (JWT_EXPIRES_IN env) "7d") = Some life ->
  Jwt.clock later < Jwt.clock now + life ->
  exists token decoded,
    SecureBlog.generateToken env now userId = Some token
    /\ Jwt.verify token (Some key) later = Jwt.Decoded decoded
    /\ decoded !! "userId" = Some (JStr userId)
    /\ decoded !! "iat" = Some (JNum (Jwt.clock now))
    /\ decoded !! "exp" = Some (JNum (Jwt.clock now + life))
    /\ decoded !! "iss" = Some (JStr "secure-blog-api")
    /\ decoded !! "aud" = Some (JStr "blog-users")
    /\ claim_names decoded = {[ "userId"; "iat"; "exp"; "iss"; "aud" ]}
    /\ (JWT_EXPIRES_IN env = None -> life = 604800).
Proof.
  intros Hkey Hne Hspan Hlt.
  unfold SecureBlog.generateToken, Jwt.sign, Jwt.claims. simpl.
  rewrite Hkey, Hspan. simpl.
  pose proof Hne as Hne'. apply String.eqb_neq in Hne'. rewrite Hne'. simpl.
  eexists _, _. split; [reflexivity |].
  split.
  { apply (verify_unexpired _ _ _ (Jwt.clock now + life)).
    - apply jws_open_sign. exact Hne.
    - apply jws_sign_nonempty.
    - exact Hne.
    - reflexivity.
    - reflexivity.
    - exact Hlt. }
  do 5 (split; [reflexivity |]).
  split.
  - unfold claim_names. rewrite !dom_insert_L, dom_singleton_L. set_solver.
  - intros Hnone. rewrite Hnone in Hspan. simpl in Hspan.
    rewrite span_7d in Hspan. congruence.
Qed.

Lemma generateToken_roundtrip_witness :
  exists token decoded,
    SecureBlog.generateToken Sample.env 0 Sample.alice_id = Some token
    /\ Jwt.verify token (Some "s3cret") 5000 = Jwt.Decoded decoded
    /\ decoded !! "userId" = Some (JStr Sample.alice_id)
    /\ decoded !! "iat" = Some (JNum (Jwt.clock 0))
    /\ decoded !! "exp" = Some (JNum (Jwt.clock 0 + 604800))
    /\ decoded !! "iss" = Some (JStr "secure-blog-api")
    /\ decoded !! "aud" = Some (JStr "blog-users")
    /\ claim_names decoded = {[ "userId"; "iat"; "exp"; "iss"; "aud" ]}
    /\ (JWT_EXPIRES_IN Sample.env = None -> 604800 = 604800).
Proof.
  apply (generateToken_roundtrip Sample.env 0 5000 Sample.alice_id "s3cret" 604800).
  - reflexivity.
  - discriminate.
  - reflexivity.
  - reflexivity.
Defined.

(** C3, as stated, fails: the token [generateToken] issues decodes to a
    claim besides the account id, the expiry, the issuer and the audience,
    namely [iat]. *)
Lemma issued_token_carries_iat :
  exists decoded,
    Jwt.verify (Sample.token_for Sample.alice_id) (Some "s3cret") 5000
    = Jwt.Decoded decoded
    /\ decoded !! "iat" = Some (JNum 0)
    /\ claim_names decoded <> {[ "userId"; "exp"; "iss"; "aud" ]}.
Proof.
  exists (<["iss" := JStr "secure-blog-api"]>
          (<["aud" := JStr "blog-users"]>
           (<["exp" := JNum 604800]>
            (<["iat" := JNum 0]> {["userId" := JStr Sample.alice_id]})))).
  split; [vm_compute; reflexivity |].
  split; [reflexivity |].
  unfold claim_names. rewrite !dom_insert_L, dom_singleton_L.
  intros Heq.
  assert ("iat" ∈ ({[ "userId"; "exp"; "iss"; "aud" ]} : gset string)) as Hin
    by (rewrite <- Heq; set_solver).
  set_solver.
Qed.

(** ** Registration and the fallback secret *)

Lemma findOne_Some {A} (P : A -> bool) (coll : gmap string A) (k : string) (a : A) :
  coll !! k = Some a -> P a = true -> is_Some (Db.findOne P coll).
Proof.
  intros Hk HP. unfold Db.findOne.
  assert ((k, a) ∈ filter (fun kv : string * A => P (snd kv) = true) (map_to_list coll))
    as Hin.
  { apply list_elem_of_filter. split; [exact HP |].
    apply elem_of_map_to_list. exact Hk. }
  destruct (filter _ (map_to_list coll)) as [| kv l].
  - apply elem_of_nil in Hin. contradiction.
  - simpl. eauto.
Qed.

Lemma express_token_of_bearer (token : string) :
  ExpressBlog.token_of ("Bearer " +:+ token) = token.
Proof. destruct token; reflexivity. Qed.

Lemma secure_token_of_bearer (token : string) :
  SecureBlog.token_of ("Bearer " +:+ token) = token.
Proof. destruct token; reflexivity. Qed.

Section Registration.
Context `{NodeLibs}.

(** A saved document is stored under the id it was created with. *)
Lemma save_stored salt newid now r users u users' :
  ExpressBlog.save salt (ExpressBlog.newUser newid now r) users = Some (u, users') ->
  ExpressBlog._id u = newid /\ users' = <[newid := u]> users.
Proof.
  unfold ExpressBlog.save.
  destruct (ExpressBlog.schema_valid _); [| discriminate].
  simpl. destruct (users !! newid); [discriminate |].
  destruct (Db.findOne _ users); [discriminate |].
  intros [= <- <-]. split; reflexivity.
Qed.

(** X16: registration never touches an account that is already there:
    whatever the request and the answer, every stored account is stored
    unchanged afterwards. *)
Lemma register_keeps_accounts env users now newid salt r id existing :
  users !! id = Some existing ->
  snd (ExpressBlog.register env users now newid salt r) !! id = Some existing.
Proof.
  intros Hid. unfold ExpressBlog.register.
  destruct (ExpressBlog.r_errors r); [| exact Hid].
  destruct (Db.findOne _ users); [exact Hid |].
  destruct (ExpressBlog.save _ _ _) as [[u stored] |] eqn:Hsave; [| exact Hid].
  assert (stored !! id = Some existing) as Hkept.
  { unfold ExpressBlog.save in Hsave.
    destruct (ExpressBlog.schema_valid _); [| discriminate].
    simpl in Hsave. destruct (users !! newid) eqn:Hnew; [discriminate |].
    destruct (Db.findOne _ users); [discriminate |].
    injection Hsave as _ <-.
    rewrite lookup_insert_ne; [exact Hid | congruence]. }
  destruct (Jwt.sign _ _ _ _); exact Hkept.
Qed.

End Registration.

(** C8: in express-blog-api, with JWT_SECRET absent, the token that
    registration signs is signed with 'your-secret-key', and [auth], which
    then verifies with 'your-secret-key' too, accepts it until it expires
    and attaches the account it was issued for. *)
Theorem fallback_secret_signs_and_verifies `{NodeLibs} `{!NodeLibsLaws}
    (env : Env) (users users' : gmap string ExpressBlog.User) (now later : Z)
    (newid salt : string) (r : ExpressBlog.RegisterReq)
    (msg : string) (doc : Obj) (token : string) (req : ExpressBlog.Request) :
  JWT_SECRET env = None ->
  ExpressBlog.register env users now newid salt r
  = ((201, BCreated msg doc token), users') ->
  cast_object_id (JStr newid) = Some newid ->
  Jwt.clock later < Jwt.clock now + 86400 ->
  ExpressBlog.authorization req = Some ("Bearer " +:+ token) ->
  jws_open token "your-secret-key"
  = Some (<["exp" := JNum (Jwt.clock now + 86400)]>
          (<["iat" := JNum (Jwt.clock now)]> {["userId" := JStr newid]}))
  /\ exists u, users' !! newid = Some u
       /\ ExpressBlog.auth env users' later req
          = Next (ExpressBlog.attach req (Some (JStr newid)) u).
Proof.
  intros Henv Hreg Hcast Hlt Hhdr.
  unfold ExpressBlog.register in Hreg.
  destruct (ExpressBlog.r_errors r); [| discriminate].
  destruct (Db.findOne _ users); [discriminate |].
  destruct (ExpressBlog.save _ _ _) as [[u stored] |] eqn:Hsave; [| discriminate].
  apply save_stored in Hsave as [Hid ->].
  rewrite Henv in Hreg. unfold Jwt.sign in Hreg. simpl in Hreg.
  rewrite (express_token_claims _ _ _ _ span_24h) in Hreg. simpl in Hreg.
  injection Hreg as _ _ <- <-. subst newid.
  set (p := <["exp" := JNum (Jwt.clock now + 86400)]> _) in *.
  assert (jws_open (jws_sign p "your-secret-key") "your-secret-key" = Some p) as Hopen
    by (apply jws_open_sign; discriminate).
  split; [exact Hopen |].
  exists u. split; [apply lookup_insert_eq |].
  unfold ExpressBlog.auth. rewrite Hhdr, Henv. simpl.
  rewrite express_token_of_bearer.
  pose proof (jws_sign_nonempty p "your-secret-key") as Hne.
  apply String.eqb_neq in Hne. rewrite Hne. simpl.
  rewrite (verify_unexpired _ "your-secret-key" p (Jwt.clock now + 86400));
    [| exact Hopen | apply jws_sign_nonempty | discriminate
     | reflexivity | reflexivity | exact Hlt].
  replace (p !! "userId") with (Some (JStr (ExpressBlog._id u))) by reflexivity.
  unfold Db.findById. rewrite Hcast, lookup_insert_eq. reflexivity.
Qed.

Lemma fallback_secret_signs_and_verifies_witness :
  jws_open Sample.erin_token "your-secret-key"
  = Some (<["exp" := JNum (Jwt.clock 0 + 86400)]>
          (<["iat" := JNum (Jwt.clock 0)]> {["userId" := JStr Sample.erin_id]}))
  /\ exists u, snd Sample.erin_registers !! Sample.erin_id = Some u
       /\ ExpressBlog.auth Sample.bare_env (snd Sample.erin_registers) 3600000
            (Sample.xrequest (Some ("Bearer " +:+ Sample.erin_token)))
          = Next (ExpressBlog.attach
                    (Sample.xrequest (Some ("Bearer " +:+ Sample.erin_token)))
                    (Some (JStr Sample.erin_id)) u).
Proof.
  apply (fallback_secret_signs_and_verifies Sample.bare_env ∅
           (snd Sample.erin_registers) 0 3600000 Sample.erin_id "salt"
           (Sample.registration "erin" "erin@example.com")
           "User created successfully"
           (match snd (fst Sample.erin_registers) with
            | BCreated _ doc _ => doc
            | _ => ∅
            end)
           Sample.erin_token).
  - reflexivity.
  - vm_compute. reflexivity.
  - reflexivity.
  - reflexivity.
  - reflexivity.
Defined.

(** C5 (as amended): in express-blog-api, a registration whose email or
    username (as the schema casts them: trimmed, the email lower-cased) is
    that of an existing account is answered with 400 and the collection is
    left as it was; once the body has passed validation the answer names
    the duplicate. *)
Theorem duplicate_registration_is_400 `{NodeLibs}
    (env : Env) (users : gmap string ExpressBlog.User) (now : Z)
    (newid salt : string) (r : ExpressBlog.RegisterReq)
    (id : string) (existing : ExpressBlog.User) :
  users !! id = Some existing ->
  ExpressBlog.email existing = ExpressBlog.set_email (ExpressBlog.r_email r)
  \/ ExpressBlog.username existing = ExpressBlog.set_username (ExpressBlog.r_username r) ->
  (exists b, ExpressBlog.register env users now newid salt r = ((400, b), users))
  /\ (ExpressBlog.r_errors r = [] ->
      ExpressBlog.register env users now newid salt r
      = ((400, BError "User with this email or username already exists"), users)).
Proof.
  intros Hid Hdup.
  assert (is_Some (Db.findOne
            (ExpressBlog.email_or_username
               (ExpressBlog.set_email (ExpressBlog.r_email r))
               (ExpressBlog.set_username (ExpressBlog.r_username r))) users))
    as [found Hfound].
  { apply (findOne_Some _ _ id existing Hid).
    unfold ExpressBlog.email_or_username.
    destruct Hdup as [-> | ->]; rewrite String.eqb_refl;
      [reflexivity | apply orb_true_r]. }
  unfold ExpressBlog.register. rewrite Hfound.
  destruct (ExpressBlog.r_errors r); split; eauto; discriminate.
Qed.

Lemma duplicate_registration_is_400_witness :
  (exists b, ExpressBlog.register Sample.bare_env Sample.xusers 0 Sample.erin_id "salt"
               (Sample.registration "dave2" "dave@example.com") = ((400, b), Sample.xusers))
  /\ (ExpressBlog.r_errors (Sample.registration "dave2" "dave@example.com") = [] ->
      ExpressBlog.register Sample.bare_env Sample.xusers 0 Sample.erin_id "salt"
        (Sample.registration "dave2" "dave@example.com")
      = ((400, BError "User with this email or username already exists"),
         Sample.xusers)).
Proof.
  apply (duplicate_registration_is_400 _ _ _ _ _ _ Sample.dave_id Sample.dave).
  - vm_compute. reflexivity.
  - left. reflexivity.
Defined.

(** C5, as stated, fails: registering with the email of an existing
    account is answered with 400, not with 409. *)
Lemma duplicate_registration_is_not_409 :
  fst (fst (ExpressBlog.register Sample.bare_env Sample.xusers 0 Sample.erin_id "salt"
              (Sample.registration "dave2" "dave@example.com"))) = 400
  /\ fst (fst (ExpressBlog.register Sample.bare_env Sample.xusers 0 Sample.erin_id "salt"
                 (Sample.registration "dave2" "dave@example.com"))) <> 409.
Proof. split; vm_compute; [reflexivity | discriminate]. Qed.

(** The 409 of the spec is what the global error handler of secure-blog-api
    answers to a duplicate-key error that reaches it. *)
Lemma errorHandler_duplicate_key `{NodeLibs} (env : Env) (err : SecureBlog.AppError)
    (field : string) (rest : list string) :
  SecureBlog.name err <> "ValidationError" ->
  SecureBlog.code err = Some 11000 ->
  SecureBlog.keyValue err = field :: rest ->
  SecureBlog.errorHandler env err = (409, BMessage false (field +:+ " already exists")).
Proof.
  intros Hname Hcode Hkeys. unfold SecureBlog.errorHandler.
  apply String.eqb_neq in Hname. rewrite Hname, Hcode, Hkeys. reflexivity.
Qed.

(** ** Serialisation of accounts *)

Lemma toJSON_no_password (u : ExpressBlog.User) : no_password (ExpressBlog.toJSON u).
Proof. apply lookup_delete_eq. Qed.

Lemma selected_no_password (u : SecureBlog.User) :
  no_password (SecureBlog.userObject (SecureBlog.select_without_password u)).
Proof. reflexivity. Qed.

Lemma populate_no_password (users : gmap string SecureBlog.User) (p : SecureBlog.Post) :
  password_field (SecureBlog.populate users p) = None.
Proof.
  unfold SecureBlog.populate. destruct (users !! SecureBlog.user p); reflexivity.
Qed.

(** C6: no serialisation of an account that goes to a client has a
    [password] field: not the [toJSON] output, not the account in any
    response of register, login, refresh and me of express-blog-api, not the
    account that [authenticate] or [optionalAuth] of secure-blog-api loads
    and attaches, and not the populated author of a post. *)
Theorem password_never_serialised `{NodeLibs} :
  (forall u, ExpressBlog.toJSON u !! "password" = None)
  /\ (forall env users now newid salt r,
        Forall no_password
          (body_users (snd (fst (ExpressBlog.register env users now newid salt r)))))
  /\ (forall env users now r,
        Forall no_password (body_users (snd (ExpressBlog.login env users now r))))
  /\ (forall env users now refresh,
        Forall no_password
          (body_users (snd (ExpressBlog.refreshAccess env users now refresh))))
  /\ (forall env users now req,
        Forall no_password (body_users (snd (ExpressBlog.me env users now req))))
  /\ (forall env users now req,
        password_field (attached_doc (SecureBlog.authenticate env users now req)) = None)
  /\ (forall env users now header params,
        password_field
          (attached_doc (SecureBlog.optionalAuth env users now (incoming header params)))
        = None)
  /\ (forall users posts req,
        Forall no_password (body_users (snd (SecureBlog.getPost users posts req)))).
Proof.
  repeat split.
  - intros u. apply toJSON_no_password.
  - intros env users now newid salt r. unfold ExpressBlog.register.
    repeat case_match; simpl; repeat constructor. apply toJSON_no_password.
  - intros env users now r. unfold ExpressBlog.login.
    repeat case_match; simpl; repeat constructor. apply toJSON_no_password.
  - intros env users now refresh. unfold ExpressBlog.refreshAccess.
    repeat case_match; simpl; constructor.
  - intros env users now req. unfold ExpressBlog.me.
    repeat case_match; simpl; repeat constructor; try apply toJSON_no_password.
    unfold ExpressBlog.auth in *. repeat case_match; simplify_eq; constructor.
  - intros env users now req. unfold SecureBlog.authenticate.
    repeat case_match; reflexivity.
  - intros env users now header params. unfold SecureBlog.optionalAuth.
    repeat case_match; reflexivity.
  - intros users posts req. unfold SecureBlog.getPost.
    pose proof (populate_no_password users) as Hp.
    repeat case_match; simpl; try (constructor; fail);
      match goal with
      | |- context [SecureBlog.populate users ?p] =>
          specialize (Hp p); destruct (SecureBlog.populate users p);
          simpl; repeat constructor; exact Hp
      end.
Qed.

(** ** Chat relay *)

Lemma handle_message_plain (s : Chat.State) (room user text : string) (now : Z) :
  room ∉ Chat.object_prototype ->
  Chat.handle s (Chat.message room user text now)
  = Some ({| Chat.chatHistory :=
               <[room := (Chat.history_of s room
                          ++ [{| Chat.user := user; Chat.text := text;
                                 Chat.timestamp := now |}])%list]>
                 (Chat.chatHistory s);
             Chat.rooms := Chat.rooms s |},
          [Chat.broadcast room
             {| Chat.user := user; Chat.text := text; Chat.timestamp := now |}]).
Proof.
  intros Hplain. unfold Chat.handle, Chat.get, Chat.history_of.
  destruct (Chat.chatHistory s !! room) as [l |] eqn:Hl; simpl.
  - rewrite Hl. reflexivity.
  - rewrite bool_decide_eq_false_2 by assumption. simpl.
    rewrite lookup_insert_eq, insert_insert_eq. reflexivity.
Qed.

Lemma handle_join_history (s : Chat.State) (socket room : string) :
  exists s', Chat.handle s (Chat.joinRoom socket room)
             = Some (s', if Chat.truthy (Chat.get (Chat.chatHistory s) room)
                         then [Chat.history socket (Chat.get (Chat.chatHistory s) room)]
                         else [])
             /\ Chat.chatHistory s' = Chat.chatHistory s.
Proof.
  unfold Chat.handle.
  destruct (Chat.truthy _); eexists; split; reflexivity.
Qed.

(** On traces that stay clear of the names of [Object.prototype], every
    handler returns, each message is appended to the end of its room's
    history, and a room has an entry exactly when it already had one or a
    message was sent to it. *)
Lemma run_plain (es : list Chat.Event) :
  forall s, Forall Chat.plain es ->
  exists s' outs,
    Chat.run s es = Some (s', outs)
    /\ forall room,
         Chat.history_of s' room = (Chat.history_of s room ++ Chat.sent room es)%list
         /\ (is_Some (Chat.chatHistory s' !! room)
             <-> is_Some (Chat.chatHistory s !! room) \/ Chat.sent room es <> []).
Proof.
  induction es as [| e es IH]; intros s Hall.
  - exists s, []. split; [reflexivity |]. intros room. simpl.
    rewrite app_nil_r. split; [reflexivity |].
    split; [intros Hs; left; exact Hs | intros [Hs | Hne]; [exact Hs | congruence]].
  - apply Forall_cons in Hall as [He Hall].
    destruct e as [socket r | r user text now | socket].
    + destruct (handle_join_history s socket r) as (s1 & Hh & Hsame).
      destruct (IH s1 Hall) as (s' & outs & Hrun & Hinv).
      exists s'. eexists. cbn [Chat.run]. rewrite Hh, Hrun.
      split; [reflexivity |]. intros room. simpl.
      unfold Chat.history_of in *. rewrite <- Hsame. apply Hinv.
    + assert (r ∉ Chat.object_prototype) as Hr by (apply He; reflexivity).
      pose proof (handle_message_plain s r user text now Hr) as Hh.
      match type of Hh with _ = Some (?s1, _) =>
        destruct (IH s1 Hall) as (s' & outs & Hrun & Hinv) end.
      exists s'. eexists. cbn [Chat.run]. rewrite Hh, Hrun.
      split; [reflexivity |]. intros room.
      destruct (Hinv room) as [Hhist Hsome]. simpl.
      unfold Chat.history_of in *. simpl in Hhist, Hsome.
      destruct (String.eqb_spec r room) as [-> | Hne].
      * rewrite lookup_insert_eq in Hhist, Hsome. simpl in Hhist.
        rewrite Hhist, <- app_assoc. split; [reflexivity |].
        split; [intros _; right; discriminate |].
        intros _. apply Hsome. left. eauto.
      * rewrite lookup_insert_ne in Hhist, Hsome by assumption.
        split; assumption.
    + destruct (IH {| Chat.chatHistory := Chat.chatHistory s;
                      Chat.rooms := (fun members => members ∖ {[socket]})
                                    <$> Chat.rooms s |} Hall)
        as (s' & outs & Hrun & Hinv).
      exists s'. eexists. cbn [Chat.run Chat.handle]. rewrite Hrun.
      split; [reflexivity |]. intros room. apply Hinv.
Qed.

(** X18: after any sequence of events from the initial state whose room
    names are no properties of [Object.prototype], every handler returned,
    the history of such a room is the messages sent to it, in arrival order,
    and a client that joins it is sent exactly that history, or nothing when
    no message was sent to it. *)
Lemma join_after_plain_trace (es : list Chat.Event) (socket room : string) :
  Forall Chat.plain es -> room ∉ Chat.object_prototype ->
  exists s outs s',
    Chat.run Chat.init es = Some (s, outs)
    /\ Chat.history_of s room = Chat.sent room es
    /\ Chat.handle s (Chat.joinRoom socket room)
       = Some (s', match Chat.sent room es with
                   | [] => []
                   | _ :: _ => [Chat.history socket (Chat.Array (Chat.sent room es))]
                   end).
Proof.
  intros Hall Hroom.
  destruct (run_plain es Chat.init Hall) as (s & outs & Hrun & Hinv).
  destruct (Hinv room) as [Hhist Hsome].
  destruct (handle_join_history s socket room) as (s' & Hh & _).
  exists s, outs, s'. split; [exact Hrun |]. split; [exact Hhist |].
  rewrite Hh. f_equal. f_equal.
  unfold Chat.history_of in Hhist. simpl in Hhist, Hsome.
  rewrite lookup_empty in Hsome. unfold Chat.get.
  destruct (Chat.chatHistory s !! room) as [l |] eqn:Hl; simpl in *.
  - rewrite lookup_empty in Hhist. simpl in Hhist. subst l.
    destruct (Chat.sent room es) as [| m ms]; [| reflexivity].
    exfalso. destruct Hsome as [Hsome _].
    destruct Hsome as [[x Hx] | Hne]; [eauto | discriminate Hx | congruence].
  - rewrite bool_decide_eq_false_2 by assumption. simpl.
    destruct (Chat.sent room es); [reflexivity | discriminate].
Qed.

(** C9: the claim fails on the code for a room named like a property of
    [Object.prototype].  A client that joins the room "constructor" before
    any message was sent to it is sent a history (the inherited property),
    and a message to that room makes the handler throw, so it is neither
    recorded nor relayed. *)
Theorem inherited_room_name_breaks_history :
  Chat.sent "constructor" [] = []
  /\ snd <$> Chat.handle Chat.init (Chat.joinRoom "socket-1" "constructor")
     = Some [Chat.history "socket-1" (Chat.Inherited "constructor")]
  /\ Chat.handle Chat.init (Chat.message "constructor" "ann" "hello" 0) = None.
Proof. repeat split; vm_compute; reflexivity. Qed.

(** ** The in-memory posts router *)

Lemma prefix_empty (s : string) : String.prefix "" s = true.
Proof. destruct s; reflexivity. Qed.

Lemma append_cons (c : ascii) (s t : string) :
  String c s +:+ t = String c (s +:+ t).
Proof. reflexivity. Qed.

Lemma append_empty (t : string) : "" +:+ t = t.
Proof. reflexivity. Qed.

Lemma prefix_split (p s : string) :
  String.prefix p s = true <-> exists rest, s = p +:+ rest.
Proof.
  revert s. induction p as [| c p IH]; intros s.
  - rewrite prefix_empty. split; [intros _; exists s; reflexivity | reflexivity].
  - destruct s as [| d s]; simpl.
    + split; [discriminate | intros [rest Hrest]; discriminate Hrest].
    + destruct (ascii_dec c d) as [-> | Hne].
      * rewrite IH. split; intros [rest Hrest]; exists rest.
        -- rewrite append_cons, Hrest. reflexivity.
        -- rewrite append_cons in Hrest. congruence.
      * split; [discriminate |].
        intros [rest Hrest]. rewrite append_cons in Hrest. congruence.
Qed.

(** [includes] finds exactly the substrings. *)
Lemma includes_split (needle hay : string) :
  Memory.includes needle hay = true
  <-> exists before after, hay = before +:+ needle +:+ after.
Proof.
  induction hay as [| c hay IH]; cbn [Memory.includes].
  - rewrite orb_false_r, prefix_split. split.
    + intros [rest Hrest]. exists "", rest. exact Hrest.
    + intros (before & after & Heq). destruct before; [| discriminate Heq].
      exists after. exact Heq.
  - rewrite orb_true_iff, IH, prefix_split. split.
    + intros [[rest Hrest] | (before & after & Heq)].
      * exists "", rest. exact Hrest.
      * exists (String c before), after. rewrite append_cons, Heq. reflexivity.
    + intros (before & after & Heq). destruct before as [| d before].
      * left. exists after. exact Heq.
      * right. exists before, after. rewrite append_cons in Heq. congruence.
Qed.

Lemma memory_find_app (id0 : string) (posts more : list Memory.Post) :
  Memory.find id0 (posts ++ more)
  = match Memory.find id0 posts with
    | Some p => Some p
    | None => Memory.find id0 more
    end.
Proof.
  induction posts as [| p posts IH]; simpl; [reflexivity |].
  destruct (String.eqb (Memory.id p) id0); [reflexivity | exact IH].
Qed.

Lemma memory_find_fresh (id0 : string) (posts : list Memory.Post) :
  Forall (fun p => Memory.id p <> id0) posts -> Memory.find id0 posts = None.
Proof.
  induction 1 as [| p posts Hp _ IH]; simpl; [reflexivity |].
  apply String.eqb_neq in Hp. rewrite Hp. exact IH.
Qed.

(** X1: a post created under an id no stored post has is what a
    GET of that id returns, fields as given, and every other id gets what it
    got before. *)
Theorem memory_create_then_get (posts : list Memory.Post) (uuid : string)
    (now : Z) (title content : option string) :
  Forall (fun p => Memory.id p <> uuid) posts ->
  let posts' := snd (Memory.create posts uuid now title content) in
  Memory.get posts' uuid
  = Memory.Json 200 {| Memory.id := uuid; Memory.title := title;
                       Memory.content := content; Memory.createdAt := now |}
  /\ forall id0, id0 <> uuid -> Memory.get posts' id0 = Memory.get posts id0.
Proof.
  intros Hfresh posts'. subst posts'. unfold Memory.get, Memory.create. simpl.
  split.
  - rewrite memory_find_app, (memory_find_fresh _ _ Hfresh). simpl.
    rewrite String.eqb_refl. reflexivity.
  - intros id0 Hne. rewrite memory_find_app.
    destruct (Memory.find id0 posts); [reflexivity |]. simpl.
    apply not_eq_sym, String.eqb_neq in Hne. rewrite Hne. reflexivity.
Qed.

Lemma memory_create_then_get_witness :
  Memory.get (snd (Memory.create Memory.sample "p3" 3 (Some "Third") None)) "p3"
  = Memory.Json 200 {| Memory.id := "p3"; Memory.title := Some "Third";
                       Memory.content := None; Memory.createdAt := 3 |}
  /\ forall id0, id0 <> "p3" ->
       Memory.get (snd (Memory.create Memory.sample "p3" 3 (Some "Third") None)) id0
       = Memory.get Memory.sample id0.
Proof.
  apply (memory_create_then_get Memory.sample "p3" 3 (Some "Third") None).
  repeat constructor; discriminate.
Defined.

Lemma memory_find_id (id0 : string) (posts : list Memory.Post) (p : Memory.Post) :
  Memory.find id0 posts = Some p -> Memory.id p = id0.
Proof.
  induction posts as [| q posts IH]; simpl; [discriminate |].
  destruct (String.eqb_spec (Memory.id q) id0) as [Heq | _]; [| exact IH].
  intros [= <-]. exact Heq.
Qed.

Lemma memory_find_assign (id0 id1 : string) (title content : option string)
    (posts : list Memory.Post) :
  Memory.find id1 (Memory.assign id0 title content posts)
  = if String.eqb id0 id1
    then (fun p => Memory.edited p title content) <$> Memory.find id0 posts
    else Memory.find id1 posts.
Proof.
  induction posts as [| q posts IH]; simpl.
  - destruct (String.eqb id0 id1); reflexivity.
  - destruct (String.eqb_spec (Memory.id q) id0) as [Hq | Hq]; simpl.
    + subst id0. destruct (String.eqb_spec (Memory.id q) id1) as [_ | _]; reflexivity.
    + rewrite IH.
      destruct (String.eqb_spec id0 id1) as [<- | Hne].
      * apply String.eqb_neq in Hq. rewrite Hq. reflexivity.
      * reflexivity.
Qed.

(** X2: a PUT of a stored id answers with the edited post and stores it in
    place: the id and the creation time stay, a field the body leaves out or
    gives as the empty string keeps its value, the ids of the array stay in
    their order, and every other id gets the post it got before. *)
Theorem memory_put_edits_in_place (posts : list Memory.Post) (id0 : string)
    (title content : option string) (p : Memory.Post) :
  Memory.find id0 posts = Some p ->
  let p' := Memory.edited p title content in
  let posts' := snd (Memory.put posts id0 title content) in
  fst (Memory.put posts id0 title content) = Memory.Json 200 p'
  /\ Memory.find id0 posts' = Some p'
  /\ (forall id1, id1 <> id0 -> Memory.find id1 posts' = Memory.find id1 posts)
  /\ map Memory.id posts' = map Memory.id posts
  /\ Memory.id p' = id0 /\ Memory.createdAt p' = Memory.createdAt p
  /\ (title = None \/ title = Some "" -> Memory.title p' = Memory.title p)
  /\ (content = None \/ content = Some "" -> Memory.content p' = Memory.content p).
Proof.
  intros Hfind p' posts'. subst p' posts'. unfold Memory.put. rewrite Hfind. simpl.
  split; [reflexivity |].
  split; [rewrite memory_find_assign, String.eqb_refl, Hfind; reflexivity |].
  split.
  { intros id1 Hne. rewrite memory_find_assign.
    apply not_eq_sym, String.eqb_neq in Hne. rewrite Hne. reflexivity. }
  split.
  { clear Hfind. induction posts as [| q posts IH]; simpl; [reflexivity |].
    destruct (String.eqb (Memory.id q) id0); simpl; [reflexivity |].
    rewrite IH. reflexivity. }
  split; [exact (memory_find_id _ _ _ Hfind) |].
  split; [reflexivity |].
  split; intros [-> | ->]; reflexivity.
Qed.

Lemma memory_put_edits_in_place_witness :
  Memory.find "p1" (snd (Memory.put Memory.sample "p1" (Some "") (Some "edited")))
  = Some {| Memory.id := "p1"; Memory.title := Some "Hello world";
            Memory.content := Some "edited"; Memory.createdAt := 1 |}.
Proof.
  exact (proj1 (proj2 (memory_put_edits_in_place Memory.sample "p1" (Some "")
                         (Some "edited") _ eq_refl))).
Defined.

(** X3: DELETE always answers "Post deleted", whether or not the id was
    stored; afterwards the id is gone, every other id gets the post it got
    before, and deleting again changes nothing. *)
Theorem memory_delete_removes (posts : list Memory.Post) (id0 : string) :
  let posts' := snd (Memory.delete posts id0) in
  fst (Memory.delete posts id0) = Memory.JsonMessage "Post deleted"
  /\ Memory.get posts' id0 = Memory.JsonError 404 "Post not found"
  /\ (forall id1, id1 <> id0 -> Memory.find id1 posts' = Memory.find id1 posts)
  /\ snd (Memory.delete posts' id0) = posts'
  /\ (Memory.find id0 posts = None -> posts' = posts).
Proof.
  simpl. split; [reflexivity |].
  assert (Memory.find id0
            (List.filter (fun p => negb (String.eqb (Memory.id p) id0)) posts) = None)
    as Hgone.
  { induction posts as [| q posts IH]; simpl; [reflexivity |].
    destruct (String.eqb (Memory.id q) id0) eqn:Hq; simpl; [exact IH |].
    rewrite Hq. exact IH. }
  split; [unfold Memory.get; rewrite Hgone; reflexivity |].
  split.
  { intros id1 Hne. induction posts as [| q posts IH]; simpl; [reflexivity |].
    destruct (String.eqb_spec (Memory.id q) id0) as [Hq | Hq]; simpl.
    - destruct (String.eqb_spec (Memory.id q) id1) as [Hq1 | _]; [congruence |].
      apply IH.
      clear -Hgone Hq. simpl in Hgone. apply String.eqb_eq in Hq.
      rewrite Hq in Hgone. exact Hgone.
    - destruct (String.eqb (Memory.id q) id1); [reflexivity |].
      apply IH. clear -Hgone Hq. simpl in Hgone. apply String.eqb_neq in Hq.
      rewrite Hq in Hgone. simpl in Hgone. rewrite Hq in Hgone. exact Hgone. }
  split.
  { clear Hgone. induction posts as [| q posts IH]; simpl; [reflexivity |].
    destruct (String.eqb (Memory.id q) id0) eqn:Hq; simpl; [exact IH |].
    rewrite Hq. simpl. rewrite IH. reflexivity. }
  clear Hgone. induction posts as [| q posts IH]; simpl; [reflexivity |].
  destruct (String.eqb (Memory.id q) id0); [discriminate |].
  intros Hnone. simpl. rewrite (IH Hnone). reflexivity.
Qed.

Lemma memory_filter_title (q : string) (posts : list Memory.Post) :
  Forall (fun p => Memory.title p <> None) posts ->
  Memory.filter_title q posts
  = Some (List.filter
            (fun p => Memory.includes q (default "" (Memory.title p))) posts).
Proof.
  induction 1 as [| p posts Hp _ IH]; simpl; [reflexivity |].
  destruct (Memory.title p) as [t |]; [| contradiction]. simpl.
  rewrite IH. simpl. destruct (Memory.includes q t); reflexivity.
Qed.

Lemma memory_filter_title_throws (q : string) (posts : list Memory.Post) :
  Exists (fun p => Memory.title p = None) posts -> Memory.filter_title q posts = None.
Proof.
  induction 1 as [p posts Hp | p posts _ IH]; simpl.
  - rewrite Hp. reflexivity.
  - destruct (Memory.title p); [| reflexivity]. rewrite IH. reflexivity.
Qed.

(** X4: a listing filtered by a title: when every stored post has a title,
    the answer is the stored posts whose title contains the query string, in
    stored order; as soon as one stored post has no title, the filter throws
    and no listing by title is answered. *)
Theorem memory_list_by_title (posts : list Memory.Post) (q : string) :
  q <> "" ->
  (Forall (fun p => Memory.title p <> None) posts ->
   exists listed,
     Memory.list_posts posts (Some q) = Memory.JsonList listed
     /\ sublist listed posts
     /\ forall p, p ∈ listed <->
          p ∈ posts /\ exists before after,
            Memory.title p = Some (before +:+ q +:+ after))
  /\ (Exists (fun p => Memory.title p = None) posts ->
      Memory.list_posts posts (Some q) = Memory.Uncaught "TypeError").
Proof.
  intros Hq. apply String.eqb_neq in Hq.
  unfold Memory.list_posts. simpl. rewrite Hq. simpl. split.
  - intros Htitled. rewrite (memory_filter_title _ _ Htitled).
    eexists. split; [reflexivity |]. split.
    + clear. induction posts as [| p posts IH]; simpl; [constructor |].
      destruct (Memory.includes q _); [apply sublist_skip | apply sublist_cons];
        exact IH.
    + intros p. rewrite list_elem_of_In, filter_In, <- list_elem_of_In.
      split; intros [Hin Hp]; (split; [exact Hin |]).
      * rewrite Forall_forall in Htitled. specialize (Htitled p Hin).
        destruct (Memory.title p) as [t |]; [| contradiction]. simpl in Hp.
        apply includes_split in Hp as (before & after & ->). eauto.
      * destruct Hp as (before & after & ->). simpl.
        apply includes_split. eauto.
  - intros Huntitled. rewrite (memory_filter_title_throws _ _ Huntitled). reflexivity.
Qed.

Lemma memory_list_by_title_witness :
  Memory.list_posts Memory.sample (Some "world") = Memory.Uncaught "TypeError".
Proof.
  refine (proj2 (memory_list_by_title Memory.sample "world" _) _).
  - discriminate.
  - apply Exists_cons_tl, Exists_cons_hd. reflexivity.
Defined.

(** ** secure-blog-api: what gets through the middleware *)

Section SecureAuth.
Context `{NodeLibs} `{!NodeLibsLaws}.

(** The token [generateToken] issues, and what opens it. *)
Lemma generateToken_issues env now userId key life :
  JWT_SECRET env = Some key -> key <> "" ->
  span_seconds (Js.or_else (JWT_EXPIRES_IN env) "7d") = Some life ->
  exists token p,
    SecureBlog.generateToken env now userId = Some token
    /\ token <> ""
    /\ jws_open token key = Some p
    /\ p !! "userId" = Some (JStr userId)
    /\ p !! "nbf" = None
    /\ p !! "exp" = Some (JNum (Jwt.clock now + life)).
Proof.
  intros Hkey Hne Hspan.
  unfold SecureBlog.generateToken, Jwt.sign, Jwt.claims. simpl.
  rewrite Hkey, Hspan. simpl.
  pose proof Hne as Hne'. apply String.eqb_neq in Hne'. rewrite Hne'. simpl.
  eexists _, _. split; [reflexivity |].
  split; [apply jws_sign_nonempty |].
  split; [apply jws_open_sign; exact Hne |].
  repeat split; reflexivity.
Qed.

Lemma verify_expired token key p e later :
  jws_open token key = Some p -> token <> "" -> key <> "" ->
  p !! "nbf" = None -> p !! "exp" = Some (JNum e) -> e <= Jwt.clock later ->
  Jwt.verify token (Some key) later = Jwt.Throws Jwt.TokenExpiredError.
Proof.
  intros Hopen Htok Hkey Hnbf Hexp Hle.
  unfold Jwt.verify, Jwt.check_exp. simpl.
  apply String.eqb_neq in Htok, Hkey. rewrite Htok, Hkey.
  rewrite Hopen, Hnbf, Hexp.
  destruct (Z.leb_spec e (Jwt.clock later)); [reflexivity | lia].
Qed.

End SecureAuth.

(** X5: the token [generateToken] issues for the id of a stored, active
    account, sent as [Bearer <token>] before it expires, gets through
    [authenticate], which attaches that account, loaded without its
    password, and changes nothing else of the request. *)
Theorem issued_token_authenticates `{NodeLibs} `{!NodeLibsLaws}
    (env : Env) (users : gmap string SecureBlog.User) (now later : Z)
    (userId key : string) (life : Z) (token : string)
    (u : SecureBlog.User) (req : SecureBlog.Request) :
  JWT_SECRET env = Some key -> key <> "" ->
  span_seconds (Js.or_else (JWT_EXPIRES_IN env) "7d") = Some life ->
  SecureBlog.generateToken env now userId = Some token ->
  SecureBlog.authorization req = Some ("Bearer " +:+ token) ->
  Db.findById users (Some (JStr userId)) = Db.Found u ->
  SecureBlog.isActive u = true ->
  Jwt.clock later < Jwt.clock now + life ->
  SecureBlog.authenticate env users later req
  = Next (SecureBlog.with_user req (SecureBlog.select_without_password u)).
Proof.
  intros Hkey Hne Hspan Htoken Hhdr Hfound Hactive Hlt.
  destruct (generateToken_issues env now userId key life Hkey Hne Hspan)
    as (token' & p & Hgen & Hnonempty & Hopen & Hid & Hnbf & Hexp).
  rewrite Htoken in Hgen. injection Hgen as <-.
  unfold SecureBlog.authenticate. rewrite Hhdr. simpl.
  rewrite secure_token_of_bearer.
  apply String.eqb_neq in Hnonempty as Hnonempty'. rewrite Hnonempty'.
  rewrite Hkey.
  rewrite (verify_unexpired token key p _ later Hopen Hnonempty Hne Hnbf Hexp Hlt).
  rewrite Hid, Hfound. simpl. rewrite Hactive. reflexivity.
Qed.

Lemma issued_token_authenticates_witness :
  SecureBlog.authenticate Sample.env Sample.users 5000
    (Sample.request (Some ("Bearer " +:+ Sample.token_for Sample.alice_id)))
  = Next (SecureBlog.with_user
            (Sample.request (Some ("Bearer " +:+ Sample.token_for Sample.alice_id)))
            (SecureBlog.select_without_password Sample.alice)).
Proof.
  apply (issued_token_authenticates Sample.env Sample.users 0 5000
           Sample.alice_id "s3cret" 604800 (Sample.token_for Sample.alice_id)).
  - reflexivity.
  - discriminate.
  - reflexivity.
  - vm_compute. reflexivity.
  - reflexivity.
  - vm_compute. reflexivity.
  - reflexivity.
  - reflexivity.
Defined.

(** X6: from the second its expiry names on, the issued token is refused:
    [authenticate] answers 401 "Token expired." whatever the account, and
    [optionalAuth] lets the request on as it came, nothing attached. *)
Theorem issued_token_expires `{NodeLibs} `{!NodeLibsLaws}
    (env : Env) (users : gmap string SecureBlog.User) (now later : Z)
    (userId key : string) (life : Z) (token : string) (req : SecureBlog.Request) :
  JWT_SECRET env = Some key -> key <> "" ->
  span_seconds (Js.or_else (JWT_EXPIRES_IN env) "7d") = Some life ->
  SecureBlog.generateToken env now userId = Some token ->
  SecureBlog.authorization req = Some ("Bearer " +:+ token) ->
  Jwt.clock now + life <= Jwt.clock later ->
  SecureBlog.authenticate env users later req
  = Respond 401 (BMessage false "Token expired.")
  /\ SecureBlog.optionalAuth env users later req = Next req.
Proof.
  intros Hkey Hne Hspan Htoken Hhdr Hle.
  destruct (generateToken_issues env now userId key life Hkey Hne Hspan)
    as (token' & p & Hgen & Hnonempty & Hopen & Hid & Hnbf & Hexp).
  rewrite Htoken in Hgen. injection Hgen as <-.
  pose proof (verify_expired token key p _ later Hopen Hnonempty Hne Hnbf Hexp Hle)
    as Hverify.
  apply String.eqb_neq in Hnonempty.
  unfold SecureBlog.authenticate, SecureBlog.optionalAuth. rewrite Hhdr. simpl.
  rewrite secure_token_of_bearer, Hnonempty, Hkey, Hverify. split; reflexivity.
Qed.

Lemma issued_token_expires_witness :
  SecureBlog.authenticate Sample.env Sample.users 604800000
    (Sample.request (Some ("Bearer " +:+ Sample.token_for Sample.alice_id)))
  = Respond 401 (BMessage false "Token expired.")
  /\ SecureBlog.optionalAuth Sample.env Sample.users 604800000
       (Sample.request (Some ("Bearer " +:+ Sample.token_for Sample.alice_id)))
     = Next (Sample.request (Some ("Bearer " +:+ Sample.token_for Sample.alice_id))).
Proof.
  apply (issued_token_expires Sample.env Sample.users 0 604800000
           Sample.alice_id "s3cret" 604800 (Sample.token_for Sample.alice_id)).
  - reflexivity.
  - discriminate.
  - reflexivity.
  - vm_compute. reflexivity.
  - reflexivity.
  - vm_compute. discriminate.
Defined.

Lemma authenticate_next `{NodeLibs}
    (env : Env) (users : gmap string SecureBlog.User) (now : Z)
    (req req' : SecureBlog.Request) :
  SecureBlog.authenticate env users now req = Next req' ->
  exists h decoded u,
    SecureBlog.authorization req = Some h
    /\ Jwt.verify (SecureBlog.token_of h) (JWT_SECRET env) now = Jwt.Decoded decoded
    /\ Db.findById users (decoded !! "userId") = Db.Found u
    /\ SecureBlog.isActive u = true
    /\ req' = SecureBlog.with_user req (SecureBlog.select_without_password u).
Proof.
  unfold SecureBlog.authenticate.
  destruct (SecureBlog.authorization req) as [h |]; simpl; [| discriminate].
  destruct (String.eqb h "") eqn:Hh; simpl; [discriminate |].
  destruct (String.eqb (SecureBlog.token_of h) ""); [discriminate |].
  destruct (Jwt.verify _ _ _) as [decoded | []] eqn:Hv; try discriminate.
  destruct (Db.findById _ _) as [u | |] eqn:Hu; try discriminate.
  simpl. destruct (SecureBlog.isActive u) eqn:Ha; [| discriminate].
  intros [= <-]. exists h, decoded, u. repeat split; assumption || reflexivity.
Qed.

(** X7: [authenticate] lets a request on only with a header whose token
    part verifies under JWT_SECRET and names a stored account that is
    active; what it hands on is the request with that account attached,
    loaded without its password. *)
Theorem authenticate_passes_only_verified `{NodeLibs}
    (env : Env) (users : gmap string SecureBlog.User) (now : Z)
    (req req' : SecureBlog.Request) :
  SecureBlog.authenticate env users now req = Next req' ->
  exists h decoded u,
    SecureBlog.authorization req = Some h
    /\ Jwt.verify (SecureBlog.token_of h) (JWT_SECRET env) now = Jwt.Decoded decoded
    /\ Db.findById users (decoded !! "userId") = Db.Found u
    /\ SecureBlog.isActive u = true
    /\ req' = SecureBlog.with_user req (SecureBlog.select_without_password u)
    /\ SecureBlog.password (SecureBlog.select_without_password u) = None.
Proof.
  intros Hauth.
  destruct (authenticate_next env users now req req' Hauth)
    as (h & decoded & u & Hh & Hv & Hu & Ha & Hreq).
  exists h, decoded, u. repeat split; assumption || reflexivity.
Qed.

Lemma authenticate_passes_only_verified_witness :
  exists h decoded u,
    SecureBlog.authorization
      (Sample.request (Some ("Bearer " +:+ Sample.token_for Sample.alice_id))) = Some h
    /\ Jwt.verify (SecureBlog.token_of h) (JWT_SECRET Sample.env) 5000
       = Jwt.Decoded decoded
    /\ Db.findById Sample.users (decoded !! "userId") = Db.Found u
    /\ SecureBlog.isActive u = true
    /\ SecureBlog.with_user
         (Sample.request (Some ("Bearer " +:+ Sample.token_for Sample.alice_id)))
         (SecureBlog.select_without_password Sample.alice)
       = SecureBlog.with_user
           (Sample.request (Some ("Bearer " +:+ Sample.token_for Sample.alice_id)))
           (SecureBlog.select_without_password u)
    /\ SecureBlog.password (SecureBlog.select_without_password u) = None.
Proof.
  apply (authenticate_passes_only_verified Sample.env Sample.users 5000).
  vm_compute. reflexivity.
Defined.

(** X8: behind [authenticate], [adminOnly] lets the request on, unchanged,
    exactly when the attached account is an administrator, and answers 403
    naming the role otherwise; it never answers 401 there. *)
Theorem adminOnly_after_authenticate `{NodeLibs}
    (env : Env) (users : gmap string SecureBlog.User) (now : Z)
    (req req' : SecureBlog.Request) :
  SecureBlog.authenticate env users now req = Next req' ->
  exists u,
    SecureBlog.req_user req' = Some u
    /\ SecureBlog.adminOnly req'
       = if bool_decide (SecureBlog.role u = RoleAdmin) then Next req'
         else Respond 403 (BMessage false "Access denied. Required role: admin").
Proof.
  intros Hauth.
  destruct (authenticate_next env users now req req' Hauth)
    as (h & decoded & u & _ & _ & _ & _ & ->).
  exists (SecureBlog.select_without_password u). split; [reflexivity |].
  unfold SecureBlog.adminOnly, SecureBlog.authorize. simpl.
  destruct (SecureBlog.role u); reflexivity.
Qed.

Lemma adminOnly_after_authenticate_witness :
  exists u,
    SecureBlog.req_user
      (SecureBlog.with_user
         (Sample.request (Some ("Bearer " +:+ Sample.token_for Sample.alice_id)))
         (SecureBlog.select_without_password Sample.alice)) = Some u
    /\ SecureBlog.adminOnly
         (SecureBlog.with_user
            (Sample.request (Some ("Bearer " +:+ Sample.token_for Sample.alice_id)))
            (SecureBlog.select_without_password Sample.alice))
       = if bool_decide (SecureBlog.role u = RoleAdmin)
         then Next (SecureBlog.with_user
                      (Sample.request
                         (Some ("Bearer " +:+ Sample.token_for Sample.alice_id)))
                      (SecureBlog.select_without_password Sample.alice))
         else Respond 403 (BMessage false "Access denied. Required role: admin").
Proof.
  apply (adminOnly_after_authenticate Sample.env Sample.users 5000
           (Sample.request (Some ("Bearer " +:+ Sample.token_for Sample.alice_id)))).
  vm_compute. reflexivity.
Defined.

(** X9: outside the development configuration the global error handler
    never sends a stack trace, whatever the error; and in any configuration
    a validation, duplicate-key, token or cast error is answered without one. *)
Theorem errorHandler_hides_stack `{NodeLibs} (env : Env) (err : SecureBlog.AppError) :
  NODE_ENV env <> Some "development"
  \/ SecureBlog.name err = "ValidationError"
  \/ SecureBlog.code err = Some 11000
  \/ SecureBlog.name err = "JsonWebTokenError"
  \/ SecureBlog.name err = "TokenExpiredError"
  \/ SecureBlog.name err = "CastError" ->
  body_stack (snd (SecureBlog.errorHandler env err)) = None.
Proof.
  intros Hcase. unfold SecureBlog.errorHandler.
  destruct (String.eqb_spec (SecureBlog.name err) "ValidationError"); [reflexivity |].
  destruct (decide (SecureBlog.code err = Some 11000)) as [Hc | Hc].
  { rewrite bool_decide_eq_true_2 by exact Hc. reflexivity. }
  rewrite bool_decide_eq_false_2 by exact Hc.
  destruct (String.eqb_spec (SecureBlog.name err) "JsonWebTokenError"); [reflexivity |].
  destruct (String.eqb_spec (SecureBlog.name err) "TokenExpiredError"); [reflexivity |].
  destruct (String.eqb_spec (SecureBlog.name err) "CastError"); [reflexivity |].
  simpl.
  destruct Hcase as [Hdev | [? | [? | [? | [? | ?]]]]]; try contradiction.
  rewrite bool_decide_eq_false_2 by exact Hdev. reflexivity.
Qed.

Lemma errorHandler_hides_stack_witness :
  body_stack (snd (SecureBlog.errorHandler Sample.env
    {| SecureBlog.name := "Error"; SecureBlog.code := None;
       SecureBlog.keyValue := []; SecureBlog.errors := [];
       SecureBlog.statusCode := None; SecureBlog.message := "boom";
       SecureBlog.stack := "Error: boom at server.js:1" |})) = None.
Proof.
  apply errorHandler_hides_stack. left. discriminate.
Defined.

(** ** express-blog-api: registration, login, refresh *)

Lemma findOne_inv {A} (P : A -> bool) (coll : gmap string A) (a : A) :
  Db.findOne P coll = Some a -> exists k, coll !! k = Some a /\ P a = true.
Proof.
  unfold Db.findOne. intros Hhead.
  destruct (filter _ (map_to_list coll)) as [| [k b] l] eqn:Hl; [discriminate |].
  simpl in Hhead. injection Hhead as ->.
  assert ((k, a) ∈ filter (fun kv : string * A => P (snd kv) = true) (map_to_list coll))
    as Hin by (rewrite Hl; left).
  apply list_elem_of_filter in Hin as [HP Hin].
  apply elem_of_map_to_list in Hin. eauto.
Qed.

Lemma findOne_None {A} (P : A -> bool) (coll : gmap string A) (k : string) (a : A) :
  Db.findOne P coll = None -> coll !! k = Some a -> P a = false.
Proof.
  intros Hnone Hk. destruct (P a) eqn:HP; [| reflexivity].
  destruct (findOne_Some P coll k a Hk HP) as [x Hx]. congruence.
Qed.

Lemma fallback_truthy (o : option string) (d : string) :
  d <> "" -> Js.truthy (Some (Js.or_else o d)) = true /\ Js.or_else o d <> "".
Proof.
  intros Hd. assert (Js.or_else o d <> "") as Hne.
  { unfold Js.or_else. destruct o as [s |]; [| exact Hd].
    destruct (String.eqb_spec s ""); assumption. }
  split; [| exact Hne]. simpl. apply String.eqb_neq in Hne. rewrite Hne. reflexivity.
Qed.

Lemma ref_compare_hash (password salt : string) :
  Ref.compare password (Ref.hash password salt) = true.
Proof.
  unfold Ref.compare, Ref.hash.
  assert (forall a b : string,
            Js.slice (String.length (a +:+ b) - String.length b) (a +:+ b) = b) as Hslice.
  { intros a b. induction a as [| c a IH].
    - rewrite append_empty, Nat.sub_diag. destruct b; reflexivity.
    - rewrite append_cons. simpl String.length.
      assert (String.length b <= String.length (a +:+ b))%nat as Hle.
      { clear. induction a; [rewrite append_empty; lia |].
        rewrite append_cons. simpl. lia. }
      rewrite Nat.sub_succ_l by exact Hle. simpl. exact IH. }
  change (S (String.length password)) with (String.length ("$" +:+ password)).
  rewrite Hslice. apply String.eqb_refl.
Qed.

#[global] Instance ref_bcrypt_laws : @BcryptLaws Ref.libs.
Proof. split. exact ref_compare_hash. Qed.

Section Accounts.
Context `{NodeLibs}.

(** What a successful registration did. *)
Lemma register_created env users now newid salt r msg doc token users' :
  ExpressBlog.register env users now newid salt r
  = ((201, BCreated msg doc token), users') ->
  exists u,
    users !! newid = None
    /\ Db.findOne (ExpressBlog.email_or_username
                    (ExpressBlog.set_email (ExpressBlog.r_email r))
                    (ExpressBlog.set_username (ExpressBlog.r_username r))) users = None
    /\ users' = <[newid := u]> users
    /\ ExpressBlog._id u = newid
    /\ ExpressBlog.email u = ExpressBlog.set_email (ExpressBlog.r_email r)
    /\ ExpressBlog.username u = ExpressBlog.set_username (ExpressBlog.r_username r)
    /\ ExpressBlog.password u = bcrypt_hash (ExpressBlog.r_password r) salt
    /\ doc = ExpressBlog.toJSON u.
Proof.
  unfold ExpressBlog.register.
  destruct (ExpressBlog.r_errors r); [| discriminate].
  destruct (Db.findOne _ users) eqn:Hfree; [discriminate |].
  unfold ExpressBlog.save.
  destruct (ExpressBlog.schema_valid _); [| discriminate].
  simpl. destruct (users !! newid) eqn:Hnew; [discriminate |].
  destruct (Db.findOne _ users); [discriminate |].
  destruct (Jwt.sign _ _ _ _); [| discriminate].
  intros [= <- <- <- <-]. eexists. repeat split; reflexivity.
Qed.

End Accounts.

(** X10: registration keeps the collection as the unique indexes want it:
    if every account is stored under its own id and no two share an email
    or a username, the same holds after any registration, whatever it
    answers. *)
Theorem register_keeps_indexed `{NodeLibs}
    (env : Env) (users : gmap string ExpressBlog.User) (now : Z)
    (newid salt : string) (r : ExpressBlog.RegisterReq) :
  indexed users ->
  indexed (snd (ExpressBlog.register env users now newid salt r)).
Proof.
  intros Hix. unfold ExpressBlog.register.
  destruct (ExpressBlog.r_errors r); [| exact Hix].
  destruct (Db.findOne _ users); [exact Hix |].
  destruct (ExpressBlog.save _ _ _) as [[u stored] |] eqn:Hsave; [| exact Hix].
  assert (indexed stored) as Hstored.
  { unfold ExpressBlog.save in Hsave.
    destruct (ExpressBlog.schema_valid _); [| discriminate].
    simpl in Hsave. destruct (users !! newid) eqn:Hnew; [discriminate |].
    destruct (Db.findOne _ users) eqn:Hfree; [discriminate |].
    injection Hsave as <- <-. destruct Hix as [Hkeys Huniq].
    set (u := {| ExpressBlog._id := newid |}) in *.
    assert (forall k v, users !! k = Some v ->
              ExpressBlog.email u = ExpressBlog.email v
              \/ ExpressBlog.username u = ExpressBlog.username v -> False) as Hclash.
    { intros k v Hk Hsame.
      pose proof (findOne_None _ _ k v Hfree Hk) as Hno.
      unfold ExpressBlog.email_or_username in Hno.
      apply orb_false_iff in Hno as [He Hn].
      apply String.eqb_neq in He, Hn. subst u. simpl in Hsame.
      destruct Hsame; congruence. }
    split.
    - intros k v. rewrite lookup_insert. case_decide as Hk.
      + intros [= <-]. exact Hk.
      + apply Hkeys.
    - intros i j a b. rewrite !lookup_insert.
      case_decide as Hi; case_decide as Hj.
      + congruence.
      + intros [= <-] Hb Hsame. exfalso. exact (Hclash j b Hb Hsame).
      + intros Ha [= <-] Hsame. exfalso. apply (Hclash i a Ha).
        destruct Hsame; [left | right]; congruence.
      + apply Huniq. }
  destruct (Jwt.sign _ _ _ _); exact Hstored.
Qed.

Lemma register_keeps_indexed_witness : indexed (snd Sample.erin_registers).
Proof.
  apply register_keeps_indexed.
  split.
  - intros k u Hk. rewrite lookup_empty in Hk. discriminate.
  - intros i j u v Hi. rewrite lookup_empty in Hi. discriminate.
Defined.

(** X11: after a successful registration, a login with the same email and
    password succeeds: 200, an access and a refresh token, and the same
    account document the registration answered with. *)
Theorem register_then_login `{NodeLibs} `{!NodeLibsLaws} `{!BcryptLaws}
    (env : Env) (users users' : gmap string ExpressBlog.User) (now later : Z)
    (newid salt : string) (r : ExpressBlog.RegisterReq)
    (msg : string) (doc : Obj) (token : string) :
  ExpressBlog.register env users now newid salt r
  = ((201, BCreated msg doc token), users') ->
  exists access refresh,
    ExpressBlog.login env users' later
      {| ExpressBlog.l_errors := []; ExpressBlog.l_email := ExpressBlog.r_email r;
         ExpressBlog.l_password := ExpressBlog.r_password r |}
    = (200, BSession access refresh doc).
Proof.
  intros Hreg.
  destruct (register_created _ _ _ _ _ _ _ _ _ _ Hreg)
    as (u & Hnew & Hfree & -> & Hid & Hemail & Hname & Hpw & ->).
  unfold ExpressBlog.login. simpl.
  assert (is_Some (Db.findOne
            (fun x => String.eqb (ExpressBlog.email x)
                        (ExpressBlog.set_email (ExpressBlog.r_email r)))
            (<[newid := u]> users))) as [x Hx].
  { apply (findOne_Some _ _ newid u); [apply lookup_insert_eq |].
    rewrite Hemail. apply String.eqb_refl. }
  rewrite Hx.
  apply findOne_inv in Hx as (k & Hk & Hmail).
  assert (x = u) as ->.
  { rewrite lookup_insert in Hk. case_decide as Hkey; [congruence |].
    pose proof (findOne_None _ _ k x Hfree Hk) as Hno.
    unfold ExpressBlog.email_or_username in Hno. rewrite Hmail in Hno.
    discriminate Hno. }
  unfold ExpressBlog.comparePassword. rewrite Hpw, bcrypt_compare_hash.
  unfold Jwt.sign.
  destruct (fallback_truthy (JWT_SECRET env) "your-secret-key") as [-> _];
    [discriminate |].
  destruct (fallback_truthy (JWT_REFRESH_SECRET env) "your-refresh-secret") as [-> _];
    [discriminate |].
  rewrite (express_token_claims _ _ _ _ span_1h),
          (express_token_claims _ _ _ _ span_7d).
  simpl. eauto.
Qed.

Lemma register_then_login_witness :
  exists access refresh,
    ExpressBlog.login Sample.bare_env (snd Sample.erin_registers) 1000
      {| ExpressBlog.l_errors := [];
         ExpressBlog.l_email :=
           ExpressBlog.r_email (Sample.registration "erin" "erin@example.com");
         ExpressBlog.l_password :=
           ExpressBlog.r_password (Sample.registration "erin" "erin@example.com") |}
    = (200, BSession access refresh
              (match snd (fst Sample.erin_registers) with
               | BCreated _ doc _ => doc
               | _ => ∅
               end)).
Proof.
  apply (register_then_login Sample.bare_env ∅ (snd Sample.erin_registers) 0 1000
           Sample.erin_id "salt" (Sample.registration "erin" "erin@example.com")
           "User created successfully" _ Sample.erin_token).
  vm_compute. reflexivity.
Defined.

Section ExpressTokens.
Context `{NodeLibs} `{!NodeLibsLaws}.

(** The tokens of express-blog-api: signed under the variable or its
    fallback, they carry the id, [iat] and [exp]. *)
Lemma express_sign (o : option string) (d userId span : string) (life now : Z) :
  d <> "" -> span_seconds span = Some life ->
  Jwt.sign userId (Some (Js.or_else o d)) (ExpressBlog.sign_opts span) now
  = Some (jws_sign (<["exp" := JNum (Jwt.clock now + life)]>
                    (<["iat" := JNum (Jwt.clock now)]> {["userId" := JStr userId]}))
                   (Js.or_else o d)).
Proof.
  intros Hd Hspan. unfold Jwt.sign.
  destruct (fallback_truthy o d Hd) as [-> Hne].
  rewrite (express_token_claims _ _ _ _ Hspan). simpl.
  apply String.eqb_neq in Hne. rewrite Hne. reflexivity.
Qed.

Lemma express_verify (key userId : string) (life now later : Z) :
  key <> "" -> Jwt.clock later < Jwt.clock now + life ->
  Jwt.verify
    (jws_sign (<["exp" := JNum (Jwt.clock now + life)]>
               (<["iat" := JNum (Jwt.clock now)]> {["userId" := JStr userId]})) key)
    (Some key) later
  = Jwt.Decoded (<["exp" := JNum (Jwt.clock now + life)]>
                 (<["iat" := JNum (Jwt.clock now)]> {["userId" := JStr userId]})).
Proof.
  intros Hkey Hlt.
  apply (verify_unexpired _ key _ (Jwt.clock now + life)).
  - apply jws_open_sign. exact Hkey.
  - apply jws_sign_nonempty.
  - exact Hkey.
  - reflexivity.
  - reflexivity.
  - exact Hlt.
Qed.

(** [auth] on a bearer header with such a token, for a stored account. *)
Lemma auth_accepts env users (u : ExpressBlog.User) (life now later : Z) req :
  users !! ExpressBlog._id u = Some u ->
  cast_object_id (JStr (ExpressBlog._id u)) = Some (ExpressBlog._id u) ->
  Jwt.clock later < Jwt.clock now + life ->
  ExpressBlog.authorization req
  = Some ("Bearer " +:+
          jws_sign (<["exp" := JNum (Jwt.clock now + life)]>
                    (<["iat" := JNum (Jwt.clock now)]>
                     {["userId" := JStr (ExpressBlog._id u)]}))
                   (Js.or_else (JWT_SECRET env) "your-secret-key")) ->
  ExpressBlog.auth env users later req
  = Next (ExpressBlog.attach req (Some (JStr (ExpressBlog._id u))) u).
Proof.
  intros Hstored Hcast Hlt Hhdr.
  destruct (fallback_truthy (JWT_SECRET env) "your-secret-key") as [_ Hkey];
    [discriminate |].
  unfold ExpressBlog.auth. rewrite Hhdr. simpl.
  rewrite express_token_of_bearer.
  set (token := jws_sign _ _).
  assert (String.eqb token "" = false) as ->
    by (apply String.eqb_neq, jws_sign_nonempty).
  simpl. subst token. rewrite (express_verify _ _ _ _ _ Hkey Hlt).
  replace ((<["exp" := JNum (Jwt.clock now + life)]>
            (<["iat" := JNum (Jwt.clock now)]>
             {["userId" := JStr (ExpressBlog._id u)]}) : Obj) !! "userId")
    with (Some (JStr (ExpressBlog._id u))) by reflexivity.
  unfold Db.findById. rewrite Hcast, Hstored. reflexivity.
Qed.

End ExpressTokens.

(** X12: the refresh token of a successful login, sent to /refresh within
    its seven days, is answered 200 with a new access token, and [auth]
    accepts that token as a bearer for an hour and attaches the account that
    logged in.  The collection is as the indexes keep it and stored ids cast
    to themselves. *)
Theorem login_then_refresh `{NodeLibs} `{!NodeLibsLaws}
    (env : Env) (users : gmap string ExpressBlog.User) (now later : Z)
    (r : ExpressBlog.LoginReq) (access refresh : string) (doc : Obj) :
  indexed users ->
  (forall k u, users !! k = Some u -> cast_object_id (JStr k) = Some k) ->
  ExpressBlog.login env users now r = (200, BSession access refresh doc) ->
  Jwt.clock later < Jwt.clock now + 604800 ->
  exists u access',
    users !! ExpressBlog._id u = Some u
    /\ doc = ExpressBlog.toJSON u
    /\ ExpressBlog.refreshAccess env users later (Some refresh) = (200, BAccess access')
    /\ forall req latest,
         ExpressBlog.authorization req = Some ("Bearer " +:+ access') ->
         Jwt.clock latest < Jwt.clock later + 3600 ->
         ExpressBlog.auth env users latest req
         = Next (ExpressBlog.attach req (Some (JStr (ExpressBlog._id u))) u).
Proof.
  intros [Hkeys _] Hcast Hlogin Hlt.
  unfold ExpressBlog.login in Hlogin.
  destruct (ExpressBlog.l_errors r); [| discriminate].
  destruct (Db.findOne _ users) as [u |] eqn:Hfound; [| discriminate].
  destruct (ExpressBlog.comparePassword u _); [| discriminate].
  assert ("your-secret-key" <> "") as Hd1 by discriminate.
  assert ("your-refresh-secret" <> "") as Hd2 by discriminate.
  rewrite (express_sign _ _ _ _ _ _ Hd1 span_1h),
          (express_sign _ _ _ _ _ _ Hd2 span_7d) in Hlogin.
  injection Hlogin as <- <- <-.
  apply findOne_inv in Hfound as (k & Hk & _).
  pose proof (Hkeys k u Hk) as Hid. subst k.
  pose proof (Hcast _ u Hk) as Hcastu.
  destruct (fallback_truthy (JWT_REFRESH_SECRET env) "your-refresh-secret")
    as [_ Hrkey]; [discriminate |].
  exists u. eexists. split; [exact Hk |]. split; [reflexivity |].
  split.
  - unfold ExpressBlog.refreshAccess.
    set (token := jws_sign _ (Js.or_else (JWT_REFRESH_SECRET env) _)).
    assert (String.eqb token "" = false) as Hne
      by (apply String.eqb_neq, jws_sign_nonempty).
    unfold Js.truthy, Js.or_else at 1. rewrite Hne. simpl.
    subst token. rewrite (express_verify _ _ _ _ _ Hrkey Hlt).
    replace ((<["exp" := JNum (Jwt.clock now + 604800)]>
              (<["iat" := JNum (Jwt.clock now)]>
               {["userId" := JStr (ExpressBlog._id u)]}) : Obj) !! "userId")
      with (Some (JStr (ExpressBlog._id u))) by reflexivity.
    unfold Db.findById. rewrite Hcastu, Hk.
    rewrite (express_sign _ _ _ _ _ _ Hd1 span_1h). reflexivity.
  - intros req latest Hhdr Hlatest.
    apply (auth_accepts env users u 3600 later latest req Hk Hcastu Hlatest Hhdr).
Qed.

Lemma erin_collection :
  exists u, snd Sample.erin_registers = <[Sample.erin_id := u]> ∅
            /\ ExpressBlog._id u = Sample.erin_id.
Proof.
  assert (ExpressBlog.register Sample.bare_env ∅ 0 Sample.erin_id "salt"
            (Sample.registration "erin" "erin@example.com")
          = ((201, BCreated "User created successfully"
                     (match snd (fst Sample.erin_registers) with
                      | BCreated _ doc _ => doc
                      | _ => ∅
                      end) Sample.erin_token), snd Sample.erin_registers)) as Hreg
    by (vm_compute; reflexivity).
  destruct (register_created _ _ _ _ _ _ _ _ _ _ Hreg)
    as (u & _ & _ & Hstored & Hid & _).
  exists u. split; assumption.
Qed.

Lemma login_then_refresh_witness :
  exists u access',
    snd Sample.erin_registers !! ExpressBlog._id u = Some u
    /\ Sample2.erin_doc = ExpressBlog.toJSON u
    /\ ExpressBlog.refreshAccess Sample.bare_env (snd Sample.erin_registers) 86400000
         (Some Sample2.erin_refresh) = (200, BAccess access')
    /\ forall req latest,
         ExpressBlog.authorization req = Some ("Bearer " +:+ access') ->
         Jwt.clock latest < Jwt.clock 86400000 + 3600 ->
         ExpressBlog.auth Sample.bare_env (snd Sample.erin_registers) latest req
         = Next (ExpressBlog.attach req (Some (JStr (ExpressBlog._id u))) u).
Proof.
  apply (login_then_refresh Sample.bare_env (snd Sample.erin_registers) 1000 86400000
           Sample2.erin_credentials Sample2.erin_access).
  - destruct erin_collection as (e & -> & He). split.
    + intros k u. rewrite lookup_insert. case_decide as Hk.
      * intros [= <-]. congruence.
      * rewrite lookup_empty. discriminate.
    + intros i j u v. rewrite !lookup_insert.
      case_decide; case_decide; rewrite ?lookup_empty; congruence.
  - destruct erin_collection as (e & -> & He).
    intros k u. rewrite lookup_insert. case_decide as Hk.
    + intros _. subst k. reflexivity.
    + rewrite lookup_empty. discriminate.
  - vm_compute. reflexivity.
  - reflexivity.
Defined.

(** X13: every failed login looks the same: whenever /login answers 401,
    for an unknown email or for a wrong password, on whatever collection,
    the answer is 401 with the error "Invalid credentials". *)
Theorem login_failures_look_alike `{NodeLibs}
    (env1 env2 : Env) (users1 users2 : gmap string ExpressBlog.User)
    (now1 now2 : Z) (r1 r2 : ExpressBlog.LoginReq) :
  fst (ExpressBlog.login env1 users1 now1 r1) = 401 ->
  fst (ExpressBlog.login env2 users2 now2 r2) = 401 ->
  ExpressBlog.login env1 users1 now1 r1 = ExpressBlog.login env2 users2 now2 r2
  /\ ExpressBlog.login env1 users1 now1 r1 = (401, BError "Invalid credentials").
Proof.
  assert (forall env users now r,
            fst (ExpressBlog.login env users now r) = 401 ->
            ExpressBlog.login env users now r = (401, BError "Invalid credentials"))
    as Hone.
  { intros env users now r. unfold ExpressBlog.login.
    repeat case_match; simpl; intros Hst; try discriminate Hst; reflexivity. }
  intros H1 H2. rewrite (Hone _ _ _ _ H1), (Hone _ _ _ _ H2). split; reflexivity.
Qed.

Lemma login_failures_look_alike_witness :
  ExpressBlog.login Sample.bare_env (snd Sample.erin_registers) 1000 Sample2.wrong_password
  = ExpressBlog.login Sample.bare_env (snd Sample.erin_registers) 1000 Sample2.unknown_email
  /\ ExpressBlog.login Sample.bare_env (snd Sample.erin_registers) 1000
       Sample2.wrong_password
     = (401, BError "Invalid credentials").
Proof.
  apply login_failures_look_alike; vm_compute; reflexivity.
Defined.

(** X14: GET /me answers what [auth] answers when [auth] rejects, and
    otherwise 200 with the [toJSON] document of the account [auth] attached:
    once [auth] has let the request on, the handler's own lookup finds that
    same account. *)
Theorem me_is_the_authenticated_account `{NodeLibs}
    (env : Env) (users : gmap string ExpressBlog.User) (now : Z)
    (req : ExpressBlog.Request) :
  ExpressBlog.me env users now req
  = match ExpressBlog.auth env users now req with
    | Next req' => (200, BUser (ExpressBlog.toJSON <$> ExpressBlog.user req'))
    | Respond status body => (status, body)
    end.
Proof.
  unfold ExpressBlog.me.
  destruct (ExpressBlog.auth env users now req) as [req' | status body] eqn:Hauth;
    [| reflexivity].
  unfold ExpressBlog.auth in Hauth.
  destruct (negb _); [discriminate |].
  destruct (Jwt.verify _ _ _) as [decoded |]; [| discriminate].
  destruct (Db.findById users (decoded !! "userId")) as [u | |] eqn:Hu;
    try discriminate.
  injection Hauth as <-. simpl. rewrite Hu. reflexivity.
Qed.

Lemma isOwner_decides_witness :
  ExpressBlog.isOwner Sample2.dave_at_other
  = Respond 403 (BError "Access denied. Not authorized.").
Proof.
  assert (Sample.dave_id <> "") as Hne by discriminate.
  rewrite (isOwner_decides Sample2.dave_at_other Sample.dave_id Sample.dave
             eq_refl Hne eq_refl).
  vm_compute. reflexivity.
Defined.

Lemma register_keeps_accounts_witness :
  snd (ExpressBlog.register Sample.bare_env Sample.xusers 0 Sample.erin_id "salt"
         (Sample.registration "erin" "erin@example.com")) !! Sample.dave_id
  = Some Sample.dave.
Proof.
  apply register_keeps_accounts. vm_compute. reflexivity.
Defined.

Lemma checkOwnership_canEdit_witness :
  SecureBlog.checkOwnership "id" Sample.posts
    (Sample.request_post Sample.draft_id (Some Sample.alice))
  = Next (SecureBlog.with_resource
            (Sample.request_post Sample.draft_id (Some Sample.alice))
            Sample.alice_draft)
  <-> SecureBlog.canEdit Sample.alice_draft (SecureBlog._id Sample.alice)
        (SecureBlog.role Sample.alice) = true.
Proof.
  apply checkOwnership_canEdit.
  - reflexivity.
  - vm_compute. reflexivity.
Defined.

Lemma join_after_plain_trace_witness :
  exists s outs s',
    Chat.run Chat.init
      [Chat.joinRoom "s1" "lobby"; Chat.message "lobby" "ann" "hi" 1;
       Chat.message "games" "bob" "go" 2; Chat.message "lobby" "cy" "yo" 3]
    = Some (s, outs)
    /\ Chat.history_of s "lobby"
       = Chat.sent "lobby"
           [Chat.joinRoom "s1" "lobby"; Chat.message "lobby" "ann" "hi" 1;
            Chat.message "games" "bob" "go" 2; Chat.message "lobby" "cy" "yo" 3]
    /\ Chat.handle s (Chat.joinRoom "s2" "lobby")
       = Some (s', match Chat.sent "lobby"
                           [Chat.joinRoom "s1" "lobby"; Chat.message "lobby" "ann" "hi" 1;
                            Chat.message "games" "bob" "go" 2;
                            Chat.message "lobby" "cy" "yo" 3] with
                   | [] => []
                   | _ :: _ =>
                       [Chat.history "s2"
                          (Chat.Array
                             (Chat.sent "lobby"
                                [Chat.joinRoom "s1" "lobby";
                                 Chat.message "lobby" "ann" "hi" 1;
                                 Chat.message "games" "bob" "go" 2;
                                 Chat.message "lobby" "cy" "yo" 3]))]
                   end).
Proof.
  apply join_after_plain_trace.
  - repeat constructor; intros room [= <-]; vm_compute; intros Hin;
      repeat (apply elem_of_cons in Hin as [Hin | Hin]; [discriminate Hin |]);
      apply elem_of_nil in Hin; exact Hin.
  - vm_compute. intros Hin.
    repeat (apply elem_of_cons in Hin as [Hin | Hin]; [discriminate Hin |]).
    apply elem_of_nil in Hin. exact Hin.
Defined.

(** ** secure-blog-api: the Post model *)

Lemma spaces_nonneg (s : string) : 0 <= Posts.spaces s.
Proof.
  induction s as [| c s IH]; simpl; [lia |].
  destruct (Ascii.eqb c " "); lia.
Qed.

Lemma ceil_div_bounds (n d : Z) :
  0 < d -> d * (Posts.ceil_div n d - 1) < n <= d * Posts.ceil_div n d.
Proof.
  intros Hd. unfold Posts.ceil_div.
  pose proof (Z.div_mod (- n) d ltac:(lia)) as Hdm.
  pose proof (Z.mod_pos_bound (- n) d Hd) as Hmod.
  lia.
Qed.

Lemma or_one_pages (body : string) :
  Posts.or_one (Posts.ceil_div (Posts.wordCount body) 200)
  = Posts.readTime_default body
  /\ 1 <= Posts.or_one (Posts.ceil_div (Posts.wordCount body) 200)
  /\ 200 * (Posts.or_one (Posts.ceil_div (Posts.wordCount body) 200) - 1)
     < Posts.wordCount body
     <= 200 * Posts.or_one (Posts.ceil_div (Posts.wordCount body) 200).
Proof.
  pose proof (spaces_nonneg body) as Hs.
  pose proof (ceil_div_bounds (Posts.wordCount body) 200 ltac:(lia)) as Hb.
  unfold Posts.readTime_default, Posts.or_one, Posts.wordCount in *.
  destruct (Z.eqb_spec (Posts.ceil_div (Posts.spaces body + 1) 200) 0); lia.
Qed.

(** X19: whatever the body, the read time the pre-save hook stores is the
    smallest number of 200-word pages that hold the body's words (one more
    than its spaces); it is the schema default and at least 1, so the
    hook's fallback to 1 never applies. *)
Theorem readTime_is_pages_of_200_words (p : SecureBlog.Post) :
  let words := Posts.wordCount (SecureBlog.body p) in
  let minutes := SecureBlog.readTime (Posts.pre_save true p) in
  minutes = Posts.readTime_default (SecureBlog.body p)
  /\ 1 <= minutes
  /\ 200 * (minutes - 1) < words <= 200 * minutes.
Proof.
  intros words minutes. subst words minutes. exact (or_one_pages (SecureBlog.body p)).
Qed.

Lemma substring_head (n : nat) (s : string) :
  (n <= String.length s)%nat ->
  exists rest, s = String.substring 0 n s +:+ rest
               /\ String.length (String.substring 0 n s) = n.
Proof.
  revert s. induction n as [| n IH]; intros s Hn.
  - exists s. destruct s; split; reflexivity.
  - destruct s as [| c s]; simpl in Hn; [lia |].
    destruct (IH s ltac:(lia)) as (rest & Hrest & Hlen).
    exists rest. simpl. rewrite append_cons, <- Hrest, Hlen. split; reflexivity.
Qed.

Lemma is_ascii_append (s t : string) :
  Js.is_ascii (s +:+ t) = Js.is_ascii s && Js.is_ascii t.
Proof.
  unfold Js.is_ascii. induction s as [| c s IH]; [reflexivity |].
  rewrite append_cons. simpl. rewrite IH. apply andb_assoc.
Qed.

Lemma length_append (s t : string) :
  String.length (s +:+ t) = (String.length s + String.length t)%nat.
Proof.
  induction s as [| c s IH]; [reflexivity |].
  rewrite append_cons. simpl. rewrite IH. reflexivity.
Qed.

(** X20: for a body of ASCII text, the excerpt of a post is its body when
    the body has at most 150 characters, and otherwise the first 150
    characters of the body followed by three dots; it never has more than
    153 characters. *)
Theorem excerpt_is_bounded (p : SecureBlog.Post) :
  Js.is_ascii (SecureBlog.body p) = true ->
  ((String.length (SecureBlog.body p) <= 150)%nat ->
   SecureBlog.excerpt p = SecureBlog.body p)
  /\ ((150 < String.length (SecureBlog.body p))%nat ->
      exists head rest,
        SecureBlog.body p = head +:+ rest
        /\ String.length head = 150%nat
        /\ SecureBlog.excerpt p = head +:+ "...")
  /\ (String.length (SecureBlog.excerpt p) <= 153)%nat
  /\ Js.is_ascii (SecureBlog.excerpt p) = true.
Proof.
  intros Hascii. unfold SecureBlog.excerpt.
  destruct (Nat.leb_spec (String.length (SecureBlog.body p)) 150) as [Hle | Hgt].
  - split; [reflexivity |]. split; [intros; lia |]. split; [lia | exact Hascii].
  - destruct (substring_head 150 (SecureBlog.body p) ltac:(lia))
      as (rest & Hrest & Hlen).
    split; [intros; lia |]. split; [| split].
    + intros _. exists (String.substring 0 150 (SecureBlog.body p)), rest.
      split; [exact Hrest |]. split; [exact Hlen | reflexivity].
    + rewrite length_append, Hlen. simpl. lia.
    + rewrite Hrest in Hascii. rewrite is_ascii_append in Hascii |- *.
      apply andb_true_iff in Hascii as [Hhead _]. rewrite Hhead. reflexivity.
Qed.

Lemma excerpt_is_bounded_witness :
  ((String.length (SecureBlog.body Sample2.long_post) <= 150)%nat ->
   SecureBlog.excerpt Sample2.long_post = SecureBlog.body Sample2.long_post)
  /\ ((150 < String.length (SecureBlog.body Sample2.long_post))%nat ->
      exists head rest,
        SecureBlog.body Sample2.long_post = head +:+ rest
        /\ String.length head = 150%nat
        /\ SecureBlog.excerpt Sample2.long_post = head +:+ "...")
  /\ (String.length (SecureBlog.excerpt Sample2.long_post) <= 153)%nat
  /\ Js.is_ascii (SecureBlog.excerpt Sample2.long_post) = true.
Proof.
  apply (excerpt_is_bounded Sample2.long_post). vm_compute. reflexivity.
Defined.

Lemma unique_acc (l seen : list string) :
  NoDup seen ->
  NoDup (fold_left Posts.add_new l seen)
  /\ forall t, t ∈ fold_left Posts.add_new l seen <-> t ∈ seen \/ t ∈ l.
Proof.
  revert seen. induction l as [| x l IH]; intros seen Hseen; simpl.
  - split; [exact Hseen |]. intros t. rewrite elem_of_nil. tauto.
  - assert (NoDup (Posts.add_new seen x)
            /\ forall t, t ∈ Posts.add_new seen x <-> t ∈ seen \/ t = x) as [Hnd Hin].
    { unfold Posts.add_new. case_bool_decide as Hx.
      - split; [exact Hseen |]. intros t. split; [tauto |].
        intros [Ht | ->]; assumption.
      - split.
        + apply NoDup_app. split; [exact Hseen |]. split.
          * intros t Ht Ht'. apply list_elem_of_singleton in Ht'. congruence.
          * apply NoDup_singleton.
        + intros t. rewrite elem_of_app, list_elem_of_singleton. tauto. }
    destruct (IH _ Hnd) as [Hnd' Hin']. split; [exact Hnd' |].
    intros t. rewrite Hin', Hin, elem_of_cons. tauto.
Qed.

Lemma processTags_spec `{NodeLibs} (tags : list string) :
  NoDup (Posts.processTags tags)
  /\ forall t, t ∈ Posts.processTags tags
       <-> t <> "" /\ exists tag, tag ∈ tags /\ t = str_trim (str_lower tag).
Proof.
  unfold Posts.processTags, Posts.unique.
  destruct (unique_acc
              (List.filter (fun tag => negb (String.eqb tag ""))
                 (map (fun tag => str_trim (str_lower tag)) tags)) []
              (@NoDup_nil_2 string)) as [Hnd Hin].
  split; [exact Hnd |].
  intros t. rewrite Hin, elem_of_nil, list_elem_of_In, filter_In, in_map_iff.
  rewrite negb_true_iff, String.eqb_neq.
  split.
  - intros [[] | [(tag & <- & Htag) Hne]]. split; [exact Hne |].
    exists tag. rewrite list_elem_of_In. split; [exact Htag | reflexivity].
  - intros [Hne (tag & Htag & ->)]. right. split; [| exact Hne].
    exists tag. rewrite <- list_elem_of_In. split; [reflexivity | exact Htag].
Qed.

(** The schema's setter changes nothing of a processed tag. *)
Lemma set_tag_processed `{NodeLibs} `{!StringLaws} (tags : list string) :
  map Posts.set_tag (Posts.processTags tags) = Posts.processTags tags.
Proof.
  rewrite <- (map_id (Posts.processTags tags)) at 2.
  apply map_ext_in. intros t Ht. apply list_elem_of_In in Ht.
  apply (proj2 (processTags_spec tags)) in Ht as (_ & tag & _ & ->).
  unfold Posts.set_tag.
  rewrite str_trim_trim, <- str_trim_lower, str_lower_lower. reflexivity.
Qed.

(** X21: the tags the routes store, which are the processed tags as the
    schema's setter leaves them, have no duplicates and no empty tag, and
    are exactly the non-empty results of lower-casing and trimming the tags
    given: so for the post that POST /posts stores and for the tags that
    PUT /posts/:id assigns.  The setter changes nothing of them. *)
Theorem processTags_normalises `{NodeLibs} `{!StringLaws} (tags : list string) :
  let stored := map Posts.set_tag (Posts.processTags tags) in
  stored = Posts.processTags tags
  /\ NoDup stored
  /\ (forall t, t ∈ stored
        <-> t <> "" /\ exists tag, tag ∈ tags /\ t = str_trim (str_lower tag))
  /\ (forall users posts posts' now newid req c b,
        Posts.c_tags c = Some tags ->
        Posts.createPost users posts now newid req c = ((201, b), posts') ->
        exists saved, posts' !! newid = Some saved /\ SecureBlog.tags saved = stored)
  /\ (forall post c,
        Posts.u_tags c = Some tags ->
        SecureBlog.tags (Posts.assigned post c) = stored).
Proof.
  intros stored. subst stored. rewrite set_tag_processed.
  destruct (processTags_spec tags) as [Hnd Hin].
  split; [reflexivity |]. split; [exact Hnd |]. split; [exact Hin |]. split.
  - intros users posts posts' now newid req c b Htags. unfold Posts.createPost.
    destruct (Posts.c_errors c); [| discriminate].
    destruct (SecureBlog.req_user req) as [u |]; [| discriminate].
    destruct (_ && _); [| discriminate].
    destruct (posts !! newid) eqn:Hfree; [discriminate |].
    intros [= <- <-]. eexists. split; [apply lookup_insert_eq |].
    simpl. rewrite Htags. simpl. apply set_tag_processed.
  - intros post c Htags. unfold Posts.assigned. simpl. rewrite Htags. simpl.
    apply set_tag_processed.
Qed.

Lemma processTags_normalises_witness :
  map Posts.set_tag (Posts.processTags ["News"; " news "; ""; "Tech"])
  = Posts.processTags ["News"; " news "; ""; "Tech"]
  /\ NoDup (map Posts.set_tag (Posts.processTags ["News"; " news "; ""; "Tech"]))
  /\ SecureBlog.tags
       (Posts.assigned Sample.alice_draft
          {| Posts.u_errors := []; Posts.u_title := None; Posts.u_body := None;
             Posts.u_status := None;
             Posts.u_tags := Some ["News"; " news "; ""; "Tech"] |})
     = ["news"; "tech"].
Proof.
  destruct (@processTags_normalises Ref.libs ref_string_laws
              ["News"; " news "; ""; "Tech"]) as (Hsame & Hnd & _ & _ & Hput).
  split; [exact Hsame |]. split; [exact Hnd |].
  rewrite (Hput Sample.alice_draft
             {| Posts.u_errors := []; Posts.u_title := None; Posts.u_body := None;
                Posts.u_status := None;
                Posts.u_tags := Some ["News"; " news "; ""; "Tech"] |} eq_refl).
  vm_compute. reflexivity.
Defined.

(** ** secure-blog-api: the posts routes *)

Section PostsRoutes.
Context `{NodeLibs}.

Lemma findById_found {A} (coll : gmap string A) (id : option JVal) (a : A) :
  Db.findById coll id = Db.Found a ->
  exists v k, id = Some v /\ cast_object_id v = Some k /\ coll !! k = Some a.
Proof.
  unfold Db.findById. destruct id as [v |]; [| discriminate].
  destruct (cast_object_id v) as [k |] eqn:Hcast; [| discriminate].
  destruct (coll !! k) as [b |] eqn:Hk; [| discriminate].
  intros [= <-]. exists v, k. split; [reflexivity |]. split; [| exact Hk].
  assumption || reflexivity.
Qed.

Lemma checkOwnership_next param posts (req1 req2 : SecureBlog.Request) :
  SecureBlog.checkOwnership param posts req1 = Next req2 ->
  exists u r,
    SecureBlog.req_user req1 = Some u
    /\ Db.findById posts (JStr <$> SecureBlog.params req1 !! param) = Db.Found r
    /\ req2 = SecureBlog.with_resource req1 r
    /\ SecureBlog.canEdit r (SecureBlog._id u) (SecureBlog.role u) = true.
Proof.
  unfold SecureBlog.checkOwnership, SecureBlog.canEdit.
  destruct (Db.findById _ _) as [r | |]; try discriminate.
  destruct (SecureBlog.req_user req1) as [u |]; [| discriminate].
  destruct (bool_decide (SecureBlog.role u = RoleAdmin)) eqn:Hadmin; simpl.
  - intros [= <-]. exists u, r. rewrite Hadmin. repeat split; reflexivity.
  - destruct (String.eqb (SecureBlog.user r) (SecureBlog._id u)) eqn:Hown; simpl;
      [| discriminate].
    intros [= <-]. exists u, r. rewrite Hadmin, Hown. repeat split; reflexivity.
Qed.

(** What gets past the guard of PUT and DELETE. *)
Lemma guarded_handled env users posts now req handler :
  Posts.guarded env users posts now req handler
  = match SecureBlog.authenticate env users now req with
    | Next req1 =>
        match SecureBlog.checkOwnership "id" posts req1 with
        | Next req2 => handler req2
        | Respond status b => ((status, b), posts)
        end
    | Respond status b => ((status, b), posts)
    end.
Proof. reflexivity. Qed.

Lemma updatePost_writes_one users posts now req c r k :
  SecureBlog.resource req = Some r -> k <> SecureBlog.p_id r ->
  snd (Posts.updatePost users posts now req c) !! k = posts !! k.
Proof.
  intros Hr Hk. unfold Posts.updatePost. rewrite Hr.
  repeat case_match; simpl; try reflexivity.
  apply lookup_insert_ne. congruence.
Qed.

Lemma deletePost_writes_one posts req r k :
  SecureBlog.resource req = Some r -> k <> SecureBlog.p_id r ->
  snd (Posts.deletePost posts req) !! k = posts !! k.
Proof.
  intros Hr Hk. unfold Posts.deletePost. rewrite Hr. simpl.
  apply lookup_delete_ne. congruence.
Qed.

Lemma guarded_spares env users posts now req handler k p :
  (forall k p, posts !! k = Some p -> SecureBlog.p_id p = k) ->
  posts !! k = Some p ->
  (forall req' u,
     SecureBlog.authenticate env users now req = Next req' ->
     SecureBlog.req_user req' = Some u ->
     SecureBlog.canEdit p (SecureBlog._id u) (SecureBlog.role u) = false) ->
  (forall req2 r k', SecureBlog.resource req2 = Some r -> k' <> SecureBlog.p_id r ->
     snd (handler req2) !! k' = posts !! k') ->
  snd (Posts.guarded env users posts now req handler) !! k = Some p.
Proof.
  intros Hkeys Hp Hno Hone. rewrite guarded_handled.
  destruct (SecureBlog.authenticate env users now req) as [req1 |] eqn:Hauth;
    [| exact Hp].
  destruct (SecureBlog.checkOwnership "id" posts req1) as [req2 |] eqn:Hown;
    [| exact Hp].
  apply checkOwnership_next in Hown as (u & r & Hu & Hfound & -> & Hcan).
  apply findById_found in Hfound as (v & kk & _ & _ & Hr).
  pose proof (Hkeys _ _ Hr) as Hrk.
  destruct (decide (k = SecureBlog.p_id r)) as [-> | Hne].
  - rewrite Hrk in Hp. assert (p = r) as -> by congruence.
    rewrite (Hno req1 u eq_refl Hu) in Hcan. discriminate.
  - rewrite (Hone (SecureBlog.with_resource req1 r) r k eq_refl Hne). exact Hp.
Qed.

End PostsRoutes.

(** X22: a post that PUT /posts/:id or DELETE /posts/:id finds stored is
    still stored, unchanged, after the request, unless the request
    authenticated as an account that [canEdit] allows to edit it (its owner
    or an administrator).  Posts are stored under their ids. *)
Theorem guarded_routes_spare_others_posts `{NodeLibs}
    (env : Env) (users : gmap string SecureBlog.User)
    (posts : gmap string SecureBlog.Post) (now : Z) (req : SecureBlog.Request)
    (c : Posts.UpdateReq) (k : string) (p : SecureBlog.Post) :
  (forall k p, posts !! k = Some p -> SecureBlog.p_id p = k) ->
  posts !! k = Some p ->
  (forall req' u,
     SecureBlog.authenticate env users now req = Next req' ->
     SecureBlog.req_user req' = Some u ->
     SecureBlog.canEdit p (SecureBlog._id u) (SecureBlog.role u) = false) ->
  snd (Posts.putRoute env users posts now req c) !! k = Some p
  /\ snd (Posts.deleteRoute env users posts now req) !! k = Some p.
Proof.
  intros Hkeys Hp Hno. split.
  - apply guarded_spares; try assumption.
    intros req2 r k' Hr Hk'. apply (updatePost_writes_one _ _ _ _ _ r); assumption.
  - apply guarded_spares; try assumption.
    intros req2 r k' Hr Hk'. apply (deletePost_writes_one _ _ r); assumption.
Qed.

Lemma guarded_routes_spare_others_posts_witness :
  snd (Posts.putRoute Sample.env Posts.users Sample.posts 5000
         (Posts.as_user Sample.draft_id (Posts.bearer Posts.dan_id)) Posts.retitle)
    !! Sample.draft_id = Some Sample.alice_draft
  /\ snd (Posts.deleteRoute Sample.env Posts.users Sample.posts 5000
            (Posts.as_user Sample.draft_id (Posts.bearer Posts.dan_id)))
       !! Sample.draft_id = Some Sample.alice_draft.
Proof.
  apply guarded_routes_spare_others_posts.
  - intros k p. unfold Sample.posts. rewrite lookup_singleton.
    case_decide as Hk; [| discriminate]. intros [= <-]. exact Hk.
  - vm_compute. reflexivity.
  - intros req' u Hauth. vm_compute in Hauth. injection Hauth as <-.
    intros [= <-]. vm_compute. reflexivity.
Defined.

(** X23: a post that POST /posts answers 201 for belongs to the account
    attached to the request and to no other, whatever the body says; it is
    stored under the new id, published unless the body names a status, with
    normalised tags and a read time of at least 1, and no stored post is
    replaced. *)
Theorem createPost_owner_is_requester `{NodeLibs}
    (users : gmap string SecureBlog.User) (posts posts' : gmap string SecureBlog.Post)
    (now : Z) (newid : string) (req : SecureBlog.Request) (c : Posts.CreateReq)
    (b : Body) :
  Posts.createPost users posts now newid req c = ((201, b), posts') ->
  exists u saved,
    SecureBlog.req_user req = Some u
    /\ posts !! newid = None
    /\ posts' = <[newid := saved]> posts
    /\ SecureBlog.p_id saved = newid
    /\ SecureBlog.user saved = SecureBlog._id u
    /\ SecureBlog.status saved = default SecureBlog.published (Posts.c_status c)
    /\ SecureBlog.tags saved
       = map Posts.set_tag (Posts.processTags (default [] (Posts.c_tags c)))
    /\ 1 <= SecureBlog.readTime saved
    /\ b = BPost true "Post created successfully" (SecureBlog.postObject saved)
             (SecureBlog.populate users saved).
Proof.
  unfold Posts.createPost.
  destruct (Posts.c_errors c); [| discriminate].
  destruct (SecureBlog.req_user req) as [u |]; [| discriminate].
  destruct (_ && _); [| discriminate].
  destruct (posts !! newid) eqn:Hfree; [discriminate |].
  intros [= <- <-]. exists u. eexists.
  do 7 (split; [reflexivity |]). split; [| reflexivity].
  simpl. apply or_one_pages.
Qed.

Lemma createPost_owner_is_requester_witness :
  exists u saved,
    SecureBlog.req_user (Sample.request_post "" (Some Sample.alice)) = Some u
    /\ Sample.posts !! Posts.new_id = None
    /\ snd (Posts.createPost Sample.users Sample.posts 7000 Posts.new_id
              (Sample.request_post "" (Some Sample.alice)) Posts.creation)
       = <[Posts.new_id := saved]> Sample.posts
    /\ SecureBlog.p_id saved = Posts.new_id
    /\ SecureBlog.user saved = SecureBlog._id u
    /\ SecureBlog.status saved
       = default SecureBlog.published (Posts.c_status Posts.creation)
    /\ SecureBlog.tags saved
       = map Posts.set_tag
           (Posts.processTags (default [] (Posts.c_tags Posts.creation)))
    /\ 1 <= SecureBlog.readTime saved
    /\ snd (fst (Posts.createPost Sample.users Sample.posts 7000 Posts.new_id
                   (Sample.request_post "" (Some Sample.alice)) Posts.creation))
       = BPost true "Post created successfully" (SecureBlog.postObject saved)
           (SecureBlog.populate Sample.users saved).
Proof.
  apply (createPost_owner_is_requester Sample.users Sample.posts _ 7000 Posts.new_id
           (Sample.request_post "" (Some Sample.alice)) Posts.creation).
  vm_compute. reflexivity.
Defined.

(** X24: an update that PUT /posts/:id answers 200 for leaves the id, the
    owner and the creation time of the post as they were, whatever the body
    says; title, body and status are the given ones where given (the title
    trimmed) and the old ones where not; and what is stored afterwards under
    the id is the post the answer shows. *)
Theorem updatePost_keeps_identity `{NodeLibs}
    (users : gmap string SecureBlog.User) (posts posts' : gmap string SecureBlog.Post)
    (now : Z) (req : SecureBlog.Request) (c : Posts.UpdateReq)
    (post : SecureBlog.Post) (b : Body) :
  SecureBlog.resource req = Some post ->
  posts !! SecureBlog.p_id post = Some post ->
  Posts.updatePost users posts now req c = ((200, b), posts') ->
  exists saved,
    b = BPost true "Post updated successfully" (SecureBlog.postObject saved)
          (SecureBlog.populate users saved)
    /\ posts' !! SecureBlog.p_id post = Some saved
    /\ (forall k, k <> SecureBlog.p_id post -> posts' !! k = posts !! k)
    /\ SecureBlog.p_id saved = SecureBlog.p_id post
    /\ SecureBlog.user saved = SecureBlog.user post
    /\ SecureBlog.p_createdAt saved = SecureBlog.p_createdAt post
    /\ SecureBlog.title saved
       = default (SecureBlog.title post) (Posts.set_title <$> Posts.u_title c)
    /\ SecureBlog.body saved = default (SecureBlog.body post) (Posts.u_body c)
    /\ SecureBlog.status saved = default (SecureBlog.status post) (Posts.u_status c).
Proof.
  intros Hres Hstored. unfold Posts.updatePost. rewrite Hres, Hstored.
  destruct (Posts.u_errors c); [| discriminate].
  case_bool_decide as Hsame.
  - intros [= <- <-]. exists post.
    split; [reflexivity |]. split; [exact Hstored |]. split; [reflexivity |].
    do 3 (split; [reflexivity |]).
    rewrite <- Hsame at 1 3 5. repeat split; reflexivity.
  - destruct (_ && _); [| discriminate].
    intros [= <- <-]. eexists.
    split; [reflexivity |]. split; [apply lookup_insert_eq |].
    split; [intros k Hk; apply lookup_insert_ne; congruence |].
    destruct (negb _); repeat split; reflexivity.
Qed.

Lemma updatePost_keeps_identity_witness :
  exists saved,
    snd (fst (Posts.updatePost Sample.users Sample.posts 9000
                (SecureBlog.with_resource
                   (Sample.request_post Sample.draft_id (Some Sample.alice))
                   Sample.alice_draft) Posts.retitle))
    = BPost true "Post updated successfully" (SecureBlog.postObject saved)
        (SecureBlog.populate Sample.users saved)
    /\ snd (Posts.updatePost Sample.users Sample.posts 9000
              (SecureBlog.with_resource
                 (Sample.request_post Sample.draft_id (Some Sample.alice))
                 Sample.alice_draft) Posts.retitle)
       !! SecureBlog.p_id Sample.alice_draft = Some saved
    /\ (forall k, k <> SecureBlog.p_id Sample.alice_draft ->
          snd (Posts.updatePost Sample.users Sample.posts 9000
                 (SecureBlog.with_resource
                    (Sample.request_post Sample.draft_id (Some Sample.alice))
                    Sample.alice_draft) Posts.retitle) !! k
          = Sample.posts !! k)
    /\ SecureBlog.p_id saved = SecureBlog.p_id Sample.alice_draft
    /\ SecureBlog.user saved = SecureBlog.user Sample.alice_draft
    /\ SecureBlog.p_createdAt saved = SecureBlog.p_createdAt Sample.alice_draft
    /\ SecureBlog.title saved
       = default (SecureBlog.title Sample.alice_draft)
           (Posts.set_title <$> Posts.u_title Posts.retitle)
    /\ SecureBlog.body saved
       = default (SecureBlog.body Sample.alice_draft) (Posts.u_body Posts.retitle)
    /\ SecureBlog.status saved
       = default (SecureBlog.status Sample.alice_draft) (Posts.u_status Posts.retitle).
Proof.
  apply (updatePost_keeps_identity Sample.users Sample.posts _ 9000
           (SecureBlog.with_resource
              (Sample.request_post Sample.draft_id (Some Sample.alice))
              Sample.alice_draft) Posts.retitle Sample.alice_draft).
  - reflexivity.
  - vm_compute. reflexivity.
  - vm_compute. reflexivity.
Defined.

(** X25: after a DELETE /posts/:id that answered 200, a GET of the same id
    answers 404 "Post not found", whoever asks.  Posts are stored under
    their ids. *)
Theorem delete_then_get_is_404 `{NodeLibs}
    (env : Env) (users : gmap string SecureBlog.User)
    (posts : gmap string SecureBlog.Post) (now : Z)
    (req reader : SecureBlog.Request) :
  (forall k p, posts !! k = Some p -> SecureBlog.p_id p = k) ->
  fst (fst (Posts.deleteRoute env users posts now req)) = 200 ->
  SecureBlog.params reader !! "id" = SecureBlog.params req !! "id" ->
  SecureBlog.getPost users (snd (Posts.deleteRoute env users posts now req)) reader
  = (404, BMessage false "Post not found").
Proof.
  intros Hkeys Hok Hsame.
  unfold Posts.deleteRoute in *. rewrite guarded_handled in *.
  destruct (SecureBlog.authenticate env users now req) as [req1 | st b] eqn:Hauth.
  2: { unfold SecureBlog.authenticate in Hauth. simpl in Hok. subst st.
       repeat case_match; discriminate. }
  apply authenticate_next in Hauth as (h & d & u & _ & _ & _ & _ & ->).
  destruct (SecureBlog.checkOwnership "id" posts _) as [req2 | st b] eqn:Hown.
  2: { unfold SecureBlog.checkOwnership in Hown. simpl in Hok. subst st.
       repeat case_match; discriminate. }
  apply checkOwnership_next in Hown as (u' & r & _ & Hfound & -> & _).
  simpl in Hfound.
  pose proof Hfound as Hfound'.
  apply findById_found in Hfound' as (v & k & Hv & Hcast & Hr).
  pose proof (Hkeys _ _ Hr) as Hrk.
  unfold Posts.deletePost. simpl.
  unfold SecureBlog.getPost, Db.findById. rewrite Hsame, Hv, Hcast, Hrk.
  rewrite lookup_delete_eq. reflexivity.
Qed.

Lemma delete_then_get_is_404_witness :
  SecureBlog.getPost Sample.users
    (snd (Posts.deleteRoute Sample.env Sample.users Sample.posts 5000
            (Posts.as_user Sample.draft_id (Posts.bearer Sample.alice_id))))
    (Sample.request_post Sample.draft_id (Some Sample.alice))
  = (404, BMessage false "Post not found").
Proof.
  apply delete_then_get_is_404.
  - intros k p. unfold Sample.posts. rewrite lookup_singleton.
    case_decide as Hk; [| discriminate]. intros [= <-]. exact Hk.
  - vm_compute. reflexivity.
  - reflexivity.
Defined.

Section Listing.
Context `{NodeLibs}.

(** What GET /posts computes when it lists. *)
Lemma getPosts_listed text sorted users posts q found page tp total hn hp :
  Posts.getPosts text sorted users posts q = Posts.Listed found page tp total hn hp ->
  let limit := Posts.int_or (Posts.q_limit q) 10 in
  let matches := List.filter (Posts.listed text q) (snd <$> map_to_list posts) in
  1 <= page /\ 1 <= limit <= 50
  /\ found = (fun p => (p, SecureBlog.populate users p))
             <$> take (Z.to_nat limit)
                   (drop (Z.to_nat ((page - 1) * limit)) (sorted (Posts.q_search q) matches))
  /\ total = Z.of_nat (length matches)
  /\ tp = Posts.ceil_div total limit
  /\ hn = (page <? tp) /\ hp = (1 <? page).
Proof.
  unfold Posts.getPosts.
  destruct (Posts.page_errors q ++ Posts.limit_errors q ++ Posts.q_errors q)%list
    eqn:Herrors; [| discriminate].
  apply app_eq_nil in Herrors as [Hpage Hrest].
  apply app_eq_nil in Hrest as [Hlimit _].
  assert (1 <= Posts.int_or (Posts.q_page q) 1) as Hp.
  { unfold Posts.page_errors, Posts.int_or in *.
    destruct (Posts.q_page q) as [n |]; [| lia].
    destruct (Z.ltb_spec n 1); [discriminate |].
    destruct (Z.eqb_spec n 0); lia. }
  assert (1 <= Posts.int_or (Posts.q_limit q) 10 <= 50) as Hl.
  { unfold Posts.limit_errors, Posts.int_or in *.
    destruct (Posts.q_limit q) as [n |]; [| lia].
    destruct (Z.ltb_spec n 1); [discriminate |].
    destruct (Z.ltb_spec 50 n); [discriminate |].
    destruct (Z.eqb_spec n 0); lia. }
  destruct (bool_decide _); [discriminate |].
  intros [= <- <- <- <- <- <-]. repeat split; try reflexivity; lia.
Qed.

End Listing.

(** X26: GET /posts lists stored posts that are published and match the
    query, and nothing else: a draft or an archived post is never listed,
    whoever asks; each comes with its populated author, and at most [limit]
    (at most 50) are listed.  The store returns the matches in some order. *)
Theorem getPosts_lists_published_only `{NodeLibs}
    (text : string -> SecureBlog.Post -> bool)
    (sorted : option string -> list SecureBlog.Post -> list SecureBlog.Post)
    (users : gmap string SecureBlog.User) (posts : gmap string SecureBlog.Post)
    (q : Posts.ListReq) (found : list (SecureBlog.Post * option Obj))
    (page tp total : Z) (hn hp : bool) :
  (forall s l, sorted s l ≡ₚ l) ->
  Posts.getPosts text sorted users posts q = Posts.Listed found page tp total hn hp ->
  (forall p a, (p, a) ∈ found ->
     SecureBlog.status p = SecureBlog.published
     /\ Posts.listed text q p = true
     /\ (exists k, posts !! k = Some p)
     /\ a = SecureBlog.populate users p)
  /\ Z.of_nat (length found) <= Posts.int_or (Posts.q_limit q) 10 <= 50.
Proof.
  intros Hsorted Hlist.
  destruct (getPosts_listed _ _ _ _ _ _ _ _ _ _ _ Hlist)
    as (_ & Hlimit & -> & _).
  split.
  - intros p a Hin.
    apply list_elem_of_fmap in Hin as (p0 & [= -> ->] & Hin).
    apply subseteq_take, subseteq_drop in Hin.
    rewrite Hsorted in Hin.
    apply list_elem_of_In, filter_In in Hin as [Hin Hlisted].
    apply list_elem_of_In, list_elem_of_fmap in Hin as ([k p'] & -> & Hin).
    apply elem_of_map_to_list in Hin.
    split; [| split; [exact Hlisted | split; [eauto | reflexivity]]].
    unfold Posts.listed in Hlisted.
    repeat (apply andb_true_iff in Hlisted as [Hlisted _]).
    apply bool_decide_eq_true_1 in Hlisted. exact Hlisted.
  - rewrite length_fmap, length_take. lia.
Qed.

Lemma getPosts_lists_published_only_witness :
  (forall p a,
     (p, a) ∈ [(Sample.post Posts.published_id Sample.alice_id SecureBlog.published,
                SecureBlog.populate Sample.users
                  (Sample.post Posts.published_id Sample.alice_id SecureBlog.published))] ->
     SecureBlog.status p = SecureBlog.published
     /\ Posts.listed Posts.any_text Posts.first_page p = true
     /\ (exists k, Posts.library !! k = Some p)
     /\ a = SecureBlog.populate Sample.users p)
  /\ Z.of_nat (length
       [(Sample.post Posts.published_id Sample.alice_id SecureBlog.published,
         SecureBlog.populate Sample.users
           (Sample.post Posts.published_id Sample.alice_id SecureBlog.published))])
     <= Posts.int_or (Posts.q_limit Posts.first_page) 10 <= 50.
Proof.
  apply (getPosts_lists_published_only Posts.any_text Posts.as_stored Sample.users
           Posts.library Posts.first_page _ 1 1 1 false false).
  - reflexivity.
  - vm_compute. reflexivity.
Defined.

(** X27: the pagination GET /posts answers with: the page is at least 1
    and the limit between 1 and 50; [totalPosts] counts every match, not
    only the page; [totalPages] is the least number of pages of [limit]
    that hold them; [hasPrevPage] says the page is not the first,
    [hasNextPage] that matches remain beyond this page; and the page holds
    as many posts as remain after skipping the earlier pages, up to
    [limit]. *)
Theorem getPosts_pagination `{NodeLibs}
    (text : string -> SecureBlog.Post -> bool)
    (sorted : option string -> list SecureBlog.Post -> list SecureBlog.Post)
    (users : gmap string SecureBlog.User) (posts : gmap string SecureBlog.Post)
    (q : Posts.ListReq) (found : list (SecureBlog.Post * option Obj))
    (page tp total : Z) (hn hp : bool) :
  (forall s l, sorted s l ≡ₚ l) ->
  Posts.getPosts text sorted users posts q = Posts.Listed found page tp total hn hp ->
  let limit := Posts.int_or (Posts.q_limit q) 10 in
  1 <= page /\ 1 <= limit <= 50
  /\ total = Z.of_nat (length (List.filter (Posts.listed text q)
                                 (snd <$> map_to_list posts)))
  /\ limit * (tp - 1) < total <= limit * tp
  /\ (hp = true <-> 1 < page)
  /\ (hn = true <-> page * limit < total)
  /\ Z.of_nat (length found) = Z.min limit (Z.max 0 (total - (page - 1) * limit)).
Proof.
  intros Hsorted Hlist limit.
  destruct (getPosts_listed _ _ _ _ _ _ _ _ _ _ _ Hlist)
    as (Hpage & Hlimit & -> & Htotal & -> & -> & ->).
  fold limit in Hlimit |- *.
  pose proof (ceil_div_bounds total limit ltac:(lia)) as Hceil.
  split; [exact Hpage |]. split; [exact Hlimit |]. split; [exact Htotal |].
  split; [exact Hceil |].
  split; [rewrite Z.ltb_lt; reflexivity |].
  split.
  - rewrite Z.ltb_lt. split; intros Hlt; nia.
  - rewrite length_fmap, length_take, length_drop.
    rewrite (Permutation_length (Hsorted _ _)). rewrite Htotal. nia.
Qed.

Lemma getPosts_pagination_witness :
  1 <= 1 /\ 1 <= Posts.int_or (Posts.q_limit Posts.first_page) 10 <= 50
  /\ 1 = Z.of_nat (length (List.filter (Posts.listed Posts.any_text Posts.first_page)
                             (snd <$> map_to_list Posts.library)))
  /\ Posts.int_or (Posts.q_limit Posts.first_page) 10 * (1 - 1) < 1
     <= Posts.int_or (Posts.q_limit Posts.first_page) 10 * 1
  /\ (false = true <-> 1 < 1)
  /\ (false = true <-> 1 * Posts.int_or (Posts.q_limit Posts.first_page) 10 < 1)
  /\ Z.of_nat (length
       [(Sample.post Posts.published_id Sample.alice_id SecureBlog.published,
         SecureBlog.populate Sample.users
           (Sample.post Posts.published_id Sample.alice_id SecureBlog.published))])
     = Z.min (Posts.int_or (Posts.q_limit Posts.first_page) 10)
         (Z.max 0 (1 - (1 - 1) * Posts.int_or (Posts.q_limit Posts.first_page) 10)).
Proof.
  apply (getPosts_pagination Posts.any_text Posts.as_stored Sample.users
           Posts.library Posts.first_page _ 1 1 1 false false).
  - reflexivity.
  - vm_compute. reflexivity.
Defined.

(** ** Blog posts with a view counter *)

Lemma to_double_exact (x : Z) : Z.abs x <= 2 ^ 53 -> Js.to_double x = x.
Proof.
  intros Hx. unfold Js.to_double.
  destruct (Z.leb_spec (Z.abs x) (2 ^ 53)); [reflexivity | lia].
Qed.

Lemma blog_pre_save_fields now p :
  Blog.p_id (Blog.pre_save now p) = Blog.p_id p
  /\ Blog.status (Blog.pre_save now p) = Blog.status p
  /\ Blog.viewsCount (Blog.pre_save now p) = Blog.viewsCount p
  /\ Blog.title (Blog.pre_save now p) = Blog.title p
  /\ Blog.slug (Blog.pre_save now p) = Blog.slug p
  /\ Blog.content (Blog.pre_save now p) = Blog.content p
  /\ Blog.excerpt (Blog.pre_save now p) = Blog.excerpt p
  /\ Blog.author (Blog.pre_save now p) = Blog.author p
  /\ Blog.likesCount (Blog.pre_save now p) = Blog.likesCount p
  /\ Blog.publishedAt (Blog.pre_save now p)
     = if String.eqb (Blog.status p) "published"
       then Some (default now (Blog.publishedAt p))
       else Blog.publishedAt p.
Proof.
  unfold Blog.pre_save.
  destruct (String.eqb (Blog.status p) "published") eqn:Hs,
           (Blog.publishedAt p) eqn:Hp;
    repeat split; try reflexivity; simpl; rewrite ?Hp; reflexivity.
Qed.

(** What [incrementViews] saves of a document that passes the validators:
    it passes them again. *)
Lemma incrementViews_fields now p :
  Blog.valid p = true ->
  exists saved,
    Blog.incrementViews now p = Some saved
    /\ Blog.valid saved = true
    /\ Blog.p_id saved = Blog.p_id p
    /\ Blog.status saved = Blog.status p
    /\ Blog.viewsCount saved = Js.to_double (Blog.viewsCount p + 1)
    /\ Blog.title saved = Blog.title p
    /\ Blog.content saved = Blog.content p
    /\ Blog.author saved = Blog.author p
    /\ Blog.likesCount saved = Blog.likesCount p
    /\ Blog.publishedAt saved
       = if String.eqb (Blog.status p) "published"
         then Some (default now (Blog.publishedAt p))
         else Blog.publishedAt p.
Proof.
  intros Hvalid. unfold Blog.incrementViews, Blog.save.
  change (Blog.valid (Blog.viewed p)) with (Blog.valid p). rewrite Hvalid.
  eexists. split; [reflexivity |].
  match goal with
  | |- context [Blog.pre_save now ?q] =>
      destruct (blog_pre_save_fields now q)
        as (Hi & Hs & Hv & Ht & Hsl & Hc & He & Ha & Hl & Hpub)
  end.
  split.
  { unfold Blog.valid in *. rewrite Ht, Hsl, Hc, He, Hs. exact Hvalid. }
  rewrite Hi, Hs, Hv, Ht, Hc, Ha, Hl, Hpub. repeat split; reflexivity.
Qed.

Section BlogReads.
Context `{NodeLibs}.

Lemma blog_read_once posts now id k p :
  cast_object_id (JStr id) = Some k -> posts !! k = Some p -> Blog.p_id p = k ->
  Blog.getPost posts now id
  = match Blog.incrementViews now p with
    | Some saved => (Blog.Sent 200 saved, <[k := saved]> posts)
    | None => (Blog.Failure 500 "ValidationError", posts)
    end.
Proof.
  intros Hcast Hp Hid. unfold Blog.getPost, Db.findById.
  rewrite Hcast, Hp, Hid. reflexivity.
Qed.

(** What is stored after a series of reads, one after the other. *)
Lemma blog_reads times : forall posts id k p,
  cast_object_id (JStr id) = Some k -> posts !! k = Some p -> Blog.p_id p = k ->
  Blog.valid p = true ->
  0 <= Blog.viewsCount p ->
  Blog.viewsCount p + Z.of_nat (length times) <= 2 ^ 53 ->
  exists p',
    Blog.getPost_times posts id times !! k = Some p'
    /\ (forall k', k' <> k -> Blog.getPost_times posts id times !! k' = posts !! k')
    /\ Blog.viewsCount p' = Blog.viewsCount p + Z.of_nat (length times)
    /\ Blog.status p' = Blog.status p
    /\ Blog.title p' = Blog.title p /\ Blog.content p' = Blog.content p
    /\ Blog.author p' = Blog.author p /\ Blog.likesCount p' = Blog.likesCount p
    /\ Blog.publishedAt p'
       = match times with
         | first :: _ =>
             if String.eqb (Blog.status p) "published"
             then Some (default first (Blog.publishedAt p))
             else Blog.publishedAt p
         | [] => Blog.publishedAt p
         end.
Proof.
  induction times as [| now later IH]; intros posts id k p Hcast Hp Hid Hvalid H0 Hmax.
  - exists p. simpl. repeat split; try reflexivity; [exact Hp | lia].
  - cbn [Blog.getPost_times]. rewrite (blog_read_once _ _ _ _ _ Hcast Hp Hid).
    destruct (incrementViews_fields now p Hvalid)
      as (saved & -> & Hvalid' & Hi & Hs & Hv & Ht & Hc & Ha & Hl & Hpub).
    cbn [snd]. cbn [length] in Hmax.
    rewrite to_double_exact in Hv by lia.
    destruct (IH (<[k := saved]> posts) id k saved Hcast (lookup_insert_eq _ _ _)
                (eq_trans Hi Hid) Hvalid' ltac:(lia) ltac:(lia))
      as (p' & Hstored & Hothers & Hv' & Hs' & Ht' & Hc' & Ha' & Hl' & Hpub').
    exists p'. split; [exact Hstored |].
    split.
    { intros k' Hk'. rewrite (Hothers k' Hk'). apply lookup_insert_ne. congruence. }
    split; [rewrite Hv', Hv; cbn [length]; lia |].
    split; [congruence |].
    split; [congruence |]. split; [congruence |].
    split; [congruence |]. split; [congruence |].
    rewrite Hpub', Hs, Hpub.
    destruct later, (String.eqb (Blog.status p) "published"); reflexivity.
Qed.

End BlogReads.

(** X28: a GET of a stored blog post that passes the schema's validators
    counts as a view: it answers with the view count one higher than
    stored, and after any number of GETs of the id, one after the other,
    the stored count has grown by that number, while title, content, author,
    likes and status stay and no other post changes; this as long as the
    count, which is not negative, stays within 2^53.  A count that has
    reached 2^53 stays there.  A stored post that fails the validators is
    answered 500 and nothing is counted.  The post is stored under its
    id. *)
Theorem reads_count_views `{NodeLibs}
    (posts : gmap string Blog.Post) (id k : string) (p : Blog.Post)
    (now : Z) (times : list Z) :
  cast_object_id (JStr id) = Some k -> posts !! k = Some p -> Blog.p_id p = k ->
  (Blog.valid p = false ->
   Blog.getPost posts now id = (Blog.Failure 500 "ValidationError", posts))
  /\ (Blog.valid p = true ->
      (Blog.viewsCount p = 2 ^ 53 ->
       exists shown, Blog.getPost posts now id
                     = (Blog.Sent 200 shown, <[k := shown]> posts)
                     /\ Blog.viewsCount shown = 2 ^ 53)
      /\ (0 <= Blog.viewsCount p < 2 ^ 53 ->
          exists shown, Blog.getPost posts now id
                        = (Blog.Sent 200 shown, <[k := shown]> posts)
                        /\ Blog.viewsCount shown = Blog.viewsCount p + 1)
      /\ (0 <= Blog.viewsCount p ->
          Blog.viewsCount p + Z.of_nat (length times) <= 2 ^ 53 ->
          exists p',
            Blog.getPost_times posts id times !! k = Some p'
            /\ Blog.viewsCount p' = Blog.viewsCount p + Z.of_nat (length times)
            /\ Blog.title p' = Blog.title p /\ Blog.content p' = Blog.content p
            /\ Blog.author p' = Blog.author p
            /\ Blog.likesCount p' = Blog.likesCount p
            /\ Blog.status p' = Blog.status p
            /\ forall k', k' <> k ->
                 Blog.getPost_times posts id times !! k' = posts !! k')).
Proof.
  intros Hcast Hp Hid. rewrite (blog_read_once _ _ _ _ _ Hcast Hp Hid). split.
  - intros Hinvalid. unfold Blog.incrementViews, Blog.save.
    change (Blog.valid (Blog.viewed p)) with (Blog.valid p). rewrite Hinvalid.
    reflexivity.
  - intros Hvalid.
    destruct (incrementViews_fields now p Hvalid)
      as (saved & -> & _ & _ & _ & Hv & _).
    split; [| split].
    + intros Hfull. exists saved. split; [reflexivity |].
      rewrite Hv, Hfull. vm_compute. reflexivity.
    + intros Hrange. exists saved. split; [reflexivity |].
      rewrite Hv. apply to_double_exact. lia.
    + intros H0 Hmax.
      destruct (blog_reads times posts id k p Hcast Hp Hid Hvalid H0 Hmax)
        as (p' & Hstored & Hothers & Hv' & Hs & Ht & Hc & Ha & Hl & _).
      exists p'. repeat split; assumption.
Qed.

Lemma reads_count_views_witness :
  exists p',
    Blog.getPost_times Blog.shelf Blog.story_id [100; 200; 300] !! Blog.story_id
    = Some p'
    /\ Blog.viewsCount p'
       = Blog.viewsCount Blog.story + Z.of_nat (length [100; 200; 300])
    /\ Blog.title p' = Blog.title Blog.story
    /\ Blog.content p' = Blog.content Blog.story
    /\ Blog.author p' = Blog.author Blog.story
    /\ Blog.likesCount p' = Blog.likesCount Blog.story
    /\ Blog.status p' = Blog.status Blog.story
    /\ forall k', k' <> Blog.story_id ->
         Blog.getPost_times Blog.shelf Blog.story_id [100; 200; 300] !! k'
         = Blog.shelf !! k'.
Proof.
  destruct (reads_count_views Blog.shelf Blog.story_id Blog.story_id Blog.story 100
              [100; 200; 300]) as [_ Hvalid].
  - reflexivity.
  - vm_compute. reflexivity.
  - reflexivity.
  - destruct (Hvalid ltac:(vm_compute; reflexivity)) as (_ & _ & Hcount).
    apply Hcount; vm_compute; discriminate.
Defined.

(** X29: the first GET of a stored post that passes the schema's validators,
    is published and has no publication date gives it one, the time of that
    read, and no later read changes it; a date it already has is kept, and
    a post that is not published gets none by being read.  The reads come
    one after the other and the view count stays within 2^53.  The post is
    stored under its id. *)
Theorem first_read_sets_publishedAt `{NodeLibs}
    (posts : gmap string Blog.Post) (id k : string) (p : Blog.Post)
    (first : Z) (later : list Z) :
  cast_object_id (JStr id) = Some k -> posts !! k = Some p -> Blog.p_id p = k ->
  Blog.valid p = true ->
  0 <= Blog.viewsCount p ->
  Blog.viewsCount p + Z.of_nat (length (first :: later)) <= 2 ^ 53 ->
  exists p',
    Blog.getPost_times posts id (first :: later) !! k = Some p'
    /\ Blog.publishedAt p'
       = if String.eqb (Blog.status p) "published"
         then Some (default first (Blog.publishedAt p))
         else Blog.publishedAt p.
Proof.
  intros Hcast Hp Hid Hvalid H0 Hmax.
  destruct (blog_reads (first :: later) posts id k p Hcast Hp Hid Hvalid H0 Hmax)
    as (p' & Hstored & _ & _ & _ & _ & _ & _ & _ & Hpub).
  exists p'. split; [exact Hstored | exact Hpub].
Qed.

Lemma first_read_sets_publishedAt_witness :
  exists p',
    Blog.getPost_times Blog.shelf Blog.story_id [100; 200; 300] !! Blog.story_id
    = Some p'
    /\ Blog.publishedAt p' = Some 100.
Proof.
  apply (first_read_sets_publishedAt Blog.shelf Blog.story_id Blog.story_id
           Blog.story 100 [200; 300]).
  - reflexivity.
  - vm_compute. reflexivity.
  - reflexivity.
  - vm_compute. reflexivity.
  - vm_compute. discriminate.
  - vm_compute. discriminate.
Defined.

(** ** Chat relay: what one event does *)

(** X30: a message event that the handler survives is relayed exactly as
    it is recorded: the one thing emitted is the broadcast of the message to
    its room, that message is the last entry of the room's history
    afterwards, behind all earlier entries, and no other room's history
    changes; joining and disconnecting change no history and relay
    nothing. *)
Theorem message_is_recorded_and_relayed
    (s s' : Chat.State) (e : Chat.Event) (out : list Chat.Emit) :
  Chat.handle s e = Some (s', out) ->
  match e with
  | Chat.message room user text now =>
      let msg := {| Chat.user := user; Chat.text := text; Chat.timestamp := now |} in
      out = [Chat.broadcast room msg]
      /\ Chat.chatHistory s' !! room = Some (Chat.history_of s room ++ [msg])%list
      /\ forall other, other <> room ->
           Chat.chatHistory s' !! other = Chat.chatHistory s !! other
  | _ =>
      Chat.chatHistory s' = Chat.chatHistory s
      /\ forall room msg, Chat.broadcast room msg ∉ out
  end.
Proof.
  destruct e as [socket room | room user text now | socket];
    unfold Chat.handle; cbv zeta.
  - destruct (Chat.truthy _); intros [= <- <-]; (split; [reflexivity |]);
      intros r m Hin.
    + apply list_elem_of_singleton in Hin. discriminate.
    + apply elem_of_nil in Hin. exact Hin.
  - unfold Chat.history_of.
    destruct (Chat.chatHistory s !! room) as [l |] eqn:Hl.
    + unfold Chat.get. rewrite Hl. cbn [Chat.truthy negb]. rewrite Hl.
      intros [= <- <-]. cbn [Chat.chatHistory]. split; [reflexivity |].
      split; [apply lookup_insert_eq |].
      intros other Hne. apply lookup_insert_ne. congruence.
    + unfold Chat.get. rewrite Hl. case_bool_decide as Hproto; cbn [Chat.truthy negb].
      * rewrite Hl. discriminate.
      * rewrite lookup_insert_eq. intros [= <- <-]. cbn [Chat.chatHistory].
        split; [reflexivity |].
        split; [apply lookup_insert_eq |].
        intros other Hne. rewrite !lookup_insert_ne by congruence. reflexivity.
  - intros [= <- <-]. split; [reflexivity |].
    intros r m Hin. apply elem_of_nil in Hin. exact Hin.
Qed.

Lemma message_is_recorded_and_relayed_witness :
  [Chat.broadcast "lobby" {| Chat.user := "ann"; Chat.text := "hi"; Chat.timestamp := 1 |}]
  = [Chat.broadcast "lobby" {| Chat.user := "ann"; Chat.text := "hi"; Chat.timestamp := 1 |}]
  /\ Chat.chatHistory
       {| Chat.chatHistory :=
            {[ "lobby" := [{| Chat.user := "ann"; Chat.text := "hi";
                              Chat.timestamp := 1 |}] ]};
          Chat.rooms := ∅ |} !! "lobby"
     = Some (Chat.history_of Chat.init "lobby"
             ++ [{| Chat.user := "ann"; Chat.text := "hi"; Chat.timestamp := 1 |}])%list
  /\ forall other, other <> "lobby" ->
       Chat.chatHistory
         {| Chat.chatHistory :=
              {[ "lobby" := [{| Chat.user := "ann"; Chat.text := "hi";
                                Chat.timestamp := 1 |}] ]};
            Chat.rooms := ∅ |} !! other
       = Chat.chatHistory Chat.init !! other.
Proof.
  apply (message_is_recorded_and_relayed Chat.init _ (Chat.message "lobby" "ann" "hi" 1)).
  vm_compute. reflexivity.
Defined.
